(** * ClasSync scan server: the extraction quality pipeline

    A shallow embedding of [server.js] and [curriculum-reference.js]:
    the curriculum reference table, the reference hydration of extracted
    subjects, the per-image and the overall extraction validation, the
    deduplication of the merged subjects and the request handler of
    [POST /api/scan-curriculum] that sequences them.

    JavaScript strings are modelled by [string], read as sequences of code
    units below 256.  [toLowerCase] is modelled on all of them: the lower
    case of a code unit below 256 is again one code unit below 256.
    [toUpperCase] is modelled on the ASCII letters and leaves every other
    code unit as it is: the upper case of some units from 128 on is not a
    code unit below 256, and the properties that depend on the upper case of
    a code outside the reference table are stated for ASCII codes.  The
    class [\s] is modelled by its members below 256.  Array lengths are
    [nat], the units of a subject are [Z] (the range of [parseInt]).

    The recognizer and the image preprocessing are collaborators of the
    handler, given to it as functions.  The rows of a recognizer's answer
    are modelled as the prompt asks for them: a text field holds text or
    nothing, a numeric field a number or nothing.  The parse of the
    recognizer's answer, the upscaling of the preprocessing and the grades
    route are embedded after the handler. *)

From stdpp Require Import gmap strings list pretty.
From Stdlib Require Import ZArith Ascii.
From Stdlib Require Import QArith.

Local Close Scope Q_scope.

Local Open Scope string_scope.

(** ** Strings *)

Module JsString.

(** The code units below 256 matched by [\s] (and removed by [trim]):
    TAB, LF, VT, FF, CR, SPACE and NBSP. *)
Definition isWhiteSpace (c : ascii) : bool :=
  let n := nat_of_ascii c in
  ((9 <=? n)%nat && (n <=? 13)%nat) || (n =? 32)%nat || (n =? 160)%nat.

(** The upper case of an ASCII code unit. *)
Definition upperChar (c : ascii) : ascii :=
  let n := nat_of_ascii c in
  if ((97 <=? n)%nat && (n <=? 122)%nat) then ascii_of_nat (n - 32) else c.

(** The lower case of a code unit below 256: the letters A to Z and the
    capital letters of U+00C0 to U+00DE (the multiplication sign U+00D7 is
    not a letter) are 32 below their small letters. *)
Definition lowerChar (c : ascii) : ascii :=
  let n := nat_of_ascii c in
  if ((65 <=? n)%nat && (n <=? 90)%nat)
     || ((192 <=? n)%nat && (n <=? 214)%nat)
     || ((216 <=? n)%nat && (n <=? 222)%nat)
  then ascii_of_nat (n + 32) else c.

Fixpoint mapChars (f : ascii → ascii) (s : string) : string :=
  match s with
  | EmptyString => EmptyString
  | String c r => String (f c) (mapChars f r)
  end.

(** [s.toUpperCase()] and [s.toLowerCase()] *)
Definition toUpperCase : string → string := mapChars upperChar.
Definition toLowerCase : string → string := mapChars lowerChar.

(** [s.replace(/\s+/g, "")]: every maximal run of white space is replaced
    by the empty string, so every white space character goes. *)
Fixpoint removeWhiteSpace (s : string) : string :=
  match s with
  | EmptyString => EmptyString
  | String c r =>
      if isWhiteSpace c then removeWhiteSpace r
      else String c (removeWhiteSpace r)
  end.

Fixpoint trimStart (s : string) : string :=
  match s with
  | EmptyString => EmptyString
  | String c r => if isWhiteSpace c then trimStart r else s
  end.

Fixpoint trimEnd (s : string) : string :=
  match s with
  | EmptyString => EmptyString
  | String c r =>
      match trimEnd r with
      | EmptyString => if isWhiteSpace c then EmptyString else String c EmptyString
      | r' => String c r'
      end
  end.

(** [s.trim()] *)
Definition trim (s : string) : string := trimEnd (trimStart s).

End JsString.

Import JsString.

(** ** The curriculum reference ([curriculum-reference.js]) *)

Module Ref.
Record t := {
  name : string;
  lecUnits : Z;
  labUnits : Z;
  units : Z;
  yearLevel : string;
  semester : string
}.
End Ref.

(** The object literal [CURRICULUM_REFERENCE], as its properties in
    insertion order (the order [Object.keys] lists them in: no key is an
    array index). *)
Definition CURRICULUM_REFERENCE : list (string * Ref.t) :=
  [
    ("CS 101", {| Ref.name := "Introduction to Computing"; Ref.lecUnits := 3; Ref.labUnits := 0; Ref.units := 3;
       Ref.yearLevel := "1st Year"; Ref.semester := "1st Semester" |});
    ("CS 102", {| Ref.name := "Computer Programming 1 (Fundamentals of Programming)"; Ref.lecUnits := 2; Ref.labUnits := 1; Ref.units := 3;
       Ref.yearLevel := "1st Year"; Ref.semester := "1st Semester" |});
    ("Math 101", {| Ref.name := "Mathematical Analysis 1"; Ref.lecUnits := 5; Ref.labUnits := 0; Ref.units := 5;
       Ref.yearLevel := "1st Year"; Ref.semester := "1st Semester" |});
    ("Phys 1", {| Ref.name := "Physics for Computing"; Ref.lecUnits := 3; Ref.labUnits := 0; Ref.units := 3;
       Ref.yearLevel := "1st Year"; Ref.semester := "1st Semester" |});
    ("GEC 11", {| Ref.name := "Understanding the Self"; Ref.lecUnits := 3; Ref.labUnits := 0; Ref.units := 3;
       Ref.yearLevel := "1st Year"; Ref.semester := "1st Semester" |});
    ("PATHFIT 1", {| Ref.name := "Movement Competency Training"; Ref.lecUnits := 2; Ref.labUnits := 0; Ref.units := 2;
       Ref.yearLevel := "1st Year"; Ref.semester := "1st Semester" |});
    ("NSTP 11", {| Ref.name := "LTS/CWTS/ROTC"; Ref.lecUnits := 3; Ref.labUnits := 0; Ref.units := 3;
       Ref.yearLevel := "1st Year"; Ref.semester := "1st Semester" |});
    ("CS 103", {| Ref.name := "Computer Programming 2 (Intermediate Programming)"; Ref.lecUnits := 2; Ref.labUnits := 1; Ref.units := 3;
       Ref.yearLevel := "1st Year"; Ref.semester := "2nd Semester" |});
    ("CS 107", {| Ref.name := "Digital System Design"; Ref.lecUnits := 2; Ref.labUnits := 1; Ref.units := 3;
       Ref.yearLevel := "1st Year"; Ref.semester := "2nd Semester" |});
    ("Math 102", {| Ref.name := "Mathematical Analysis 2"; Ref.lecUnits := 5; Ref.labUnits := 0; Ref.units := 5;
       Ref.yearLevel := "1st Year"; Ref.semester := "2nd Semester" |});
    ("GEC 12", {| Ref.name := "Readings in the Philippine History"; Ref.lecUnits := 3; Ref.labUnits := 0; Ref.units := 3;
       Ref.yearLevel := "1st Year"; Ref.semester := "2nd Semester" |});
    ("GEC 13", {| Ref.name := "The Contemporary World"; Ref.lecUnits := 3; Ref.labUnits := 0; Ref.units := 3;
       Ref.yearLevel := "1st Year"; Ref.semester := "2nd Semester" |});
    ("PATHFIT 2", {| Ref.name := "Exercise-based Fitness Activities"; Ref.lecUnits := 2; Ref.labUnits := 0; Ref.units := 2;
       Ref.yearLevel := "1st Year"; Ref.semester := "2nd Semester" |});
    ("NSTP 2", {| Ref.name := "LTS/CWTS/ROTC"; Ref.lecUnits := 3; Ref.labUnits := 0; Ref.units := 3;
       Ref.yearLevel := "1st Year"; Ref.semester := "2nd Semester" |});
    ("CS 104", {| Ref.name := "Data Structure and Algorithm"; Ref.lecUnits := 2; Ref.labUnits := 1; Ref.units := 3;
       Ref.yearLevel := "2nd Year"; Ref.semester := "1st Semester" |});
    ("CS 106", {| Ref.name := "Application Development and Emerging Technologies"; Ref.lecUnits := 2; Ref.labUnits := 1; Ref.units := 3;
       Ref.yearLevel := "2nd Year"; Ref.semester := "1st Semester" |});
    ("CS 108", {| Ref.name := "Object-oriented Programming"; Ref.lecUnits := 2; Ref.labUnits := 1; Ref.units := 3;
       Ref.yearLevel := "2nd Year"; Ref.semester := "1st Semester" |});
    ("CS 109", {| Ref.name := "Discrete Structures 1"; Ref.lecUnits := 3; Ref.labUnits := 0; Ref.units := 3;
       Ref.yearLevel := "2nd Year"; Ref.semester := "1st Semester" |});
    ("Math Elec 101", {| Ref.name := "Linear Algebra"; Ref.lecUnits := 3; Ref.labUnits := 0; Ref.units := 3;
       Ref.yearLevel := "2nd Year"; Ref.semester := "1st Semester" |});
    ("GEC 14", {| Ref.name := "Mathematics in the Modern World"; Ref.lecUnits := 3; Ref.labUnits := 0; Ref.units := 3;
       Ref.yearLevel := "2nd Year"; Ref.semester := "1st Semester" |});
    ("PATHFIT 3", {| Ref.name := "Menu of Dance, Sports, Martial Arts, Group Exercises and Outdoor Adventure Activities"; Ref.lecUnits := 2; Ref.labUnits := 0; Ref.units := 2;
       Ref.yearLevel := "2nd Year"; Ref.semester := "1st Semester" |});
    ("CS 105", {| Ref.name := "Information Management"; Ref.lecUnits := 2; Ref.labUnits := 1; Ref.units := 3;
       Ref.yearLevel := "2nd Year"; Ref.semester := "2nd Semester" |});
    ("CS 110", {| Ref.name := "Discrete Structures 2"; Ref.lecUnits := 3; Ref.labUnits := 0; Ref.units := 3;
       Ref.yearLevel := "2nd Year"; Ref.semester := "2nd Semester" |});
    ("CS 111", {| Ref.name := "Design and Analysis of Algorithms"; Ref.lecUnits := 3; Ref.labUnits := 0; Ref.units := 3;
       Ref.yearLevel := "2nd Year"; Ref.semester := "2nd Semester" |});
    ("CS 112", {| Ref.name := "Programming Languages"; Ref.lecUnits := 2; Ref.labUnits := 1; Ref.units := 3;
       Ref.yearLevel := "2nd Year"; Ref.semester := "2nd Semester" |});
    ("CS 113", {| Ref.name := "Special Topics In Computing"; Ref.lecUnits := 1; Ref.labUnits := 0; Ref.units := 1;
       Ref.yearLevel := "2nd Year"; Ref.semester := "2nd Semester" |});
    ("Math Elec 102", {| Ref.name := "Differential Equations"; Ref.lecUnits := 3; Ref.labUnits := 0; Ref.units := 3;
       Ref.yearLevel := "2nd Year"; Ref.semester := "2nd Semester" |});
    ("GEC 15", {| Ref.name := "Purposive Communication"; Ref.lecUnits := 3; Ref.labUnits := 0; Ref.units := 3;
       Ref.yearLevel := "2nd Year"; Ref.semester := "2nd Semester" |});
    ("PATHFIT 4", {| Ref.name := "Menu of Dance, Sports, Martial Arts, Group Exercises and Outdoor Adventure Activities"; Ref.lecUnits := 2; Ref.labUnits := 0; Ref.units := 2;
       Ref.yearLevel := "2nd Year"; Ref.semester := "2nd Semester" |});
    ("CS 114", {| Ref.name := "Operating Systems"; Ref.lecUnits := 2; Ref.labUnits := 1; Ref.units := 3;
       Ref.yearLevel := "3rd Year"; Ref.semester := "1st Semester" |});
    ("CS 115", {| Ref.name := "Computer Architecture and Organization"; Ref.lecUnits := 3; Ref.labUnits := 0; Ref.units := 3;
       Ref.yearLevel := "3rd Year"; Ref.semester := "1st Semester" |});
    ("CS 116", {| Ref.name := "Automata Theory and Formal Languages"; Ref.lecUnits := 3; Ref.labUnits := 0; Ref.units := 3;
       Ref.yearLevel := "3rd Year"; Ref.semester := "1st Semester" |});
    ("CS 117", {| Ref.name := "Software Engineering 1"; Ref.lecUnits := 2; Ref.labUnits := 1; Ref.units := 3;
       Ref.yearLevel := "3rd Year"; Ref.semester := "1st Semester" |});
    ("CS Elec 1", {| Ref.name := "CS Elective 1"; Ref.lecUnits := 3; Ref.labUnits := 0; Ref.units := 3;
       Ref.yearLevel := "3rd Year"; Ref.semester := "1st Semester" |});
    ("GEC 16", {| Ref.name := "Art Appreciation"; Ref.lecUnits := 3; Ref.labUnits := 0; Ref.units := 3;
       Ref.yearLevel := "3rd Year"; Ref.semester := "1st Semester" |});
    ("CS 118", {| Ref.name := "Software Engineering 2"; Ref.lecUnits := 2; Ref.labUnits := 1; Ref.units := 3;
       Ref.yearLevel := "3rd Year"; Ref.semester := "2nd Semester" |});
    ("CS 119", {| Ref.name := "Networks and Communications"; Ref.lecUnits := 2; Ref.labUnits := 1; Ref.units := 3;
       Ref.yearLevel := "3rd Year"; Ref.semester := "2nd Semester" |});
    ("CS 120", {| Ref.name := "Human Computer Interaction"; Ref.lecUnits := 1; Ref.labUnits := 0; Ref.units := 1;
       Ref.yearLevel := "3rd Year"; Ref.semester := "2nd Semester" |});
    ("CS 121", {| Ref.name := "Information Assurance and Security"; Ref.lecUnits := 2; Ref.labUnits := 0; Ref.units := 2;
       Ref.yearLevel := "3rd Year"; Ref.semester := "2nd Semester" |});
    ("CS Elec 2", {| Ref.name := "CS Elective 2"; Ref.lecUnits := 2; Ref.labUnits := 1; Ref.units := 3;
       Ref.yearLevel := "3rd Year"; Ref.semester := "2nd Semester" |});
    ("GEC 17", {| Ref.name := "Science, Technology and Society"; Ref.lecUnits := 3; Ref.labUnits := 0; Ref.units := 3;
       Ref.yearLevel := "3rd Year"; Ref.semester := "2nd Semester" |});
    ("GEC 18", {| Ref.name := "Ethics"; Ref.lecUnits := 3; Ref.labUnits := 0; Ref.units := 3;
       Ref.yearLevel := "3rd Year"; Ref.semester := "2nd Semester" |});
    ("CS 122", {| Ref.name := "Practicum (240 hours)"; Ref.lecUnits := 3; Ref.labUnits := 0; Ref.units := 3;
       Ref.yearLevel := "3rd Year"; Ref.semester := "Summer" |});
    ("CS 123", {| Ref.name := "Numerical Analysis"; Ref.lecUnits := 3; Ref.labUnits := 0; Ref.units := 3;
       Ref.yearLevel := "4th Year"; Ref.semester := "1st Semester" |});
    ("CS 124", {| Ref.name := "CS Thesis 1"; Ref.lecUnits := 2; Ref.labUnits := 1; Ref.units := 3;
       Ref.yearLevel := "4th Year"; Ref.semester := "1st Semester" |});
    ("CS Elec 3", {| Ref.name := "CS Elective 3"; Ref.lecUnits := 3; Ref.labUnits := 0; Ref.units := 3;
       Ref.yearLevel := "4th Year"; Ref.semester := "1st Semester" |});
    ("GEC 20", {| Ref.name := "The Entrepreneurial Mind"; Ref.lecUnits := 3; Ref.labUnits := 0; Ref.units := 3;
       Ref.yearLevel := "4th Year"; Ref.semester := "1st Semester" |});
    ("GEC Elec 1", {| Ref.name := "Environmental Science"; Ref.lecUnits := 3; Ref.labUnits := 0; Ref.units := 3;
       Ref.yearLevel := "4th Year"; Ref.semester := "1st Semester" |});
    ("GEC Elec 22", {| Ref.name := "Great Books"; Ref.lecUnits := 3; Ref.labUnits := 0; Ref.units := 3;
       Ref.yearLevel := "4th Year"; Ref.semester := "1st Semester" |});
    ("CS 125", {| Ref.name := "CS Thesis 2"; Ref.lecUnits := 3; Ref.labUnits := 0; Ref.units := 3;
       Ref.yearLevel := "4th Year"; Ref.semester := "2nd Semester" |});
    ("CS 126", {| Ref.name := "Social Issues and Professional Practice"; Ref.lecUnits := 3; Ref.labUnits := 0; Ref.units := 3;
       Ref.yearLevel := "4th Year"; Ref.semester := "2nd Semester" |});
    ("GEC 19", {| Ref.name := "Life and Works of Rizal"; Ref.lecUnits := 3; Ref.labUnits := 0; Ref.units := 3;
       Ref.yearLevel := "4th Year"; Ref.semester := "2nd Semester" |});
    ("GEC Elec 2", {| Ref.name := "Living in the IT Era"; Ref.lecUnits := 3; Ref.labUnits := 0; Ref.units := 3;
       Ref.yearLevel := "4th Year"; Ref.semester := "2nd Semester" |});
    ("GEC Elec 21", {| Ref.name := "Human Reproduction"; Ref.lecUnits := 3; Ref.labUnits := 0; Ref.units := 3;
       Ref.yearLevel := "4th Year"; Ref.semester := "2nd Semester" |})
  ]%Z.

(** [Object.keys(obj)] *)
Definition Object_keys {V} (obj : list (string * V)) : list string := obj.*1.

(** ** Subjects *)

(** One row of the curriculum as the request handler builds it from the
    recognizer's answer, and as hydration rewrites it. *)
Record Subject := {
  subjectCode : string;
  subjectName : string;
  lecUnits : Z;
  labUnits : Z;
  units : Z;
  yearLevel : string;
  semester : string
}.

(** ** Hydration from the reference ([hydrateSubjectsFromReference]) *)

(** The key normalisation written twice in the source:
    [key.toUpperCase().replace(/\s+/g, "")]. *)
Definition normalized (key : string) : string :=
  removeWhiteSpace (toUpperCase key).

(** [refLookup]: normalised key to [{ refKey, reference }], filled by the
    [forEach] over the reference keys (a later key with the same normalised
    form overwrites an earlier one).  Every key looked up in it is the result
    of [toUpperCase], so no property inherited from [Object.prototype]
    (their names all have a lower case letter) is ever found. *)
Definition refLookup : gmap string (string * Ref.t) :=
  foldl (λ m kv, <[normalized kv.1 := (kv.1, kv.2)]> m) ∅ CURRICULUM_REFERENCE.

(** The callback of [subjects.map] in [hydrateSubjectsFromReference]. *)
Definition hydrateSubject (subject : Subject) : Subject :=
  let code := trim (subjectCode subject) in
  let normalizedCode := removeWhiteSpace (toUpperCase code) in
  match refLookup !! normalizedCode with
  | Some (refKey, reference) =>
      {| subjectCode := refKey;
         subjectName := Ref.name reference;
         lecUnits := Ref.lecUnits reference;
         labUnits := Ref.labUnits reference;
         units := Ref.units reference;
         yearLevel := Ref.yearLevel reference;
         semester := Ref.semester reference |}
  | None => subject
  end.

Definition hydrateSubjectsFromReference (subjects : list Subject) : list Subject :=
  hydrateSubject <$> subjects.

(** ** Per-image validation ([validateExtractionQuality]) *)

Module ImageValidation.
Record t := {
  isGood : bool;
  issues : list string;
  warnings : list string;
  subjectCount : nat;
  missingCourses : list string
}.

(** [validation.issues.push(msg)] and its siblings *)
Definition pushIssue (msg : string) (v : t) : t :=
  {| isGood := isGood v; issues := issues v ++ [msg]; warnings := warnings v;
     subjectCount := subjectCount v; missingCourses := missingCourses v |}.
Definition pushWarning (msg : string) (v : t) : t :=
  {| isGood := isGood v; issues := issues v; warnings := warnings v ++ [msg];
     subjectCount := subjectCount v; missingCourses := missingCourses v |}.
Definition pushMissingCourse (code : string) (v : t) : t :=
  {| isGood := isGood v; issues := issues v; warnings := warnings v;
     subjectCount := subjectCount v; missingCourses := missingCourses v ++ [code] |}.
Definition setIsGood (b : bool) (v : t) : t :=
  {| isGood := b; issues := issues v; warnings := warnings v;
     subjectCount := subjectCount v; missingCourses := missingCourses v |}.
End ImageValidation.

Module Expected.
Record t := { min : nat; max : nat; description : string }.
End Expected.

(** [expectedCounts[imageNumber]] for a number [imageNumber]: the object
    has the two keys 1 and 2. *)
Definition expectedCounts (imageNumber : Z) : option Expected.t :=
  if (imageNumber =? 1)%Z then
    Some {| Expected.min := 27; Expected.max := 31;
            Expected.description := "1st & 2nd Year" |}
  else if (imageNumber =? 2)%Z then
    Some {| Expected.min := 23; Expected.max := 27;
            Expected.description := "3rd Year + Summer + 4th Year" |}
  else None.

(** The first block of [validateExtractionQuality]: the count of the
    subjects against the expected range of the image.  In range, [isGood] is
    set, tentatively. *)
Definition checkExpectedCount (subjects : list Subject) (imageNumber : Z)
    (v : ImageValidation.t) : ImageValidation.t :=
  match expectedCounts imageNumber with
  | Some expected =>
      if (length subjects <? Expected.min expected)%nat then
        ImageValidation.pushIssue
          ("Only " +:+ pretty (length subjects) +:+ " subjects found (expected "
             +:+ pretty (Expected.min expected) +:+ "-"
             +:+ pretty (Expected.max expected) +:+ " for "
             +:+ Expected.description expected +:+ ")") v
      else if (Expected.max expected <? length subjects)%nat then
        ImageValidation.pushWarning
          ("Found " +:+ pretty (length subjects) +:+ " subjects (expected "
             +:+ pretty (Expected.min expected) +:+ "-"
             +:+ pretty (Expected.max expected) +:+ "). May have duplicates.") v
      else ImageValidation.setIsGood true v
  | None => v
  end.

(** The [forEach] that counts the subjects by [yearLevel]:
    [byYear[s.yearLevel] = (byYear[s.yearLevel] || 0) + 1].  (For a year
    level that names a property inherited from [Object.prototype] the source
    stores no count; the checks below read the four year names only.) *)
Definition countByYear (subjects : list Subject) : gmap string nat :=
  foldl (λ byYear s, <[yearLevel s := default 0 (byYear !! yearLevel s) + 1]> byYear)
        ∅ subjects.

(** [!byYear[year] || byYear[year] < k] *)
Definition yearBelow (byYear : gmap string nat) (year : string) (k : nat) : bool :=
  match byYear !! year with
  | None => true
  | Some n => (n =? 0)%nat || (n <? k)%nat
  end.

(** [subjects.some((s) => s.subjectCode === code)] *)
Definition someWithCode (code : string) (subjects : list Subject) : bool :=
  existsb (λ s, bool_decide (subjectCode s = code)) subjects.

(** [subjects.find((s) => s.subjectCode === code)] *)
Definition findWithCode (code : string) (subjects : list Subject) : option Subject :=
  List.find (λ s, bool_decide (subjectCode s = code)) subjects.

Definition checkImage1 (byYear : gmap string nat)
    (v : ImageValidation.t) : ImageValidation.t :=
  let v := if yearBelow byYear "1st Year" 12
           then ImageValidation.pushIssue "1st Year incomplete or missing" v else v in
  if yearBelow byYear "2nd Year" 13
  then ImageValidation.pushIssue "2nd Year incomplete or missing" v else v.

Definition checkImage2 (subjects : list Subject) (byYear : gmap string nat)
    (v : ImageValidation.t) : ImageValidation.t :=
  let v := if yearBelow byYear "3rd Year" 11
           then ImageValidation.pushIssue "3rd Year incomplete or missing" v else v in
  let v := if yearBelow byYear "4th Year" 9
           then ImageValidation.pushIssue "4th Year incomplete or missing" v else v in
  if negb (someWithCode "CS 122" subjects) then
    ImageValidation.pushMissingCourse "CS 122"
      (ImageValidation.pushIssue "Summer semester missing (CS 122 - Practicum)" v)
  else
    match findWithCode "CS 122" subjects with
    | Some cs122 =>
        if bool_decide (semester cs122 ≠ "Summer") then
          ImageValidation.pushWarning
            ("CS 122 in wrong semester (" +:+ semester cs122 +:+ "), should be Summer") v
        else v
    | None => v
    end.

(** The validation before its last assignment: the count check, then the
    checks of image 1 and of image 2. *)
Definition tentativeValidation (subjects : list Subject) (imageNumber : Z)
    : ImageValidation.t :=
  let v := {| ImageValidation.isGood := false;
              ImageValidation.issues := [];
              ImageValidation.warnings := [];
              ImageValidation.subjectCount := length subjects;
              ImageValidation.missingCourses := [] |} in
  let v := checkExpectedCount subjects imageNumber v in
  let byYear := countByYear subjects in
  let v := if (imageNumber =? 1)%Z then checkImage1 byYear v else v in
  if (imageNumber =? 2)%Z then checkImage2 subjects byYear v else v.

Definition validateExtractionQuality (subjects : list Subject) (imageNumber : Z)
    : ImageValidation.t :=
  let v := tentativeValidation subjects imageNumber in
  (* validation.isGood = validation.issues.length === 0 *)
  ImageValidation.setIsGood (length (ImageValidation.issues v) =? 0)%nat v.

(** ** Overall validation ([validateOverallExtraction]) *)

(** One entry of [imageResults]; its [quality] field (the image statistics,
    only logged) is left out. *)
Record ImageResult := {
  imageNumber : Z;
  originalFile : string;
  subjects : list Subject;
  validation : option ImageValidation.t
}.

Module OverallValidation.
Record t := {
  success : bool;
  quality : string;
  totalCount : nat;
  issues : list string;
  warnings : list string;
  missingCourses : list string;
  byYear : gmap string nat
}.

Definition pushIssue (msg : string) (v : t) : t :=
  {| success := success v; quality := quality v; totalCount := totalCount v;
     issues := issues v ++ [msg]; warnings := warnings v;
     missingCourses := missingCourses v; byYear := byYear v |}.
Definition pushWarning (msg : string) (v : t) : t :=
  {| success := success v; quality := quality v; totalCount := totalCount v;
     issues := issues v; warnings := warnings v ++ [msg];
     missingCourses := missingCourses v; byYear := byYear v |}.
Definition pushMissingCourse (code : string) (v : t) : t :=
  {| success := success v; quality := quality v; totalCount := totalCount v;
     issues := issues v; warnings := warnings v;
     missingCourses := missingCourses v ++ [code]; byYear := byYear v |}.
Definition setMissingCourses (codes : list string) (v : t) : t :=
  {| success := success v; quality := quality v; totalCount := totalCount v;
     issues := issues v; warnings := warnings v;
     missingCourses := codes; byYear := byYear v |}.
Definition setQuality (q : string) (v : t) : t :=
  {| success := success v; quality := q; totalCount := totalCount v;
     issues := issues v; warnings := warnings v;
     missingCourses := missingCourses v; byYear := byYear v |}.
Definition setSuccess (b : bool) (v : t) : t :=
  {| success := b; quality := quality v; totalCount := totalCount v;
     issues := issues v; warnings := warnings v;
     missingCourses := missingCourses v; byYear := byYear v |}.
Definition setByYear (m : gmap string nat) (v : t) : t :=
  {| success := success v; quality := quality v; totalCount := totalCount v;
     issues := issues v; warnings := warnings v;
     missingCourses := missingCourses v; byYear := m |}.
End OverallValidation.

(** [imageResults[i]?.validation?.isGood || false] *)
Definition imageGood (imageResults : list ImageResult) (i : nat) : bool :=
  match imageResults !! i with
  | Some r =>
      match validation r with
      | Some v => ImageValidation.isGood v
      | None => false
      end
  | None => false
  end.

(** The total count check: the quality tier, [success] and the message
    that goes with them. *)
Definition checkTotalCount (allSubjects : list Subject) (imageResults : list ImageResult)
    (v : OverallValidation.t) : OverallValidation.t :=
  let image1Good := imageGood imageResults 0 in
  let image2Good := imageGood imageResults 1 in
  let bothImagesGood := image1Good && image2Good in
  let n := length allSubjects in
  if (54 <=? n)%nat then
    OverallValidation.setSuccess true (OverallValidation.setQuality "excellent" v)
  else if (50 <=? n)%nat then
    OverallValidation.pushWarning (pretty (54 - n)%nat +:+ " subjects missing")
      (OverallValidation.setSuccess true (OverallValidation.setQuality "good" v))
  else if (45 <=? n)%nat then
    let v := OverallValidation.setQuality "moderate" v in
    if bothImagesGood || ((length imageResults =? 1)%nat && image1Good) then
      OverallValidation.pushWarning
        ("Only " +:+ pretty n +:+ "/54 subjects total, but image quality is good")
        (OverallValidation.setSuccess true v)
    else
      OverallValidation.pushIssue ("Only " +:+ pretty n +:+ "/54 subjects extracted") v
  else
    let v := OverallValidation.setQuality "poor" v in
    if (length imageResults =? 1)%nat && (image1Good || image2Good) then
      OverallValidation.pushWarning
        ("Partial scan: " +:+ pretty n +:+ " subjects extracted from 1 image")
        (OverallValidation.setSuccess true (OverallValidation.setQuality "moderate" v))
    else
      OverallValidation.pushIssue
        ("Very poor extraction: only " +:+ pretty n +:+ "/54 subjects") v.

Definition expectedYears : list string :=
  ["1st Year"; "2nd Year"; "3rd Year"; "4th Year"].

(** [!validation.byYear[year] || validation.byYear[year] === 0] *)
Definition yearMissing (byYear : gmap string nat) (year : string) : bool :=
  match byYear !! year with
  | None => true
  | Some n => (n =? 0)%nat
  end.

(** The check that all years are present, made for two images only. *)
Definition checkYears (imageResults : list ImageResult)
    (v : OverallValidation.t) : OverallValidation.t :=
  if (length imageResults =? 2)%nat then
    foldl (λ v year,
             if yearMissing (OverallValidation.byYear v) year
             then OverallValidation.pushIssue (year +:+ " completely missing") v
             else v)
          v expectedYears
  else v.

Definition checkSummer (allSubjects : list Subject) (imageResults : list ImageResult)
    (v : OverallValidation.t) : OverallValidation.t :=
  let hasSummer := someWithCode "CS 122" allSubjects in
  if negb hasSummer && (length imageResults =? 2)%nat then
    OverallValidation.pushMissingCourse "CS 122"
      (OverallValidation.pushIssue "Summer semester missing (CS 122)" v)
  else v.

(** The validation before the missing courses are computed. *)
Definition overallBeforeMissing (allSubjects : list Subject)
    (imageResults : list ImageResult) : OverallValidation.t :=
  let v := {| OverallValidation.success := false;
              OverallValidation.quality := "poor";
              OverallValidation.totalCount := length allSubjects;
              OverallValidation.issues := [];
              OverallValidation.warnings := [];
              OverallValidation.missingCourses := [];
              OverallValidation.byYear := ∅ |} in
  let v := OverallValidation.setByYear (countByYear allSubjects) v in
  let v := checkTotalCount allSubjects imageResults v in
  let v := checkYears imageResults v in
  checkSummer allSubjects imageResults v.

Definition validateOverallExtraction (allSubjects : list Subject)
    (imageResults : list ImageResult) : OverallValidation.t :=
  let v := overallBeforeMissing allSubjects imageResults in
  let extractedCodes : gset string := list_to_set (subjectCode <$> allSubjects) in
  let allReferenceCodes := Object_keys CURRICULUM_REFERENCE in
  OverallValidation.setMissingCourses
    (filter (λ code, code ∉ extractedCodes) allReferenceCodes) v.

(** ** Deduplication (the [filter] over [allSubjects] in the handler) *)

(** [s.subjectCode.toLowerCase().replace(/\s+/g, "")] *)
Definition dedupKey (s : Subject) : string :=
  removeWhiteSpace (toLowerCase (subjectCode s)).

(** [allSubjects.filter(...)] with the set [seen] that its callback reads
    and grows. *)
Fixpoint filterUnseen (seen : gset string) (allSubjects : list Subject) : list Subject :=
  match allSubjects with
  | [] => []
  | s :: rest =>
      let key := dedupKey s in
      if decide (key ∈ seen) then filterUnseen seen rest
      else s :: filterUnseen ({[key]} ∪ seen) rest
  end.

Definition uniqueSubjects (allSubjects : list Subject) : list Subject :=
  filterUnseen ∅ allSubjects.

(** ** The upload filter and the handler of [POST /api/scan-curriculum] *)

Record File := {
  originalname : string;
  mimetype : string;
  path : string
}.

Inductive UploadError :=
  | FileFilterError (message : string)   (* the error given to [cb] by [fileFilter] *)
  | UnexpectedFile.                      (* more files than [upload.array("image", 2)] takes *)

(** [fileFilter]: [None] for [cb(null, true)]. *)
Definition fileFilter (file : File) : option UploadError :=
  let allowed := ["image/jpeg"; "image/png"; "image/webp"] in
  if bool_decide (mimetype file ∈ allowed) then None
  else Some (FileFilterError "Only JPG, PNG, and WEBP images are allowed").

(** [upload.array("image", 2)] on the file parts of the field [image] of a
    request, in their order: a part beyond the second, or one that
    [fileFilter] refuses, ends the upload with an error and the handler is
    not called.  The parts are taken to be within the size limit of the
    upload (10 MB), beyond which the upload ends with an error as well; a
    file part of another field is not modelled. *)
Fixpoint uploadArray (maxCount : nat) (parts : list File) {struct parts}
    : UploadError + list File :=
  match parts with
  | [] => inr []
  | file :: rest =>
      match maxCount with
      | O => inl UnexpectedFile
      | S k =>
          match fileFilter file with
          | Some err => inl err
          | None =>
              match uploadArray k rest with
              | inl err => inl err
              | inr files => inr (file :: files)
              end
          end
      end
  end.

(** A row of [parsed.subjects], as the prompt asks for it.  A text field
    holds the JSON string, the empty string standing for every falsy value
    (absent, [null], empty); a numeric field holds what [parseInt] makes of
    the value, [None] for [NaN].  A row that holds another truthy value (a
    number, an array, an object) in a text field is outside this type, and
    so is what the handler does with it. *)
Module Raw.
Record t := {
  subjectCode : string;
  subjectName : string;
  lecUnits : option Z;
  labUnits : option Z;
  units : option Z;
  yearLevel : string;
  semester : string
}.
End Raw.

(** What [sendToGroq] does: it throws (the request fails, or no JSON is
    found in the answer), or it returns the parsed answer, of which the
    handler reads [subjects]: [None] when [parsed.subjects] is absent or is
    not an array.  An answer from which the handler cannot read (it parses to
    [null], a row is not an object, a code is not a string) makes the loop
    body throw before it adds any subject, to the same [catch]: it counts as
    [Throws], with the message of the error. *)
Inductive GroqResult :=
  | Throws (message : string)
  | Returns (subjects : option (list Raw.t)).

(** [x || fallback] on a text field *)
Definition orElse (x fallback : string) : string :=
  if bool_decide (x = "") then fallback else x.

(** The callback of [parsed.subjects.map] in the handler. *)
Definition cleanSubject (idx : nat) (s : Raw.t) : Subject :=
  {| subjectCode := orElse (Raw.subjectCode s) ("UNKNOWN_" +:+ pretty (idx + 1)%nat);
     subjectName := orElse (Raw.subjectName s) "";
     lecUnits := default 0%Z (Raw.lecUnits s);
     labUnits := default 0%Z (Raw.labUnits s);
     units := default 0%Z (Raw.units s);
     yearLevel := orElse (Raw.yearLevel s) "Unknown";
     semester := orElse (Raw.semester s) "Unknown" |}.

(** The calls the handler makes, in the order it makes them. *)
Inductive Call :=
  | CallSendToGroq (imageNum : Z)
  | CallHydrateSubjectsFromReference (imageNum : Z)
  | CallValidateExtractionQuality (imageNum : Z)
  | Deduplicate
  | CallValidateOverallExtraction.

Inductive Body :=
  | ErrorBody (success : bool) (error : string) (quality : string)
  | ScanBody (success : bool) (quality : string)
             (subjects : list Subject) (totalSubjectsFound : nat)
             (imagesProcessed imageCount : nat)
             (validation : OverallValidation.t)
             (imageResults : list ImageResult)
             (image1Good image2Good : bool) (totalImages : nat).

(** What becomes of a request: the upload middleware ends it with an error
    (the handler is not called), or the handler answers. *)
Inductive Outcome :=
  | UploadRejected (err : UploadError)
  | Responded (status : nat) (body : Body).

Record Request := {
  (** the file parts of the field [image]; [None] when the request is not
      a multipart form (then [req.files] is undefined) *)
  imageParts : option (list File);
  (** [process.env.GROQ_API_KEY] *)
  GROQ_API_KEY : option string
}.

(** The file the recognizer is called with: the uploaded file
    ([{ ...file, path: processedPath }]), with the path that the
    preprocessing gives. *)
Definition sentFile (preprocessImage : string → string) (file : File) : File :=
  {| originalname := originalname file;
     mimetype := mimetype file;
     path := preprocessImage (path file) |}.

Section Handler.

(** The collaborators outside the repository's logic: the image
    preprocessing, which gives the path of the image to send, and the
    recognizer call. *)
Variable preprocessImage : string → string.
Variable sendToGroq : File → GroqResult.

(** The variables of the handler that the loop over the files updates,
    and the calls made so far. *)
Record LoopState := {
  imageResults : list ImageResult;
  allSubjects : list Subject;
  calls : list Call
}.

(** The validation the [catch] of the loop body records. *)
Definition failedValidation (message : string) : ImageValidation.t :=
  {| ImageValidation.isGood := false;
     ImageValidation.issues := [message];
     ImageValidation.warnings := [];
     ImageValidation.subjectCount := 0;
     ImageValidation.missingCourses := [] (* the literal has no such field *) |}.

(** One turn of the loop: the [imageResult] it pushes, the subjects it
    adds to [allSubjects] and the calls it makes.  On subjects whose fields
    are text, the validation of the image does not throw: the [catch] is
    entered from the recognizer call only. *)
Definition processImage (i : nat) (file : File)
    : ImageResult * list Subject * list Call :=
  let imageNum := (Z.of_nat i + 1)%Z in
  match sendToGroq (sentFile preprocessImage file) with
  | Throws message =>
      ({| imageNumber := imageNum; originalFile := originalname file;
          subjects := []; validation := Some (failedValidation message) |},
       [], [CallSendToGroq imageNum])
  | Returns None =>
      ({| imageNumber := imageNum; originalFile := originalname file;
          subjects := []; validation := None |},
       [], [CallSendToGroq imageNum])
  | Returns (Some rows) =>
      let cleaned := imap cleanSubject rows in
      let hydrated := hydrateSubjectsFromReference cleaned in
      let validation := validateExtractionQuality hydrated imageNum in
      ({| imageNumber := imageNum; originalFile := originalname file;
          subjects := hydrated; validation := Some validation |},
       hydrated,
       [CallSendToGroq imageNum; CallHydrateSubjectsFromReference imageNum;
        CallValidateExtractionQuality imageNum])
  end.

(** [for (let i = 0; i < files.length; i++)], from index [i] on. *)
(** [imageResults = []], [allSubjects = []] before the loop. *)
Definition initialState : LoopState :=
  {| imageResults := []; allSubjects := []; calls := [] |}.

Fixpoint processImages (i : nat) (files : list File) (st : LoopState) : LoopState :=
  match files with
  | [] => st
  | file :: rest =>
      let '(imageResult, hydrated, made) := processImage i file in
      processImages (S i) rest
        {| imageResults := imageResults st ++ [imageResult];
           allSubjects := allSubjects st ++ hydrated;
           calls := calls st ++ made |}
  end.

(** The handler, given [req.files].  The log of the subjects, between the
    overall validation and the answer, reads the name and the semester of
    every subject as text; on the subjects of the model, whose fields are
    text, it does not throw, nor does anything else outside the loop body,
    and the outer [catch] (which answers with the status of the error, or
    500) is not entered.  The log and the removal of the uploaded files are
    left out. *)
Definition scanCurriculumHandler (files : option (list File))
    (apiKey : option string) : Outcome * list Call :=
  match files with
  | None | Some [] =>
      (* !req.files || req.files.length === 0 *)
      (Responded 400 (ErrorBody false "No image(s) uploaded" "error"), [])
  | Some files =>
      if bool_decide (apiKey = None ∨ apiKey = Some "") then
        (* !process.env.GROQ_API_KEY *)
        (Responded 500 (ErrorBody false "GROQ_API_KEY not set" "error"), [])
      else
          let st := processImages 0 files initialState in
          let unique := uniqueSubjects (allSubjects st) in
          let overallValidation := validateOverallExtraction unique (imageResults st) in
          (Responded 200
             (ScanBody (OverallValidation.success overallValidation)
                       (OverallValidation.quality overallValidation)
                       unique (length unique) (length files) (length files)
                       overallValidation (imageResults st)
                       (imageGood (imageResults st) 0)
                       (imageGood (imageResults st) 1)
                       (length files)),
           (calls st ++ [Deduplicate; CallValidateOverallExtraction])%list)
  end.

(** The route: [upload.array("image", 2)], then the handler. *)
Definition scanCurriculum (req : Request) : Outcome * list Call :=
  match imageParts req with
  | None => scanCurriculumHandler None (GROQ_API_KEY req)
  | Some parts =>
      match uploadArray 2 parts with
      | inl err => (UploadRejected err, [])
      | inr files => scanCurriculumHandler (Some files) (GROQ_API_KEY req)
      end
  end.

End Handler.

(** ** The parse of the recognizer's answer (the end of [sendToGroq]) *)

(** [s.startsWith(p)] *)
Fixpoint startsWith (p s : string) : bool :=
  match p, s with
  | EmptyString, _ => true
  | String a p', String b s' => bool_decide (a = b) && startsWith p' s'
  | String _ _, EmptyString => false
  end.

(** [s.slice(n)] *)
Fixpoint dropChars (n : nat) (s : string) : string :=
  match n, s with
  | O, _ => s
  | S k, String _ r => dropChars k r
  | S _, EmptyString => EmptyString
  end.

(** The text before and the text after the first occurrence of [pat] in
    [s], when there is one. *)
Fixpoint splitAtFirst (pat s : string) : option (string * string) :=
  if startsWith pat s then Some (EmptyString, dropChars (String.length pat) s)
  else
    match s with
    | EmptyString => None
    | String c r =>
        match splitAtFirst pat r with
        | Some (before, after) => Some (String c before, after)
        | None => None
        end
    end.

(** The text before the last occurrence of the character [c] in [s], when
    there is one. *)
Fixpoint beforeLast (c : ascii) (s : string) : option string :=
  match s with
  | EmptyString => None
  | String a r =>
      match beforeLast c r with
      | Some before => Some (String a before)
      | None => if bool_decide (a = c) then Some EmptyString else None
      end
  end.

(** The group of the first match of [/```(?:json)?\s*([\s\S]*?)```/] in
    [text].  A match begins at the first three backticks: after them the
    word [json], if it is there, and all the white space that follows are
    passed over, and the group runs up to the next three backticks; when
    there are none after the first three, there is no match at all (a later
    start would need them too). *)
Definition fencedBlock (text : string) : option string :=
  match splitAtFirst "```" text with
  | None => None
  | Some (_, rest) =>
      let rest := if startsWith "json" rest then dropChars 4 rest else rest in
      match splitAtFirst "```" (trimStart rest) with
      | Some (group, _) => Some group
      | None => None
      end
  end.

(** The match of [/\{[\s\S]*\}/] in [text]: from the first opening brace
    to the last closing brace after it. *)
Definition braceBlock (text : string) : option string :=
  match splitAtFirst "{" text with
  | None => None
  | Some (_, rest) =>
      match beforeLast "}" rest with
      | Some inside => Some ("{" +:+ inside +:+ "}")
      | None => None
      end
  end.

Section ParseAnswer.

(** [JSON.parse], from outside: the parsed value, or the message of the
    [SyntaxError] it throws. *)
Variable J : Type.
Variable JSON_parse : string → string + J.

(** The [try] and [catch] at the end of [sendToGroq], on
    [text = completion.choices[0]?.message?.content || ""]: the value
    returned, or the message of the error thrown. *)
Definition parseAnswer (content : option string) : string + J :=
  let text := default "" content in
  match JSON_parse text with
  | inr value => inr value
  | inl _ =>
      match fencedBlock text with
      | Some group => JSON_parse (trim group)
      | None =>
          match braceBlock text with
          | Some object => JSON_parse object
          | None => inl "Could not parse AI response as JSON"
          end
      end
  end.

End ParseAnswer.

(** ** The upscaling of [preprocessImage] *)

Definition minWidth : nat := 1200.

(** [metadata.width < minWidth] *)
Definition needsUpscale (width : nat) : bool := (width <? minWidth)%nat.

(** [Math.ceil(minWidth / metadata.width)] for a width from 1 to 1199: the
    quotient rounded up (the floating point quotient of two integers this
    small is an integer only when the exact one is). *)
Definition scale (width : nat) : nat := ((minWidth + width - 1) / width)%nat.

(** The width and the height that the image is given before it is
    sharpened: those of [resize] when the image is upscaled, its own
    otherwise. *)
Definition preprocessedSize (width height : nat) : nat * nat :=
  if needsUpscale width
  then ((width * scale width)%nat, (height * scale width)%nat)
  else (width, height).

(** ** The route [POST /api/scan-grades] and [getErrorMessage] *)

(** An error thrown by the recognizer call: its message and, for an error
    of the API, its HTTP status. *)
Module JsError.
Record t := { message : string; status : option nat }.
End JsError.

Definition getErrorMessage (error : JsError.t) : string :=
  if bool_decide (JsError.status error = Some 429%nat) then
    "Rate limited. Wait 1 minute and try again (max 30 req/min)."
  else if bool_decide (JsError.status error = Some 401%nat) then
    "Invalid API key. Check your .env file."
  else JsError.message error.

(** [error.status || 500] *)
Definition errorStatus (error : JsError.t) : nat :=
  match JsError.status error with
  | Some (S n) => S n
  | Some O | None => 500%nat
  end.

(** A number as [parseFloat] gives it: not a number, a finite number (a
    rational), or an infinity. *)
Inductive JsNumber :=
  | NaN
  | Finite (q : Q)
  | PosInfinity
  | NegInfinity.

(** [x || 0] on a number: [NaN] and zero are falsy. *)
Definition orZero (x : JsNumber) : JsNumber :=
  match x with
  | NaN => Finite 0%Q
  | Finite q => if Qeq_bool q 0%Q then Finite 0%Q else Finite q
  | PosInfinity => PosInfinity
  | NegInfinity => NegInfinity
  end.

(** [x > 0] *)
Definition positive (x : JsNumber) : bool :=
  match x with
  | Finite q => negb (Qle_bool q 0%Q)
  | PosInfinity => true
  | NaN | NegInfinity => false
  end.

(** [x <= 5.0] *)
Definition atMostFive (x : JsNumber) : bool :=
  match x with
  | Finite q => Qle_bool q 5%Q
  | NegInfinity => true
  | NaN | PosInfinity => false
  end.

(** A row of [parsed.grades]: the text fields as in the rows of the
    curriculum, and [parseFloat] of the grade. *)
Module RawGrade.
Record t := { subjectCode : string; subjectName : string; grade : JsNumber }.
End RawGrade.

Module Grade.
Record t := { subjectCode : string; subjectName : string; grade : JsNumber }.
End Grade.

(** The callback of [.map] in the route. *)
Definition cleanGrade (idx : nat) (g : RawGrade.t) : Grade.t :=
  {| Grade.subjectCode :=
       orElse (RawGrade.subjectCode g) ("UNKNOWN_" +:+ pretty (idx + 1)%nat);
     Grade.subjectName := orElse (RawGrade.subjectName g) "";
     Grade.grade := orZero (RawGrade.grade g) |}.

(** [(parsed.grades || []).map(...).filter((g) => g.grade > 0 && g.grade <= 5.0)] *)
Definition extractGrades (rows : option (list RawGrade.t)) : list Grade.t :=
  List.filter (λ g, positive (Grade.grade g) && atMostFive (Grade.grade g))
              (imap cleanGrade (default [] rows)).

(** What [sendToGroq] does for the route: it throws, or it returns the
    parsed answer, of which the route reads [grades] ([None] when falsy) and
    [confidence] (the empty string when falsy; text, as the prompt asks for
    it, otherwise).  An answer from which the route cannot read (it parses
    to [null], its [grades] is neither falsy nor an array) makes the handler
    throw inside its [try]: it counts as [GradesThrows], with the error
    thrown. *)
Inductive GradesResult :=
  | GradesThrows (error : JsError.t)
  | GradesReturns (grades : option (list RawGrade.t)) (confidence : string).

Inductive GradesBody :=
  | GradesError (success : bool) (error : string)
  | GradesData (success : bool) (grades : list Grade.t) (totalFound : nat)
               (confidence : string).

(** What becomes of a request to the route: the handler answers with a
    status and a body; or, in its [catch], the number it takes for the
    status is not a status code (a whole number from 100 to 999): no answer
    can be sent with it, the handler throws, and the answer is not the
    handler's. *)
Inductive GradesOutcome :=
  | GradesAnswered (status : nat) (body : GradesBody)
  | GradesHandlerThrows.

(** The handler of the route, given [req.file], the key and what the
    recognizer call does. *)
Definition scanGrades (file : option File) (apiKey : option string)
    (sendToGroq : File → GradesResult) : GradesOutcome :=
  match file with
  | None => GradesAnswered 400%nat (GradesError false "No image uploaded")
  | Some file =>
      if bool_decide (apiKey = None ∨ apiKey = Some "") then
        GradesAnswered 500%nat
          (GradesError false "GROQ_API_KEY not set. Add it to your .env file.")
      else
        match sendToGroq file with
        | GradesReturns rows confidence =>
            let grades := extractGrades rows in
            GradesAnswered 200%nat
              (GradesData true grades (length grades)
                          (orElse confidence "unknown"))
        | GradesThrows error =>
            let status := errorStatus error in
            if ((100 <=? status)%nat && (status <=? 999)%nat) then
              GradesAnswered status (GradesError false (getErrorMessage error))
            else GradesHandlerThrows
        end
  end.

(** * The vocabulary of the properties *)

Local Open Scope nat_scope.

(** ** Sample data *)

(** The reference entry of a key, as the subject hydration makes of it. *)
Definition referenceSubject (kv : string * Ref.t) : Subject :=
  {| subjectCode := kv.1;
     subjectName := Ref.name kv.2;
     lecUnits := Ref.lecUnits kv.2;
     labUnits := Ref.labUnits kv.2;
     units := Ref.units kv.2;
     yearLevel := Ref.yearLevel kv.2;
     semester := Ref.semester kv.2 |}.

(** The first [n] subjects of the curriculum. *)
Definition firstSubjects (n : nat) : list Subject :=
  referenceSubject <$> take n CURRICULUM_REFERENCE.

(** An image result with a validation that has the given [isGood]. *)
Definition resultWith (n : Z) (good : bool) : ImageResult :=
  {| imageNumber := n; originalFile := "scan.png"; subjects := [];
     validation := Some {| ImageValidation.isGood := good;
                           ImageValidation.issues := if good then [] else ["bad"];
                           ImageValidation.warnings := [];
                           ImageValidation.subjectCount := 0;
                           ImageValidation.missingCourses := [] |} |}.

(** ** The steps of the overall validation *)

(** The validation object right after its literal and the count by year. *)
Definition initialOverall (allSubjects : list Subject) : OverallValidation.t :=
  {| OverallValidation.success := false;
     OverallValidation.quality := "poor";
     OverallValidation.totalCount := length allSubjects;
     OverallValidation.issues := [];
     OverallValidation.warnings := [];
     OverallValidation.missingCourses := [];
     OverallValidation.byYear := countByYear allSubjects |}.

(** The callback of [expectedYears.forEach]. *)
Definition yearStep (v : OverallValidation.t) (year : string) : OverallValidation.t :=
  if yearMissing (OverallValidation.byYear v) year
  then OverallValidation.pushIssue (year +:+ " completely missing") v
  else v.

(** The issues of the year check, for the years [years]. *)
Definition yearIssues (byYear : gmap string nat) (years : list string) : list string :=
  (λ year, year +:+ " completely missing")
    <$> filter (λ year, yearMissing byYear year = true) years.

(** The issues the last two checks add. *)
Definition lateIssues (allSubjects : list Subject) (imageResults : list ImageResult)
    : list string :=
  ((if (length imageResults =? 2)%nat
    then yearIssues (countByYear allSubjects) expectedYears else [])
   ++ (if negb (someWithCode "CS 122" allSubjects) && (length imageResults =? 2)%nat
       then ["Summer semester missing (CS 122)"] else []))%list.

(** ** The quality tiers *)

(** The image passed its own validation ([validation?.isGood] is true). *)
Definition passed (r : ImageResult) : Prop :=
  ∃ v, validation r = Some v ∧ ImageValidation.isGood v = true.

(** Exactly one image was submitted, and it passed. *)
Definition singleImagePassed (imageResults : list ImageResult) : Prop :=
  ∃ r, imageResults = [r] ∧ passed r.

(** All the submitted images passed. *)
Definition allImagesPassed (imageResults : list ImageResult) : Prop :=
  Forall passed imageResults.

(** The three upper tiers, as stated for a count [n] of deduplicated
    subjects against the 54 of the curriculum. *)
Definition excellentTier (allSubjects : list Subject) (imageResults : list ImageResult)
    : Prop :=
  let v := validateOverallExtraction allSubjects imageResults in
  54 ≤ length allSubjects →
  OverallValidation.quality v = "excellent" ∧ OverallValidation.success v = true.

Definition goodTier (allSubjects : list Subject) (imageResults : list ImageResult)
    : Prop :=
  let v := validateOverallExtraction allSubjects imageResults in
  let n := length allSubjects in
  50 ≤ n < 54 →
  OverallValidation.quality v = "good" ∧ OverallValidation.success v = true
  ∧ OverallValidation.warnings v = [pretty (54 - n) +:+ " subjects missing"].

Definition moderateTier (allSubjects : list Subject) (imageResults : list ImageResult)
    : Prop :=
  let v := validateOverallExtraction allSubjects imageResults in
  let n := length allSubjects in
  45 ≤ n < 50 →
  OverallValidation.quality v = "moderate"
  ∧ (OverallValidation.success v = true
     ↔ allImagesPassed imageResults ∨ singleImagePassed imageResults)
  ∧ (¬ (allImagesPassed imageResults ∨ singleImagePassed imageResults) →
     OverallValidation.success v = false
     ∧ head (OverallValidation.issues v)
       = Some ("Only " +:+ pretty n +:+ "/54 subjects extracted")).

(** ** The missing courses *)

(** The missing courses as a difference of normalised keys: the reference
    codes whose normalised key is the normalised code of no subject. *)
Definition missingByNormalizedKey (allSubjects : list Subject)
    (missing : list string) : Prop :=
  ∀ code, code ∈ missing
          ↔ code ∈ Object_keys CURRICULUM_REFERENCE
            ∧ normalized code ∉ (λ s, normalized (subjectCode s)) <$> allSubjects.

(** A subject whose code, when it normalises to a reference key, is that
    key in the reference's spelling. *)
Definition canonicalCode (s : Subject) : Prop :=
  ∀ refKey, refKey ∈ Object_keys CURRICULUM_REFERENCE →
            normalized (subjectCode s) = normalized refKey →
            subjectCode s = refKey.

(** ** Input errors *)

(** No file: the request is not a multipart form, or it has no file
    part. *)
Definition noFile (req : Request) : Prop :=
  imageParts req = None ∨ imageParts req = Some [].

(** A file part has a type that [fileFilter] refuses. *)
Definition disallowedType (req : Request) : Prop :=
  ∃ parts file, imageParts req = Some parts ∧ file ∈ parts
                ∧ mimetype file ∉ ["image/jpeg"; "image/png"; "image/webp"].

(** The key of the recognizer is not set. *)
Definition missingCredential (req : Request) : Prop :=
  GROQ_API_KEY req = None ∨ GROQ_API_KEY req = Some "".

Definition inputError (req : Request) : Prop :=
  noFile req ∨ disallowedType req ∨ missingCredential req.

(** The request is answered with a status from 400 to 499. *)
Definition clientError (o : Outcome) : Prop :=
  ∃ status body, o = Responded status body ∧ 400 ≤ status < 500.

(** ** Sample collaborators and files *)

Definition samplePreprocess (p : string) : string := p +:+ "_processed.png".

(** A recognizer that fails on the file named [bad.png] and reads one row
    on any other. *)
Definition sampleRecognizer (file : File) : GroqResult :=
  if bool_decide (originalname file = "bad.png")
  then Throws "Could not parse AI response as JSON"
  else Returns (Some [{| Raw.subjectCode := "cs 101"; Raw.subjectName := "";
                         Raw.lecUnits := None; Raw.labUnits := None;
                         Raw.units := Some 3%Z; Raw.yearLevel := "";
                         Raw.semester := "" |}]).

Definition pngFile (name : string) : File :=
  {| originalname := name; mimetype := "image/png"; path := "uploads/" +:+ name |}.

(** ** Tables *)

(** A table filled by a [forEach] that stores each entry under its key. *)
Definition tableOf {V} (key : V → string) (entries : list V) : gmap string V :=
  foldl (λ m e, <[key e := e]> m) ∅ entries.

(** ** Counting and character classes *)

(** The number of subjects of a year level. *)
Definition countOfYear (year : string) (subjects : list Subject) : nat :=
  length (filter (λ s, yearLevel s = year) subjects).

(** The code units of a string. *)
Fixpoint codeUnits (s : string) : list ascii :=
  match s with
  | EmptyString => []
  | String c r => c :: codeUnits r
  end.

(** The string is ASCII: all its code units are below 128. *)
Definition isAscii (s : string) : Prop :=
  Forall (λ c, nat_of_ascii c < 128) (codeUnits s).

(** The code unit is a decimal digit. *)
Definition isDigit (c : ascii) : Prop := 48 ≤ nat_of_ascii c ≤ 57.

(** The character [c] does not occur in [s]. *)
Definition freeOf (c : ascii) (s : string) : Prop :=
  Forall (λ a, a ≠ c) (codeUnits s).

(** A stand-in for [JSON.parse] that reads the empty object only. *)
Definition sampleParse (s : string) : string + unit :=
  if bool_decide (s = "{}") then inr tt else inl "Unexpected token".

(** The subject's code is a key of the reference. *)
Definition inReference (s : Subject) : Prop :=
  subjectCode s ∈ Object_keys CURRICULUM_REFERENCE.

(** * Properties *)

(** ** Per-image validation *)

Lemma issues_setIsGood b v :
  ImageValidation.issues (ImageValidation.setIsGood b v) = ImageValidation.issues v.
Proof. reflexivity. Qed.

(** C6: the validation of an image is good exactly when it has no issue,
    whatever its warnings; the last assignment changes [isGood] only, and it
    overrides the value the count check has set (there is an image whose
    count is in range, so that [isGood] was set, and which ends not good). *)
Theorem validateExtractionQuality_isGood_iff_no_issue :
  (∀ subjects imageNumber,
     let v := validateExtractionQuality subjects imageNumber in
     ImageValidation.isGood v = (length (ImageValidation.issues v) =? 0)%nat
     ∧ (ImageValidation.isGood v = true ↔ ImageValidation.issues v = [])
     ∧ ImageValidation.issues v
       = ImageValidation.issues (tentativeValidation subjects imageNumber)
     ∧ ImageValidation.warnings v
       = ImageValidation.warnings (tentativeValidation subjects imageNumber))
  ∧ (∃ subjects imageNumber,
       ImageValidation.isGood (tentativeValidation subjects imageNumber) = true
       ∧ ImageValidation.isGood (validateExtractionQuality subjects imageNumber) = false)
  ∧ (∃ subjects imageNumber,
       ImageValidation.warnings (validateExtractionQuality subjects imageNumber) ≠ []
       ∧ ImageValidation.isGood (validateExtractionQuality subjects imageNumber) = true).
Proof.
  split; [|split].
  - intros subjects imageNumber v. subst v. unfold validateExtractionQuality.
    cbn [ImageValidation.isGood ImageValidation.issues ImageValidation.warnings
         ImageValidation.setIsGood].
    repeat split; try reflexivity.
    + intros H. apply Nat.eqb_eq in H. by apply nil_length_inv.
    + intros ->. reflexivity.
  - exists (replicate 27 (referenceSubject ("X", {| Ref.name := ""; Ref.lecUnits := 0;
              Ref.labUnits := 0; Ref.units := 0; Ref.yearLevel := "Unknown";
              Ref.semester := "Unknown" |}))), 1%Z.
    split; vm_compute; reflexivity.
  - exists (firstSubjects 29 ++ firstSubjects 3)%list, 1%Z.
    split; [vm_compute; discriminate | vm_compute; reflexivity].
Qed.

(** C10: for an image number other than 1 and 2 no check is made: the
    validation is good, with no issue and no warning, whatever the
    subjects. *)
Theorem validateExtractionQuality_other_image subjects imageNumber :
  imageNumber ≠ 1%Z → imageNumber ≠ 2%Z →
  validateExtractionQuality subjects imageNumber
  = {| ImageValidation.isGood := true;
       ImageValidation.issues := [];
       ImageValidation.warnings := [];
       ImageValidation.subjectCount := length subjects;
       ImageValidation.missingCourses := [] |}.
Proof.
  intros H1 H2.
  unfold validateExtractionQuality, tentativeValidation, checkExpectedCount,
    expectedCounts.
  apply Z.eqb_neq in H1, H2. rewrite H1, H2. reflexivity.
Qed.

Lemma validateExtractionQuality_other_image_witness :
  validateExtractionQuality [] 3
  = {| ImageValidation.isGood := true;
       ImageValidation.issues := [];
       ImageValidation.warnings := [];
       ImageValidation.subjectCount := 0;
       ImageValidation.missingCourses := [] |}.
Proof. apply (validateExtractionQuality_other_image [] 3); lia. Defined.

(** ** Overall validation: the shape of the result *)

Lemma foldl_yearStep years : ∀ v,
  let v' := foldl yearStep v years in
  OverallValidation.success v' = OverallValidation.success v
  ∧ OverallValidation.quality v' = OverallValidation.quality v
  ∧ OverallValidation.warnings v' = OverallValidation.warnings v
  ∧ OverallValidation.byYear v' = OverallValidation.byYear v
  ∧ OverallValidation.issues v'
    = (OverallValidation.issues v ++ yearIssues (OverallValidation.byYear v) years)%list.
Proof.
  induction years as [|year years IH]; intros v; cbn [foldl].
  - unfold yearIssues. rewrite filter_nil, fmap_nil, app_nil_r. done.
  - destruct (IH (yearStep v year)) as (Hs & Hq & Hw & Hb & Hi).
    cbn zeta. rewrite Hs, Hq, Hw, Hb, Hi. clear IH Hs Hq Hw Hb Hi.
    unfold yearIssues, yearStep. rewrite filter_cons.
    destruct (yearMissing (OverallValidation.byYear v) year) eqn:Hm; cbn.
    + rewrite decide_True by done. rewrite fmap_cons, <- app_assoc. done.
    + rewrite decide_False by done. done.
Qed.

Lemma checkTotalCount_byYear allSubjects imageResults v :
  OverallValidation.byYear (checkTotalCount allSubjects imageResults v)
  = OverallValidation.byYear v.
Proof.
  unfold checkTotalCount.
  repeat match goal with |- context [if ?b then _ else _] => destruct b end;
    reflexivity.
Qed.

(** The result of [validateOverallExtraction], field by field: the tier,
    [success] and the warnings are those of the total count check, the issues
    are its issues followed by those of the year and Summer checks. *)
Lemma validateOverallExtraction_fields allSubjects imageResults :
  let v := validateOverallExtraction allSubjects imageResults in
  let t := checkTotalCount allSubjects imageResults (initialOverall allSubjects) in
  OverallValidation.success v = OverallValidation.success t
  ∧ OverallValidation.quality v = OverallValidation.quality t
  ∧ OverallValidation.warnings v = OverallValidation.warnings t
  ∧ OverallValidation.byYear v = countByYear allSubjects
  ∧ OverallValidation.issues v
    = (OverallValidation.issues t ++ lateIssues allSubjects imageResults)%list.
Proof.
  cbn zeta.
  unfold validateOverallExtraction, overallBeforeMissing, checkSummer, checkYears,
    lateIssues.
  change (OverallValidation.setByYear (countByYear allSubjects) _)
    with (initialOverall allSubjects).
  set (t := checkTotalCount allSubjects imageResults (initialOverall allSubjects)).
  assert (Hb : OverallValidation.byYear t = countByYear allSubjects)
    by (subst t; by rewrite checkTotalCount_byYear).
  fold yearStep.
  destruct (foldl_yearStep expectedYears t) as (Hs & Hq & Hw & Hy & Hi).
  rewrite Hb in Hi. rewrite Hb in Hy.
  set (w := foldl yearStep t expectedYears) in *. clearbody w.
  set (yi := yearIssues (countByYear allSubjects) expectedYears) in *. clearbody yi.
  destruct (length imageResults =? 2)%nat;
    destruct (negb (someWithCode "CS 122" allSubjects)); cbn;
    rewrite ?Hs, ?Hq, ?Hw, ?Hy, ?Hi, ?app_nil_r, <- ?app_assoc; done.
Qed.

(** ** Overall validation: the quality tiers *)

Lemma imageGood_true imageResults i :
  imageGood imageResults i = true ↔ ∃ r, imageResults !! i = Some r ∧ passed r.
Proof.
  unfold imageGood, passed. split.
  - destruct (imageResults !! i) as [r|]; [|done].
    destruct (validation r) as [v|] eqn:Hv; [|done]. eauto.
  - intros (r & -> & v & -> & Hg). done.
Qed.

Lemma single_good_iff imageResults :
  (length imageResults =? 1)%nat && imageGood imageResults 0 = true
  ↔ singleImagePassed imageResults.
Proof.
  rewrite andb_true_iff, Nat.eqb_eq, imageGood_true. unfold singleImagePassed.
  split.
  - intros (Hlen & r & Hr & Hp).
    destruct imageResults as [|r' [|? ?]]; simplify_eq/=. eauto.
  - intros (r & -> & Hp). eauto.
Qed.

(** For one image, the condition of the last branch is that this image
    passed: there is no second image to be good. *)
Lemma single_either_good imageResults :
  (length imageResults =? 1)%nat
    && (imageGood imageResults 0 || imageGood imageResults 1)
  = (length imageResults =? 1)%nat && imageGood imageResults 0.
Proof.
  destruct imageResults as [|r [|? ?]]; try reflexivity.
  unfold imageGood. cbn. by rewrite orb_false_r.
Qed.

(** C3: below 45 subjects the tier is poor, with the issue of a very poor
    extraction and no success, except when one image was submitted and it
    passed: then the tier is moderate, with success, the warning of a partial
    scan and no issue. *)
Theorem validateOverallExtraction_below_45 allSubjects imageResults :
  length allSubjects < 45 →
  let v := validateOverallExtraction allSubjects imageResults in
  let n := length allSubjects in
  (singleImagePassed imageResults →
     OverallValidation.quality v = "moderate"
     ∧ OverallValidation.success v = true
     ∧ OverallValidation.warnings v
       = ["Partial scan: " +:+ pretty n +:+ " subjects extracted from 1 image"]
     ∧ OverallValidation.issues v = [])
  ∧ (¬ singleImagePassed imageResults →
     OverallValidation.quality v = "poor"
     ∧ OverallValidation.success v = false
     ∧ OverallValidation.warnings v = []
     ∧ head (OverallValidation.issues v)
       = Some ("Very poor extraction: only " +:+ pretty n +:+ "/54 subjects")).
Proof.
  intros Hn v n.
  destruct (validateOverallExtraction_fields allSubjects imageResults)
    as (Hs & Hq & Hw & _ & Hi).
  fold v in Hs, Hq, Hw, Hi. rewrite Hs, Hq, Hw, Hi. clear Hs Hq Hw Hi v.
  unfold checkTotalCount. fold n.
  rewrite (proj2 (Nat.leb_gt 54 n)), (proj2 (Nat.leb_gt 50 n)),
    (proj2 (Nat.leb_gt 45 n)) by (unfold n; lia).
  rewrite single_either_good.
  split.
  - intros Hsingle. rewrite (proj2 (single_good_iff _) Hsingle). cbn.
    destruct Hsingle as (r & -> & _). unfold lateIssues. cbn.
    rewrite andb_false_r. done.
  - intros Hsingle.
    destruct ((length imageResults =? 1)%nat && imageGood imageResults 0) eqn:E.
    + apply single_good_iff in E. done.
    + done.
Qed.

Lemma validateOverallExtraction_below_45_witness :
  let v := validateOverallExtraction (firstSubjects 20) [resultWith 1 true] in
  OverallValidation.quality v = "moderate"
  ∧ OverallValidation.success v = true
  ∧ OverallValidation.warnings v = ["Partial scan: 20 subjects extracted from 1 image"]
  ∧ OverallValidation.issues v = [].
Proof.
  apply (validateOverallExtraction_below_45 (firstSubjects 20) [resultWith 1 true]).
  - vm_compute. lia.
  - exists (resultWith 1 true). split; [reflexivity|]. eexists. split; reflexivity.
Defined.

(** What the moderate tier does for any number of images: it reads the
    validations of the first two images only. *)
Lemma moderate_tier_first_two allSubjects imageResults :
  let v := validateOverallExtraction allSubjects imageResults in
  let n := length allSubjects in
  let ok := imageGood imageResults 0 && imageGood imageResults 1
            || (length imageResults =? 1)%nat && imageGood imageResults 0 in
  45 ≤ n < 50 →
  OverallValidation.quality v = "moderate"
  ∧ OverallValidation.success v = ok
  ∧ (ok = false →
     head (OverallValidation.issues v)
     = Some ("Only " +:+ pretty n +:+ "/54 subjects extracted")).
Proof.
  intros v n ok Hn.
  destruct (validateOverallExtraction_fields allSubjects imageResults)
    as (Hs & Hq & _ & _ & Hi).
  fold v in Hs, Hq, Hi. rewrite Hs, Hq, Hi. clear Hs Hq Hi v.
  unfold checkTotalCount. fold n.
  rewrite (proj2 (Nat.leb_gt 54 n)), (proj2 (Nat.leb_gt 50 n)),
    (proj2 (Nat.leb_le 45 n)) by lia.
  fold ok. destruct ok; cbn; done.
Qed.

(** With one or two images, the two images read are all the images. *)
Lemma first_two_all imageResults :
  1 ≤ length imageResults ≤ 2 →
  imageGood imageResults 0 && imageGood imageResults 1
    || (length imageResults =? 1)%nat && imageGood imageResults 0 = true
  ↔ allImagesPassed imageResults ∨ singleImagePassed imageResults.
Proof.
  intros Hlen. rewrite orb_true_iff, single_good_iff, andb_true_iff, !imageGood_true.
  unfold allImagesPassed.
  destruct imageResults as [|r1 [|r2 [|? ?]]]; cbn in Hlen; try lia.
  - split.
    + intros [((? & ? & ?) & (? & ? & ?))|H]; [done|by right].
    + intros [H|H]; [|by right]. right. exists r1. split; [done|].
      by apply Forall_inv in H.
  - split.
    + intros [((? & ? & ?) & (? & ? & ?))|(? & ? & ?)]; simplify_eq/=.
      left. by repeat constructor.
    + intros [H|(? & ? & ?)]; simplify_eq/=.
      left. inversion H as [|? ? H1 H2]; subst. apply Forall_inv in H2.
      split; eexists; (split; [reflexivity|done]).
Qed.

(** C2: the tiers from 45 subjects up, for the deduplicated subjects and
    the image validations of a submission.  From 54 subjects the quality is
    excellent and the validation succeeds.  From 50 to 53 it is good and
    succeeds, with a warning that gives the number of subjects short of 54.
    From 45 to 49 it is moderate; a submission has one or two images (the
    upload takes at most two, the handler refuses a request without image),
    and it succeeds exactly when all its images passed their validation, or
    it has one image and that image passed; otherwise it does not succeed
    and has the issue that gives the count out of 54.  The first two tiers
    and the moderate quality do not depend on the number of images. *)
Theorem validateOverallExtraction_tiers allSubjects imageResults :
  excellentTier allSubjects imageResults
  ∧ goodTier allSubjects imageResults
  ∧ (1 ≤ length imageResults ≤ 2 → moderateTier allSubjects imageResults)
  ∧ (45 ≤ length allSubjects < 50 →
     OverallValidation.quality (validateOverallExtraction allSubjects imageResults)
     = "moderate").
Proof.
  split; [|split; [|split]].
  - unfold excellentTier. intros Hn.
    destruct (validateOverallExtraction_fields allSubjects imageResults)
      as (Hs & Hq & _).
    rewrite Hs, Hq. unfold checkTotalCount.
    rewrite (proj2 (Nat.leb_le 54 _)) by lia. done.
  - unfold goodTier. intros Hn.
    destruct (validateOverallExtraction_fields allSubjects imageResults)
      as (Hs & Hq & Hw & _).
    rewrite Hs, Hq, Hw. unfold checkTotalCount.
    rewrite (proj2 (Nat.leb_gt 54 _)), (proj2 (Nat.leb_le 50 _)) by lia. done.
  - unfold moderateTier. intros Hlen Hn.
    destruct (moderate_tier_first_two allSubjects imageResults Hn) as (Hq & Hs & Hi).
    pose proof (first_two_all imageResults Hlen) as Hok.
    split; [done|]. split.
    + rewrite Hs. done.
    + intros Hno. rewrite <- Hok in Hno. apply not_true_is_false in Hno.
      rewrite Hs. split; [done|]. by apply Hi.
  - intros Hn.
    by destruct (moderate_tier_first_two allSubjects imageResults Hn) as (Hq & _).
Qed.

Lemma validateOverallExtraction_tiers_witness :
  let v := validateOverallExtraction (firstSubjects 47)
             [resultWith 1 true; resultWith 2 true] in
  OverallValidation.quality v = "moderate"
  ∧ (OverallValidation.success v = true
     ↔ allImagesPassed [resultWith 1 true; resultWith 2 true]
       ∨ singleImagePassed [resultWith 1 true; resultWith 2 true])
  ∧ (¬ (allImagesPassed [resultWith 1 true; resultWith 2 true]
        ∨ singleImagePassed [resultWith 1 true; resultWith 2 true]) →
     OverallValidation.success v = false
     ∧ head (OverallValidation.issues v) = Some "Only 47/54 subjects extracted").
Proof.
  apply (validateOverallExtraction_tiers (firstSubjects 47)
           [resultWith 1 true; resultWith 2 true]).
  - cbn. lia.
  - vm_compute. lia.
Defined.

(** ** Overall validation: the checks made for two images *)

(** [byYear] is the count of the subjects by year level: no entry for a
    year level without subject, the number of its subjects otherwise. *)
Lemma countByYear_foldl subjects year : ∀ m : gmap string nat,
  foldl (λ byYear s, <[yearLevel s := default 0 (byYear !! yearLevel s) + 1]> byYear)
        m subjects !! year
  = let c := length (filter (λ s, yearLevel s = year) subjects) in
    if (c =? 0) then m !! year else Some (default 0 (m !! year) + c).
Proof.
  induction subjects as [|s subjects IH]; intros m; [done|].
  cbn [foldl]. rewrite IH. clear IH. rewrite filter_cons. cbn zeta.
  destruct (decide (yearLevel s = year)) as [->|Hne].
  - rewrite lookup_insert_eq. cbn.
    destruct (length (filter (λ s, yearLevel s = year) subjects)) as [|c]; cbn.
    + done.
    + f_equal. lia.
  - rewrite lookup_insert_ne by done. done.
Qed.

Lemma countByYear_lookup subjects year :
  countByYear subjects !! year
  = let c := length (filter (λ s, yearLevel s = year) subjects) in
    if (c =? 0) then None else Some c.
Proof. unfold countByYear. rewrite countByYear_foldl. by rewrite lookup_empty. Qed.

Lemma yearMissing_true subjects year :
  yearMissing (countByYear subjects) year = true
  ↔ ∀ s, s ∈ subjects → yearLevel s ≠ year.
Proof.
  unfold yearMissing. rewrite countByYear_lookup. cbn zeta.
  destruct (length (filter (λ s, yearLevel s = year) subjects)) as [|c] eqn:E; cbn.
  - apply nil_length_inv in E. split; [|done]. intros _ s Hs Hy.
    assert (s ∈ filter (λ s, yearLevel s = year) subjects) as Hin
      by (by apply list_elem_of_filter).
    rewrite E in Hin. by apply not_elem_of_nil in Hin.
  - split; [done|]. intros H. exfalso.
    destruct (filter (λ s, yearLevel s = year) subjects) as [|s l] eqn:E'; [done|].
    assert (s ∈ filter (λ s, yearLevel s = year) subjects) as Hin
      by (rewrite E'; left).
    apply list_elem_of_filter in Hin as [Hy Hs]. by apply (H s).
Qed.

Lemma someWithCode_true code subjects :
  someWithCode code subjects = true ↔ ∃ s, s ∈ subjects ∧ subjectCode s = code.
Proof.
  unfold someWithCode. rewrite existsb_exists. split.
  - intros (s & Hin & Hs). exists s. rewrite list_elem_of_In.
    split; [done|]. by apply bool_decide_eq_true in Hs.
  - intros (s & Hin & Hs). exists s. rewrite <- list_elem_of_In.
    split; [done|]. by apply bool_decide_eq_true.
Qed.

(** The issue of the total count check, when there is one, begins with
    [Only] or with [Very]. *)
Lemma checkTotalCount_issue allSubjects imageResults x :
  x ∈ OverallValidation.issues
        (checkTotalCount allSubjects imageResults (initialOverall allSubjects)) →
  ∃ rest, x = "Only " +:+ rest ∨ x = "Very " +:+ rest.
Proof.
  unfold checkTotalCount.
  repeat match goal with |- context [if ?b then _ else _] => destruct b end;
    cbn; intros H; try (by apply not_elem_of_nil in H);
    apply list_elem_of_singleton in H as ->; eexists; [left|right]; reflexivity.
Qed.

(** C7: the issue that a year is completely missing, for each of the four
    years, and the issue that the Summer semester (CS 122) is missing, are
    among the issues exactly when two images were submitted and the year has
    no count (or a zero count) in [byYear], no deduplicated subject being of
    that year, respectively no subject has the code CS 122. *)
Theorem year_and_summer_issues_iff_two_images allSubjects imageResults :
  let v := validateOverallExtraction allSubjects imageResults in
  (∀ year, year ∈ expectedYears →
     ((year +:+ " completely missing") ∈ OverallValidation.issues v
      ↔ length imageResults = 2
        ∧ (OverallValidation.byYear v !! year = None
           ∨ OverallValidation.byYear v !! year = Some 0))
     ∧ (OverallValidation.byYear v !! year = None
        ∨ OverallValidation.byYear v !! year = Some 0
        ↔ ∀ s, s ∈ allSubjects → yearLevel s ≠ year))
  ∧ ("Summer semester missing (CS 122)" ∈ OverallValidation.issues v
     ↔ length imageResults = 2
       ∧ ∀ s, s ∈ allSubjects → subjectCode s ≠ "CS 122").
Proof.
  cbn zeta.
  destruct (validateOverallExtraction_fields allSubjects imageResults)
    as (_ & _ & _ & Hb & Hi).
  rewrite Hb, Hi. clear Hb Hi.
  assert (Hmiss : ∀ year,
            countByYear allSubjects !! year = None
            ∨ countByYear allSubjects !! year = Some 0
            ↔ yearMissing (countByYear allSubjects) year = true).
  { intros year. unfold yearMissing.
    destruct (countByYear allSubjects !! year) as [[|c]|]; cbn.
    - split; [done|]. by right.
    - split; [|done]. by intros [?|?].
    - split; [done|]. by left. }
  assert (Hsum : (∀ s, s ∈ allSubjects → subjectCode s ≠ "CS 122")
                 ↔ negb (someWithCode "CS 122" allSubjects) = true).
  { rewrite negb_true_iff, <- not_true_iff_false, someWithCode_true. split.
    - intros H (s & Hin & Hs). by apply (H s).
    - intros H s Hin Hs. apply H. by exists s. }
  split.
  - intros year Hyear. split; [|by rewrite Hmiss, yearMissing_true].
    rewrite Hmiss, elem_of_app. unfold lateIssues. rewrite elem_of_app. split.
    + intros [Ht|[Hy|Hs]].
      * apply checkTotalCount_issue in Ht as (rest & Ht). exfalso.
        repeat (apply elem_of_cons in Hyear as [->|Hyear]);
          [..|by apply not_elem_of_nil in Hyear];
          destruct Ht as [Ht|Ht]; vm_compute in Ht; discriminate.
      * destruct (length imageResults =? 2) eqn:E;
          [|by apply not_elem_of_nil in Hy].
        apply Nat.eqb_eq in E. split; [done|].
        unfold yearIssues in Hy. apply list_elem_of_fmap in Hy as (y' & Heq & Hy').
        apply list_elem_of_filter in Hy' as [Hm Hy'].
        assert (y' = year) as <-; [|done].
        repeat (apply elem_of_cons in Hyear as [->|Hyear]);
          [..|by apply not_elem_of_nil in Hyear];
          repeat (apply elem_of_cons in Hy' as [->|Hy']);
          try (by apply not_elem_of_nil in Hy'); vm_compute in Heq; first [reflexivity | discriminate].
      * exfalso.
        destruct (negb (someWithCode "CS 122" allSubjects) && (length imageResults =? 2));
          [|by apply not_elem_of_nil in Hs].
        apply list_elem_of_singleton in Hs.
        repeat (apply elem_of_cons in Hyear as [->|Hyear]);
          [..|by apply not_elem_of_nil in Hyear]; vm_compute in Hs; discriminate.
    + intros [Hlen Hm]. right. left.
      rewrite (proj2 (Nat.eqb_eq _ _) Hlen). unfold yearIssues.
      apply list_elem_of_fmap. exists year. split; [done|].
      by apply list_elem_of_filter.
  - rewrite Hsum, elem_of_app. unfold lateIssues. rewrite elem_of_app. split.
    + intros [Ht|[Hy|Hs]].
      * apply checkTotalCount_issue in Ht as (rest & [Ht|Ht]); vm_compute in Ht; discriminate.
      * exfalso. destruct (length imageResults =? 2);
          [|by apply not_elem_of_nil in Hy].
        unfold yearIssues in Hy. apply list_elem_of_fmap in Hy as (y' & Heq & Hy').
        apply list_elem_of_filter in Hy' as [_ Hy'].
        repeat (apply elem_of_cons in Hy' as [->|Hy']);
          try (by apply not_elem_of_nil in Hy'); vm_compute in Heq; discriminate.
      * destruct (negb (someWithCode "CS 122" allSubjects)) eqn:E1;
          [|by apply not_elem_of_nil in Hs].
        destruct (length imageResults =? 2) eqn:E2;
          [|by apply not_elem_of_nil in Hs].
        by apply Nat.eqb_eq in E2.
    + intros [Hlen Hno]. right. right.
      rewrite Hno, (proj2 (Nat.eqb_eq _ _) Hlen). cbn. by left.
Qed.

(** With the first 40 subjects of the curriculum (none of the 4th year),
    two images have the issue of the 4th year, one image has not. *)
Lemma year_and_summer_issues_iff_two_images_witness :
  "4th Year completely missing"
    ∈ OverallValidation.issues
        (validateOverallExtraction (firstSubjects 40)
           [resultWith 1 true; resultWith 2 false])
  ∧ "4th Year completely missing"
      ∉ OverallValidation.issues
          (validateOverallExtraction (firstSubjects 40) [resultWith 1 true]).
Proof.
  split.
  - apply (proj1 (year_and_summer_issues_iff_two_images (firstSubjects 40)
                    [resultWith 1 true; resultWith 2 false]) "4th Year").
    + vm_compute. do 3 right. left.
    + split; [reflexivity|]. left. vm_compute. reflexivity.
  - intros H.
    apply (proj1 (year_and_summer_issues_iff_two_images (firstSubjects 40)
                    [resultWith 1 true]) "4th Year") in H as [H _].
    + discriminate H.
    + vm_compute. do 3 right. left.
Defined.

(** ** Key normalisation *)

Lemma isWhiteSpace_upperChar c : isWhiteSpace (upperChar c) = isWhiteSpace c.
Proof. by destruct c as [[] [] [] [] [] [] [] []]. Qed.

Lemma isWhiteSpace_lowerChar c : isWhiteSpace (lowerChar c) = isWhiteSpace c.
Proof. by destruct c as [[] [] [] [] [] [] [] []]. Qed.

Section Trim.
Variable f : ascii → ascii.
Hypothesis f_white : ∀ c, isWhiteSpace (f c) = isWhiteSpace c.

Lemma removeWhiteSpace_trimStart s :
  removeWhiteSpace (mapChars f (trimStart s)) = removeWhiteSpace (mapChars f s).
Proof.
  induction s as [|c r IH]; [done|]. cbn.
  rewrite f_white. destruct (isWhiteSpace c) eqn:E; [done|].
  cbn. by rewrite f_white, E.
Qed.

Lemma removeWhiteSpace_trimEnd s :
  removeWhiteSpace (mapChars f (trimEnd s)) = removeWhiteSpace (mapChars f s).
Proof.
  induction s as [|c r IH]; [done|]. cbn.
  destruct (trimEnd r) as [|a b]; rewrite f_white.
  - cbn in IH. rewrite <- IH.
    destruct (isWhiteSpace c) eqn:E; [done|]. cbn. by rewrite f_white, E.
  - cbn [mapChars removeWhiteSpace]. rewrite f_white, <- IH. done.
Qed.

Lemma removeWhiteSpace_trim s :
  removeWhiteSpace (mapChars f (trim s)) = removeWhiteSpace (mapChars f s).
Proof. unfold trim. by rewrite removeWhiteSpace_trimEnd, removeWhiteSpace_trimStart. Qed.
End Trim.

(** The [trim] before the normalisation of an extracted code changes
    nothing: the normalisation removes all white space anyway. *)
Lemma normalized_trim code :
  removeWhiteSpace (toUpperCase (trim code)) = normalized code.
Proof. apply removeWhiteSpace_trim, isWhiteSpace_upperChar. Qed.

(** ** The lookup table of the hydration *)

Section Lookup.
Context {V : Type}.
Variable key : V → string.

Lemma tableOf_snoc entries e :
  tableOf key (entries ++ [e]) = <[key e := e]> (tableOf key entries).
Proof. unfold tableOf. by rewrite foldl_app. Qed.

(** When no two entries have the same key, the table holds exactly the
    entries, each under its key. *)
Lemma tableOf_lookup entries k e :
  NoDup (key <$> entries) →
  tableOf key entries !! k = Some e ↔ e ∈ entries ∧ key e = k.
Proof.
  induction entries as [|e' entries IH] using rev_ind; intros Hnd.
  - unfold tableOf. cbn. rewrite lookup_empty. split; [done|].
    intros [H _]. by apply not_elem_of_nil in H.
  - rewrite tableOf_snoc. rewrite fmap_app in Hnd. cbn in Hnd.
    apply NoDup_app in Hnd as (Hnd & Hfresh & _).
    rewrite elem_of_app, list_elem_of_singleton.
    destruct (decide (key e' = k)) as [<-|Hne].
    + rewrite lookup_insert_eq. split.
      * intros [= ->]. split; [by right|done].
      * intros [[Hin| ->] Hk]; [|done]. exfalso.
        apply (Hfresh (key e')); [|by left].
        rewrite <- Hk. apply list_elem_of_fmap. by exists e.
    + rewrite lookup_insert_ne by done. rewrite IH by done. split.
      * intros [? ?]. split; [by left|done].
      * intros [[?| ->] ?]; done.
Qed.
End Lookup.

Lemma refLookup_tableOf :
  refLookup = tableOf (λ kv : string * Ref.t, normalized kv.1) CURRICULUM_REFERENCE.
Proof.
  unfold refLookup, tableOf.
  generalize (∅ : gmap string (string * Ref.t)).
  induction CURRICULUM_REFERENCE as [|[k r] l IH]; intros m; [done|].
  cbn. apply IH.
Qed.

(** No two keys of the reference have the same normalised form. *)
Lemma normalized_keys_NoDup :
  NoDup ((λ kv : string * Ref.t, normalized kv.1) <$> CURRICULUM_REFERENCE).
Proof.
  apply (bool_decide_unpack
           (NoDup ((λ kv : string * Ref.t, normalized kv.1) <$> CURRICULUM_REFERENCE))).
  vm_compute. exact I.
Qed.

Lemma refLookup_Some k refKey reference :
  refLookup !! k = Some (refKey, reference)
  ↔ (refKey, reference) ∈ CURRICULUM_REFERENCE ∧ normalized refKey = k.
Proof.
  rewrite refLookup_tableOf.
  apply (tableOf_lookup (λ kv : string * Ref.t, normalized kv.1)
           CURRICULUM_REFERENCE k (refKey, reference)).
  apply normalized_keys_NoDup.
Qed.

Lemma refLookup_None k :
  refLookup !! k = None
  ↔ ∀ refKey, refKey ∈ Object_keys CURRICULUM_REFERENCE → normalized refKey ≠ k.
Proof.
  split.
  - intros Hnone refKey Hin Hk. unfold Object_keys in Hin.
    apply list_elem_of_fmap in Hin as ([refKey' reference] & -> & Hin).
    assert (refLookup !! k = Some (refKey', reference)) as Hsome
      by (apply refLookup_Some; split; assumption).
    rewrite Hnone in Hsome. discriminate Hsome.
  - intros Hno. destruct (refLookup !! k) as [[refKey reference]|] eqn:E; [|done].
    apply refLookup_Some in E as [Hin Hk]. exfalso.
    apply (Hno refKey); [|done]. unfold Object_keys.
    apply list_elem_of_fmap. by exists (refKey, reference).
Qed.

(** ** Hydration *)

(** A subject whose normalised code is that of a reference key becomes the
    reference entry, under the reference's spelling of the key. *)
Lemma hydrateSubject_match subject refKey reference :
  (refKey, reference) ∈ CURRICULUM_REFERENCE →
  normalized (subjectCode subject) = normalized refKey →
  hydrateSubject subject = referenceSubject (refKey, reference).
Proof.
  intros Hin Hk. unfold hydrateSubject. rewrite normalized_trim.
  assert (refLookup !! normalized (subjectCode subject) = Some (refKey, reference))
    as -> by (apply refLookup_Some; split; [assumption|symmetry; assumption]).
  reflexivity.
Qed.

(** A subject whose normalised code is that of no reference key is
    returned as it is. *)
Lemma hydrateSubject_no_match subject :
  (∀ refKey, refKey ∈ Object_keys CURRICULUM_REFERENCE →
     normalized (subjectCode subject) ≠ normalized refKey) →
  hydrateSubject subject = subject.
Proof.
  intros Hno. unfold hydrateSubject. rewrite normalized_trim.
  assert (refLookup !! normalized (subjectCode subject) = None) as ->;
    [|reflexivity].
  apply refLookup_None. intros refKey Hin Hk. apply (Hno refKey Hin).
  symmetry. exact Hk.
Qed.

(** C4: the hydration gives one subject for each subject, in the same
    order.  A subject whose normalised code is the normalised form of a
    reference key is replaced by the reference entry (the code in the
    reference's spelling, the name, the units, the year level and the
    semester of the entry); a subject that matches no key is left as it is.
    The function is total: no subject is dropped. *)
Theorem hydrateSubjectsFromReference_spec subjects :
  length (hydrateSubjectsFromReference subjects) = length subjects
  ∧ ∀ i subject, subjects !! i = Some subject →
      (∀ refKey reference,
         (refKey, reference) ∈ CURRICULUM_REFERENCE →
         normalized (subjectCode subject) = normalized refKey →
         hydrateSubjectsFromReference subjects !! i
         = Some {| subjectCode := refKey;
                   subjectName := Ref.name reference;
                   lecUnits := Ref.lecUnits reference;
                   labUnits := Ref.labUnits reference;
                   units := Ref.units reference;
                   yearLevel := Ref.yearLevel reference;
                   semester := Ref.semester reference |})
      ∧ ((∀ refKey, refKey ∈ Object_keys CURRICULUM_REFERENCE →
            normalized (subjectCode subject) ≠ normalized refKey) →
         hydrateSubjectsFromReference subjects !! i = Some subject).
Proof.
  unfold hydrateSubjectsFromReference. split; [apply length_fmap|].
  intros i subject Hi. rewrite list_lookup_fmap, Hi. cbn. split.
  - intros refKey reference Hin Hk. f_equal.
    by rewrite (hydrateSubject_match subject refKey reference).
  - intros Hno. f_equal. by apply hydrateSubject_no_match.
Qed.

Lemma hydrateSubjectsFromReference_spec_witness :
  hydrateSubjectsFromReference
    [{| subjectCode := " cs  101"; subjectName := "Intro"; lecUnits := 0;
        labUnits := 0; units := 0; yearLevel := "Unknown"; semester := "Unknown" |}]
    !! 0
  = Some {| subjectCode := "CS 101";
            subjectName := "Introduction to Computing";
            lecUnits := 3; labUnits := 0; units := 3;
            yearLevel := "1st Year"; semester := "1st Semester" |}.
Proof.
  pose proof (hydrateSubjectsFromReference_spec
    [{| subjectCode := " cs  101"; subjectName := "Intro"; lecUnits := 0;
        labUnits := 0; units := 0; yearLevel := "Unknown"; semester := "Unknown" |}])
    as [_ H].
  destruct (H 0 _ eq_refl) as [Hmatch _].
  apply (Hmatch "CS 101"
           {| Ref.name := "Introduction to Computing"; Ref.lecUnits := 3;
              Ref.labUnits := 0; Ref.units := 3; Ref.yearLevel := "1st Year";
              Ref.semester := "1st Semester" |}).
  - left.
  - vm_compute. reflexivity.
Defined.

(** ** Deduplication *)

Lemma filterUnseen_insert k xs : ∀ seen,
  filterUnseen ({[k]} ∪ seen) xs
  = filterUnseen seen (filter (λ t, dedupKey t ≠ k) xs).
Proof.
  induction xs as [|t xs IH]; intros seen; [done|].
  rewrite filter_cons. cbn [filterUnseen]. cbn zeta.
  destruct (decide (dedupKey t ≠ k)) as [Hne|Heq].
  - cbn [filterUnseen]. cbn zeta.
    destruct (decide (dedupKey t ∈ seen)) as [Hin|Hnin].
    + rewrite decide_True by set_solver. apply IH.
    + rewrite decide_False
        by (rewrite elem_of_union, elem_of_singleton; intros [?|?]; done).
      f_equal. rewrite <- IH. f_equal.
      by rewrite !(assoc_L (∪)), (comm_L (∪) {[dedupKey t]}).
  - apply dec_stable in Heq. rewrite decide_True by set_solver. apply IH.
Qed.

Lemma filterUnseen_sublist xs : ∀ seen, sublist (filterUnseen seen xs) xs.
Proof.
  induction xs as [|t xs IH]; intros seen; cbn; [constructor|].
  destruct (decide (dedupKey t ∈ seen)).
  - apply sublist_cons, IH.
  - apply sublist_skip, IH.
Qed.

Lemma filterUnseen_fresh xs : ∀ seen t,
  t ∈ filterUnseen seen xs → dedupKey t ∉ seen.
Proof.
  induction xs as [|x xs IH]; intros seen t; cbn.
  - intros H. by apply not_elem_of_nil in H.
  - destruct (decide (dedupKey x ∈ seen)) as [Hin|Hnin].
    + apply IH.
    + intros [->|H]%elem_of_cons; [done|]. apply IH in H. set_solver.
Qed.

Lemma filterUnseen_NoDup xs : ∀ seen, NoDup (dedupKey <$> filterUnseen seen xs).
Proof.
  induction xs as [|x xs IH]; intros seen; cbn; [constructor|].
  destruct (decide (dedupKey x ∈ seen)) as [Hin|Hnin]; [apply IH|].
  rewrite fmap_cons. constructor; [|apply IH].
  intros (t & Hk & Ht)%list_elem_of_fmap.
  apply filterUnseen_fresh in Ht. set_solver.
Qed.

Lemma filterUnseen_keys xs : ∀ seen s,
  s ∈ xs → dedupKey s ∉ seen →
  ∃ t, t ∈ filterUnseen seen xs ∧ dedupKey t = dedupKey s.
Proof.
  induction xs as [|x xs IH]; intros seen s Hs Hseen.
  - by apply not_elem_of_nil in Hs.
  - cbn. apply elem_of_cons in Hs as [->|Hs].
    + rewrite decide_False by done. exists x. split; [left|done].
    + destruct (decide (dedupKey x ∈ seen)) as [Hin|Hnin]; [by apply IH|].
      destruct (decide (dedupKey s = dedupKey x)) as [Heq|Hne].
      * exists x. split; [left|done].
      * destruct (IH ({[dedupKey x]} ∪ seen) s Hs) as (t & Ht & Hk).
        { rewrite elem_of_union, elem_of_singleton. intros [?|?]; done. }
        exists t. split; [by right|done].
Qed.

(** The lower case and the white space of the code units, by their
    numbers. *)
Lemma lowerChar_units c :
  lowerChar c
  = if decide (65 ≤ nat_of_ascii c ≤ 90 ∨ 192 ≤ nat_of_ascii c ≤ 214
               ∨ 216 ≤ nat_of_ascii c ≤ 222)
    then ascii_of_nat (nat_of_ascii c + 32) else c.
Proof. destruct c as [[] [] [] [] [] [] [] []]; vm_compute; reflexivity. Qed.

Lemma isWhiteSpace_units c :
  isWhiteSpace c = true
  ↔ 9 ≤ nat_of_ascii c ≤ 13 ∨ nat_of_ascii c = 32 ∨ nat_of_ascii c = 160.
Proof.
  unfold isWhiteSpace. cbn zeta.
  rewrite !orb_true_iff, andb_true_iff, !Nat.leb_le, !Nat.eqb_eq. tauto.
Qed.

Lemma dedupKey_codeUnits s :
  codeUnits (dedupKey s)
  = (λ c, if decide (65 ≤ nat_of_ascii c ≤ 90 ∨ 192 ≤ nat_of_ascii c ≤ 214
                     ∨ 216 ≤ nat_of_ascii c ≤ 222)
          then ascii_of_nat (nat_of_ascii c + 32) else c)
    <$> filter (λ c, ¬ (9 ≤ nat_of_ascii c ≤ 13 ∨ nat_of_ascii c = 32
                        ∨ nat_of_ascii c = 160))
               (codeUnits (subjectCode s)).
Proof.
  unfold dedupKey, toLowerCase.
  induction (subjectCode s) as [|c code IH]; [done|].
  cbn [mapChars removeWhiteSpace codeUnits].
  rewrite isWhiteSpace_lowerChar, filter_cons.
  destruct (isWhiteSpace c) eqn:E.
  - rewrite decide_False; [exact IH|].
    intros H. apply H. by apply isWhiteSpace_units.
  - rewrite decide_True.
    + cbn [codeUnits fmap list_fmap]. rewrite <- lowerChar_units. f_equal. exact IH.
    + intros H%isWhiteSpace_units. congruence.
Qed.

(** C5: the deduplication of the batches, flattened in their order.  The
    key of a subject is its code in lower case without white space: code
    unit by code unit, the white space units (9 to 13, 32 and 160) are left
    out and the capital letters (65 to 90, 192 to 214 and 216 to 222) are
    replaced by their small letters, 32 above.  The first subject is kept
    and every later subject with its key is discarded, whatever it holds,
    and so on for the subjects that remain; the result is a subsequence of
    the flattened input (the order of the first occurrences), has no key
    twice, has every key of the input, and is not longer than the input.
    Of two subjects the second is discarded when it has the key of the
    first, and kept when it has another key. *)
Theorem uniqueSubjects_first_wins :
  (∀ s, dedupKey s = removeWhiteSpace (toLowerCase (subjectCode s)))
  ∧ (∀ s,
       codeUnits (dedupKey s)
       = (λ c, if decide (65 ≤ nat_of_ascii c ≤ 90 ∨ 192 ≤ nat_of_ascii c ≤ 214
                          ∨ 216 ≤ nat_of_ascii c ≤ 222)
               then ascii_of_nat (nat_of_ascii c + 32) else c)
         <$> filter (λ c, ¬ (9 ≤ nat_of_ascii c ≤ 13 ∨ nat_of_ascii c = 32
                             ∨ nat_of_ascii c = 160))
                    (codeUnits (subjectCode s)))
  ∧ uniqueSubjects [] = []
  ∧ (∀ s rest,
       uniqueSubjects (s :: rest)
       = s :: uniqueSubjects (filter (λ t, dedupKey t ≠ dedupKey s) rest))
  ∧ (∀ batches : list (list Subject),
       let allSubjects := concat batches in
       sublist (uniqueSubjects allSubjects) allSubjects
       ∧ NoDup (dedupKey <$> uniqueSubjects allSubjects)
       ∧ (∀ s, s ∈ allSubjects →
            ∃ t, t ∈ uniqueSubjects allSubjects ∧ dedupKey t = dedupKey s)
       ∧ length (uniqueSubjects allSubjects) ≤ sum_list (length <$> batches))
  ∧ (∀ a b, dedupKey a = dedupKey b → uniqueSubjects [a; b] = [a])
  ∧ (∀ a b, dedupKey a ≠ dedupKey b → uniqueSubjects [a; b] = [a; b]).
Proof.
  split; [done|]. split; [exact dedupKey_codeUnits|]. split; [done|].
  split; [|split; [|split]].
  - intros s rest. unfold uniqueSubjects. cbn [filterUnseen]. cbn zeta.
    rewrite decide_False by set_solver. f_equal. apply filterUnseen_insert.
  - intros batches allSubjects. unfold uniqueSubjects. repeat split.
    + apply filterUnseen_sublist.
    + apply filterUnseen_NoDup.
    + intros s Hs. apply filterUnseen_keys; [done|set_solver].
    + rewrite <- length_concat. apply sublist_length, filterUnseen_sublist.
  - intros a b Hk. unfold uniqueSubjects. cbn.
    rewrite decide_False by set_solver. rewrite decide_True by set_solver. done.
  - intros a b Hk. unfold uniqueSubjects. cbn.
    rewrite decide_False by set_solver.
    rewrite decide_False; [done|].
    rewrite elem_of_union, elem_of_singleton.
    intros [E|E]; [by symmetry in E|by apply not_elem_of_empty in E].
Qed.

(** The example of first wins: two spellings of one code, of which the
    first is kept; and two codes, both kept. *)
Lemma uniqueSubjects_first_wins_witness :
  uniqueSubjects
    [{| subjectCode := "CS 101"; subjectName := "A"; lecUnits := 0; labUnits := 0;
        units := 0; yearLevel := "Unknown"; semester := "Unknown" |};
     {| subjectCode := "cs101"; subjectName := "B"; lecUnits := 3; labUnits := 0;
        units := 3; yearLevel := "1st Year"; semester := "1st Semester" |}]
  = [{| subjectCode := "CS 101"; subjectName := "A"; lecUnits := 0; labUnits := 0;
        units := 0; yearLevel := "Unknown"; semester := "Unknown" |}]
  ∧ uniqueSubjects (firstSubjects 2) = firstSubjects 2.
Proof.
  split.
  - apply (proj1 (proj2 (proj2 (proj2 (proj2 (proj2 uniqueSubjects_first_wins)))))).
    vm_compute. reflexivity.
  - apply (proj2 (proj2 (proj2 (proj2 (proj2 (proj2 uniqueSubjects_first_wins)))))).
    vm_compute. discriminate.
Defined.

(** ** The missing courses *)

Lemma normalized_key_inj k1 k2 :
  k1 ∈ Object_keys CURRICULUM_REFERENCE → k2 ∈ Object_keys CURRICULUM_REFERENCE →
  normalized k1 = normalized k2 → k1 = k2.
Proof.
  unfold Object_keys.
  intros ([k1' r1] & -> & H1)%list_elem_of_fmap ([k2' r2] & -> & H2)%list_elem_of_fmap Hk.
  cbn [fst] in Hk.
  assert (refLookup !! normalized k2' = Some (k1', r1)) as E1
    by (apply refLookup_Some; split; assumption).
  assert (refLookup !! normalized k2' = Some (k2', r2)) as E2
    by (apply refLookup_Some; split; [assumption|reflexivity]).
  rewrite E1 in E2. by injection E2 as -> _.
Qed.

(** Hydration leaves every code canonical. *)
Lemma hydrateSubject_canonical subject : canonicalCode (hydrateSubject subject).
Proof.
  intros refKey Hin. unfold hydrateSubject. rewrite normalized_trim.
  destruct (refLookup !! normalized (subjectCode subject))
    as [[k r]|] eqn:E; cbn [subjectCode]; intros Hk.
  - apply refLookup_Some in E as [Hk' _].
    apply normalized_key_inj; [|assumption..].
    unfold Object_keys. apply list_elem_of_fmap. exists (k, r).
    split; [reflexivity|assumption].
  - exfalso. apply (proj1 (refLookup_None _)) with (refKey := refKey) in E;
      [|assumption]. apply E. symmetry. exact Hk.
Qed.

Lemma missingCourses_exact allSubjects imageResults :
  OverallValidation.missingCourses (validateOverallExtraction allSubjects imageResults)
  = filter (λ code, code ∉ subjectCode <$> allSubjects)
           (Object_keys CURRICULUM_REFERENCE).
Proof.
  unfold validateOverallExtraction. cbn [OverallValidation.missingCourses
    OverallValidation.setMissingCourses].
  apply list_filter_iff. intros code. by rewrite elem_of_list_to_set.
Qed.

(** For subjects with canonical codes, the exact difference is the
    difference of normalised keys. *)
Lemma missingCourses_canonical allSubjects imageResults :
  Forall canonicalCode allSubjects →
  missingByNormalizedKey allSubjects
    (OverallValidation.missingCourses
       (validateOverallExtraction allSubjects imageResults)).
Proof.
  intros Hcan code. rewrite missingCourses_exact, list_elem_of_filter.
  rewrite Forall_forall in Hcan. split.
  - intros [Hnot Hin]. split; [done|].
    intros (s & Hk & Hs)%list_elem_of_fmap. apply Hnot.
    apply list_elem_of_fmap. exists s. split; [|done].
    symmetry. by apply (Hcan s Hs code).
  - intros [Hin Hnot]. split; [|done].
    intros (s & -> & Hs)%list_elem_of_fmap. apply Hnot.
    apply list_elem_of_fmap. by exists s.
Qed.

(** C1: the missing courses of the overall validation.  For the
    deduplicated subjects of hydrated batches, and for any subjects whose
    codes are as the hydration leaves them (every hydrated subject is so),
    and for every sequence of image validations, the missing courses are
    exactly the reference codes whose normalised key is the normalised code
    of no subject.  They are computed last, from the codes of the subjects
    and the reference alone (the reference codes, in the order of the
    reference, that are the code of no subject), for every number of images:
    what the Summer check has put in the list is overwritten. *)
Theorem missingCourses_exact_diff :
  (∀ (batches : list (list Subject)) imageResults,
     let unique :=
       uniqueSubjects (concat (hydrateSubjectsFromReference <$> batches)) in
     missingByNormalizedKey unique
       (OverallValidation.missingCourses
          (validateOverallExtraction unique imageResults)))
  ∧ (∀ subject, canonicalCode (hydrateSubject subject))
  ∧ (∀ allSubjects imageResults,
       Forall canonicalCode allSubjects →
       missingByNormalizedKey allSubjects
         (OverallValidation.missingCourses
            (validateOverallExtraction allSubjects imageResults)))
  ∧ (∀ allSubjects imageResults,
       OverallValidation.missingCourses
         (validateOverallExtraction allSubjects imageResults)
       = filter (λ code, code ∉ subjectCode <$> allSubjects)
                (Object_keys CURRICULUM_REFERENCE))
  ∧ (∃ allSubjects imageResults,
       OverallValidation.missingCourses
         (overallBeforeMissing allSubjects imageResults) = ["CS 122"]
       ∧ OverallValidation.missingCourses
           (validateOverallExtraction allSubjects imageResults)
         ≠ ["CS 122"]).
Proof.
  split; [|split; [|split; [|split]]].
  - intros batches imageResults unique. apply missingCourses_canonical.
    apply Forall_forall. intros s Hs.
    apply (λ H, elem_of_sublist _ _ _ H (filterUnseen_sublist _ ∅)) in Hs.
    apply list_elem_of_In, in_concat in Hs as (batch & Hb & Hs).
    apply list_elem_of_In in Hb, Hs.
    apply list_elem_of_fmap in Hb as (raw & -> & _).
    unfold hydrateSubjectsFromReference in Hs.
    apply list_elem_of_fmap in Hs as (r & -> & _).
    apply hydrateSubject_canonical.
  - apply hydrateSubject_canonical.
  - apply missingCourses_canonical.
  - apply missingCourses_exact.
  - exists (firstSubjects 10), [resultWith 1 true; resultWith 2 true].
    split; [vm_compute; reflexivity|vm_compute; discriminate].
Qed.

(** Two deduplicated subjects from a scan of one image, of which one has a
    reference code in another spelling and the other a code outside the
    reference. *)
Lemma missingCourses_exact_diff_witness :
  let unique :=
    uniqueSubjects
      (hydrateSubjectsFromReference
         [{| subjectCode := "cs101"; subjectName := ""; lecUnits := 0;
             labUnits := 0; units := 0; yearLevel := "Unknown";
             semester := "Unknown" |};
          {| subjectCode := "Elective 9"; subjectName := "Free elective";
             lecUnits := 3; labUnits := 0; units := 3;
             yearLevel := "4th Year"; semester := "2nd Semester" |}]) in
  missingByNormalizedKey unique
    (OverallValidation.missingCourses
       (validateOverallExtraction unique [resultWith 1 true])).
Proof.
  apply (proj1 (proj2 (proj2 missingCourses_exact_diff))).
  apply Forall_forall. intros s Hs.
  apply (λ H, elem_of_sublist _ _ _ H (filterUnseen_sublist _ ∅)) in Hs.
  unfold hydrateSubjectsFromReference in Hs.
  apply list_elem_of_fmap in Hs as (r & -> & _).
  apply (proj1 (proj2 missingCourses_exact_diff)).
Defined.

(** ** The request handler *)

Section HandlerProperties.

Variable preprocessImage : string → string.
Variable sendToGroq : File → GroqResult.

(** The turn of the loop, the loop, the handler and the route, with these
    collaborators. *)
Abbreviation turn := (processImage preprocessImage sendToGroq).
Abbreviation loop := (processImages preprocessImage sendToGroq).
Abbreviation handler := (scanCurriculumHandler preprocessImage sendToGroq).
Abbreviation route := (scanCurriculum preprocessImage sendToGroq).

(** The loop, turn by turn: each file adds the result, the subjects and
    the calls of its own turn, whatever the other turns did. *)
Lemma processImages_turns files : ∀ i st,
  let st' := loop i files st in
  imageResults st'
  = (imageResults st ++ imap (λ j file, (turn (i + j) file).1.1) files)%list
  ∧ allSubjects st'
    = (allSubjects st
       ++ concat (imap (λ j file, (turn (i + j) file).1.2) files))%list
  ∧ calls st'
    = (calls st ++ concat (imap (λ j file, (turn (i + j) file).2) files))%list.
Proof.
  induction files as [|file files IH]; intros i st; cbn zeta.
  - cbn. by rewrite !app_nil_r.
  - cbn [processImages].
    destruct (turn i file) as [[imageResult hydrated] made] eqn:E.
    destruct (IH (S i)
                {| imageResults := imageResults st ++ [imageResult];
                   allSubjects := allSubjects st ++ hydrated;
                   calls := calls st ++ made |}) as (Hr & Hs & Hc).
    cbn zeta in Hr, Hs, Hc. rewrite Hr, Hs, Hc. clear Hr Hs Hc IH.
    cbn [imageResults allSubjects calls imap concat].
    rewrite Nat.add_0_r, E. cbn [fst snd].
    rewrite <- !app_assoc. cbn [app].
    rewrite (imap_ext (λ j f, (turn (S i + j) f).1.1)
               ((λ j f, (turn (i + j) f).1.1) ∘ S))
      by (intros; cbn; by rewrite Nat.add_succ_r).
    rewrite (imap_ext (λ j f, (turn (S i + j) f).1.2)
               ((λ j f, (turn (i + j) f).1.2) ∘ S))
      by (intros; cbn; by rewrite Nat.add_succ_r).
    rewrite (imap_ext (λ j f, (turn (S i + j) f).2)
               ((λ j f, (turn (i + j) f).2) ∘ S))
      by (intros; cbn; by rewrite Nat.add_succ_r).
    done.
Qed.

Lemma processImage_subjects i file :
  subjects (turn i file).1.1 = (turn i file).1.2.
Proof.
  unfold processImage.
  destruct (sendToGroq _) as [message|[rows|]]; reflexivity.
Qed.

Lemma processImages_results files :
  imageResults (loop 0 files initialState)
  = imap (λ j file, (turn j file).1.1) files.
Proof. by destruct (processImages_turns files 0 initialState) as (-> & _). Qed.

Lemma processImages_allSubjects files :
  allSubjects (loop 0 files initialState)
  = concat (subjects <$> imageResults (loop 0 files initialState)).
Proof.
  rewrite processImages_results.
  destruct (processImages_turns files 0 initialState) as (_ & -> & _).
  cbn [allSubjects initialState app]. f_equal.
  rewrite fmap_imap. apply imap_ext. intros j file _. cbn.
  by rewrite processImage_subjects.
Qed.

(** C8: when the recognizer call fails for an image, the loop goes on.
    There is a result for every file; the result of the failed image has no
    subject and a validation that is not good, with the message of the
    failure as its only issue; the merged subjects are those of the results,
    image by image, so the failed image adds none; every image for which
    the recognizer returned rows has its hydrated subjects and their
    validation. *)
Theorem failed_image_does_not_abort files i file message :
  files !! i = Some file →
  sendToGroq (sentFile preprocessImage file) = Throws message →
  let st := loop 0 files initialState in
  length (imageResults st) = length files
  ∧ imageResults st !! i
    = Some {| imageNumber := Z.of_nat i + 1;
              originalFile := originalname file;
              subjects := [];
              validation :=
                Some {| ImageValidation.isGood := false;
                        ImageValidation.issues := [message];
                        ImageValidation.warnings := [];
                        ImageValidation.subjectCount := 0;
                        ImageValidation.missingCourses := [] |} |}
  ∧ allSubjects st = concat (subjects <$> imageResults st)
  ∧ (∀ j file' rows,
       files !! j = Some file' →
       sendToGroq (sentFile preprocessImage file') = Returns (Some rows) →
       let hydrated := hydrateSubjectsFromReference (imap cleanSubject rows) in
       imageResults st !! j
       = Some {| imageNumber := Z.of_nat j + 1;
                 originalFile := originalname file';
                 subjects := hydrated;
                 validation :=
                   Some (validateExtractionQuality hydrated (Z.of_nat j + 1)) |}).
Proof.
  intros Hfile Hthrow st.
  split; [|split; [|split]].
  - subst st. by rewrite processImages_results, length_imap.
  - subst st. rewrite processImages_results, list_lookup_imap, Hfile. cbn.
    unfold processImage. by rewrite Hthrow.
  - apply processImages_allSubjects.
  - intros j file' rows Hj Hrows hydrated. subst st.
    rewrite processImages_results, list_lookup_imap, Hj. cbn.
    unfold processImage. by rewrite Hrows.
Qed.

Lemma uploadArray_refuses parts file : ∀ maxCount,
  file ∈ parts →
  mimetype file ∉ ["image/jpeg"; "image/png"; "image/webp"] →
  ∃ err, uploadArray maxCount parts = inl err
         ∧ (length parts ≤ maxCount →
            err = FileFilterError "Only JPG, PNG, and WEBP images are allowed").
Proof.
  induction parts as [|part parts IH]; intros maxCount Hin Htype.
  - by apply not_elem_of_nil in Hin.
  - destruct maxCount as [|k]; cbn [uploadArray length];
      [eexists; split; [done|lia]|].
    unfold fileFilter.
    destruct (bool_decide (mimetype part ∈ ["image/jpeg"; "image/png"; "image/webp"]))
      eqn:Hok; cbv beta iota.
    + apply bool_decide_eq_true in Hok.
      apply elem_of_cons in Hin as [->|Hin]; [done|].
      destruct (IH k Hin Htype) as (err & -> & Herr).
      exists err. split; [done|]. intros Hlen. apply Herr. lia.
    + eexists. split; done.
Qed.

Lemma uploadArray_accepts parts : ∀ maxCount files,
  uploadArray maxCount parts = inr files → files = parts.
Proof.
  induction parts as [|part parts IH]; intros maxCount files; cbn [uploadArray].
  - intros H. by injection H as <-.
  - destruct maxCount as [|k]; [done|].
    destruct (fileFilter part); [done|].
    destruct (uploadArray k parts) as [err|files'] eqn:E; [done|].
    intros H. injection H as <-. f_equal. by apply (IH k).
Qed.

(** C9, as the code has it: a request with an input error is ended
    before any call to the recognizer, the hydration, the validations or the
    deduplication.  Without a file the handler answers with status 400; a
    file part of a disallowed type ends the upload with an error, that of
    the file filter when there are at most two parts, and the handler is
    not called; when the upload is accepted with a file and the key is not
    set, the handler answers with status 500. *)
Theorem input_errors_rejected_before_engine req :
  inputError req →
  (route req).2 = []
  ∧ (noFile req →
     (route req).1
     = Responded 400 (ErrorBody false "No image(s) uploaded" "error"))
  ∧ (disallowedType req →
     ∃ err, (route req).1 = UploadRejected err
            ∧ (∀ parts, imageParts req = Some parts → length parts ≤ 2 →
               err = FileFilterError "Only JPG, PNG, and WEBP images are allowed"))
  ∧ (∀ parts file files,
       imageParts req = Some parts →
       uploadArray 2 parts = inr (file :: files) →
       missingCredential req →
       (route req).1
       = Responded 500 (ErrorBody false "GROQ_API_KEY not set" "error")).
Proof.
  intros Herr.
  assert (Hno : noFile req →
                route req
                = (Responded 400 (ErrorBody false "No image(s) uploaded" "error"), [])).
  { unfold scanCurriculum. intros [->| ->]; reflexivity. }
  assert (Hbad : disallowedType req →
                 ∃ err, route req = (UploadRejected err, [])
                        ∧ (∀ parts, imageParts req = Some parts → length parts ≤ 2 →
                           err = FileFilterError
                                   "Only JPG, PNG, and WEBP images are allowed")).
  { intros (parts & file & Hparts & Hin & Htype). unfold scanCurriculum.
    rewrite Hparts.
    destruct (uploadArray_refuses parts file 2 Hin Htype) as (err & -> & Hfilter).
    exists err. split; [done|]. intros parts' [= <-]. done. }
  assert (Hkey : ∀ parts file files,
                   imageParts req = Some parts →
                   uploadArray 2 parts = inr (file :: files) →
                   missingCredential req →
                   route req
                   = (Responded 500 (ErrorBody false "GROQ_API_KEY not set" "error"),
                      [])).
  { intros parts file files Hparts Hup Hmiss. unfold scanCurriculum.
    rewrite Hparts, Hup. unfold scanCurriculumHandler.
    by rewrite bool_decide_true. }
  split; [|split; [|split]].
  - destruct Herr as [H|[H|H]].
    + by rewrite (Hno H).
    + destruct (Hbad H) as (err & -> & _). done.
    + destruct (imageParts req) as [parts|] eqn:Hparts;
        [|rewrite Hno; [done|by left]].
      destruct (uploadArray 2 parts) as [err|[|file files]] eqn:Hup.
      * unfold scanCurriculum. by rewrite Hparts, Hup.
      * apply uploadArray_accepts in Hup as <-. rewrite Hno; [done|by right].
      * by rewrite (Hkey parts file files).
  - intros H. by rewrite (Hno H).
  - intros H. destruct (Hbad H) as (err & -> & Hfilter). by exists err.
  - intros parts file files Hparts Hup Hmiss. by rewrite (Hkey parts file files).
Qed.

End HandlerProperties.

Lemma failed_image_does_not_abort_witness :
  imageResults
    (processImages samplePreprocess sampleRecognizer 0
       [pngFile "bad.png"; pngFile "page2.png"]
       initialState) !! 0
  = Some {| imageNumber := 1;
            originalFile := "bad.png";
            subjects := [];
            validation :=
              Some {| ImageValidation.isGood := false;
                      ImageValidation.issues := ["Could not parse AI response as JSON"];
                      ImageValidation.warnings := [];
                      ImageValidation.subjectCount := 0;
                      ImageValidation.missingCourses := [] |} |}.
Proof.
  apply (failed_image_does_not_abort samplePreprocess sampleRecognizer
           [pngFile "bad.png"; pngFile "page2.png"] 0 (pngFile "bad.png")
           "Could not parse AI response as JSON"); reflexivity.
Defined.

Lemma input_errors_rejected_before_engine_witness :
  (scanCurriculum samplePreprocess sampleRecognizer
     {| imageParts := Some [pngFile "page1.png"]; GROQ_API_KEY := None |}).2 = [].
Proof.
  apply (input_errors_rejected_before_engine samplePreprocess sampleRecognizer
           {| imageParts := Some [pngFile "page1.png"]; GROQ_API_KEY := None |}).
  right. right. left. reflexivity.
Defined.

(** A request with a file and no key is an input error, and it is answered
    with status 500, which is not a client error. *)
Lemma missing_key_not_client_error_counterexample :
  ¬ (inputError {| imageParts := Some [pngFile "page1.png"]; GROQ_API_KEY := None |} →
     (scanCurriculum samplePreprocess sampleRecognizer
        {| imageParts := Some [pngFile "page1.png"]; GROQ_API_KEY := None |}).2 = []
     ∧ clientError
         (scanCurriculum samplePreprocess sampleRecognizer
            {| imageParts := Some [pngFile "page1.png"]; GROQ_API_KEY := None |}).1).
Proof.
  intros H. destruct H as [_ (status & body & Heq & Hstatus)].
  - right. right. left. reflexivity.
  - vm_compute in Heq. injection Heq as <- _. lia.
Qed.

(** * Further properties of the pipeline *)

(** ** Keys *)

Lemma upperChar_idemp c : upperChar (upperChar c) = upperChar c.
Proof. by destruct c as [[] [] [] [] [] [] [] []]. Qed.

Lemma upperChar_lowerChar c :
  nat_of_ascii c < 128 → upperChar (lowerChar c) = upperChar c.
Proof. destruct c as [[] [] [] [] [] [] [] []]; vm_compute; (reflexivity || lia). Qed.

Lemma lowerChar_upperChar c :
  nat_of_ascii c < 128 → lowerChar (upperChar c) = lowerChar c.
Proof. destruct c as [[] [] [] [] [] [] [] []]; vm_compute; (reflexivity || lia). Qed.

Lemma removeWhiteSpace_mapChars f s :
  (∀ c, isWhiteSpace (f c) = isWhiteSpace c) →
  removeWhiteSpace (mapChars f s) = mapChars f (removeWhiteSpace s).
Proof.
  intros Hf. induction s as [|c r IH]; [done|]. cbn. rewrite Hf.
  destruct (isWhiteSpace c); [done|]. cbn. by rewrite IH.
Qed.

Lemma removeWhiteSpace_idemp s :
  removeWhiteSpace (removeWhiteSpace s) = removeWhiteSpace s.
Proof.
  induction s as [|c r IH]; [done|]. cbn.
  destruct (isWhiteSpace c) eqn:E; [done|]. cbn. by rewrite E, IH.
Qed.

Lemma mapChars_mapChars f g s : mapChars f (mapChars g s) = mapChars (f ∘ g) s.
Proof. induction s as [|c r IH]; [done|]. cbn. by rewrite IH. Qed.

Lemma mapChars_ext_ascii f g s :
  (∀ c, nat_of_ascii c < 128 → f c = g c) → isAscii s →
  mapChars f s = mapChars g s.
Proof.
  intros Hfg. unfold isAscii. induction s as [|c r IH]; [done|]. cbn.
  intros [Hc Hr]%Forall_cons. by rewrite Hfg, IH.
Qed.

Lemma isAscii_removeWhiteSpace s : isAscii s → isAscii (removeWhiteSpace s).
Proof.
  unfold isAscii. induction s as [|c r IH]; [done|]. cbn.
  intros [Hc Hr]%Forall_cons. destruct (isWhiteSpace c); [by apply IH|].
  cbn. constructor; [done|by apply IH].
Qed.

Lemma string_app_cons c r b : String c r +:+ b = String c (r +:+ b).
Proof. reflexivity. Qed.

Lemma string_app_nil b : "" +:+ b = b.
Proof. reflexivity. Qed.

Lemma removeWhiteSpace_app a b :
  removeWhiteSpace (a +:+ b) = removeWhiteSpace a +:+ removeWhiteSpace b.
Proof.
  induction a as [|c r IH]; [done|].
  rewrite string_app_cons. cbn [removeWhiteSpace].
  destruct (isWhiteSpace c); [done|]. by rewrite string_app_cons, IH.
Qed.

Lemma mapChars_app f a b : mapChars f (a +:+ b) = mapChars f a +:+ mapChars f b.
Proof.
  induction a as [|c r IH]; [done|].
  rewrite string_app_cons. cbn [mapChars]. by rewrite string_app_cons, IH.
Qed.

(** X1: on ASCII codes the key normalisation is idempotent, and a white
    space character put anywhere in an ASCII code does not change its
    normalised key. *)
Theorem normalized_idempotent_whitespace_blind :
  (∀ code, isAscii code → normalized (normalized code) = normalized code)
  ∧ (∀ a c b, isAscii a → isAscii b → isWhiteSpace c = true →
       normalized (a +:+ String c b) = normalized (a +:+ b)).
Proof.
  split.
  - intros code _. unfold normalized, toUpperCase.
    rewrite (removeWhiteSpace_mapChars upperChar (removeWhiteSpace _))
      by apply isWhiteSpace_upperChar.
    rewrite removeWhiteSpace_idemp.
    rewrite <- (removeWhiteSpace_mapChars upperChar) by apply isWhiteSpace_upperChar.
    rewrite mapChars_mapChars. f_equal.
    induction code as [|c r IH]; [done|]. cbn. by rewrite upperChar_idemp, IH.
  - intros a c b _ _ Hc. unfold normalized, toUpperCase.
    rewrite !mapChars_app, !removeWhiteSpace_app. cbn [mapChars removeWhiteSpace].
    by rewrite isWhiteSpace_upperChar, Hc.
Qed.

Lemma normalized_idempotent_whitespace_blind_witness :
  normalized ("CS" +:+ String " " "101") = normalized ("CS" +:+ "101").
Proof.
  apply (proj2 normalized_idempotent_whitespace_blind "CS" " "%char "101").
  - unfold isAscii. cbn. repeat constructor; cbn; lia.
  - unfold isAscii. cbn. repeat constructor; cbn; lia.
  - reflexivity.
Defined.

(** X2: on ASCII codes the key of the deduplication (lower case) and the
    key of the hydration (upper case) tell the same codes apart: two codes
    have the same deduplication key exactly when they have the same
    normalised key. *)
Theorem dedupKey_eq_iff_normalized_eq (a b : Subject) :
  isAscii (subjectCode a) → isAscii (subjectCode b) →
  dedupKey a = dedupKey b
  ↔ normalized (subjectCode a) = normalized (subjectCode b).
Proof.
  intros Ha Hb. unfold dedupKey, normalized, toLowerCase, toUpperCase.
  rewrite !(removeWhiteSpace_mapChars lowerChar) by apply isWhiteSpace_lowerChar.
  rewrite !(removeWhiteSpace_mapChars upperChar) by apply isWhiteSpace_upperChar.
  apply isAscii_removeWhiteSpace in Ha, Hb.
  set (x := removeWhiteSpace (subjectCode a)) in *.
  set (y := removeWhiteSpace (subjectCode b)) in *.
  split; intros H.
  - apply (f_equal (mapChars upperChar)) in H. rewrite !mapChars_mapChars in H.
    rewrite (mapChars_ext_ascii (upperChar ∘ lowerChar) upperChar x) in H
      by (done || apply upperChar_lowerChar).
    by rewrite (mapChars_ext_ascii (upperChar ∘ lowerChar) upperChar y) in H
      by (done || apply upperChar_lowerChar).
  - apply (f_equal (mapChars lowerChar)) in H. rewrite !mapChars_mapChars in H.
    rewrite (mapChars_ext_ascii (lowerChar ∘ upperChar) lowerChar x) in H
      by (done || apply lowerChar_upperChar).
    by rewrite (mapChars_ext_ascii (lowerChar ∘ upperChar) lowerChar y) in H
      by (done || apply lowerChar_upperChar).
Qed.

Lemma dedupKey_eq_iff_normalized_eq_witness :
  dedupKey (referenceSubject ("cs 101", {| Ref.name := ""; Ref.lecUnits := 0;
              Ref.labUnits := 0; Ref.units := 0; Ref.yearLevel := "";
              Ref.semester := "" |}))
  = dedupKey (referenceSubject ("CS101", {| Ref.name := "x"; Ref.lecUnits := 0;
              Ref.labUnits := 0; Ref.units := 0; Ref.yearLevel := "";
              Ref.semester := "" |})).
Proof.
  apply dedupKey_eq_iff_normalized_eq.
  - unfold isAscii. cbn. repeat constructor; cbn; lia.
  - unfold isAscii. cbn. repeat constructor; cbn; lia.
  - reflexivity.
Defined.

(** ** Hydration and deduplication, again *)

Lemma hydrateSubject_idemp subject :
  hydrateSubject (hydrateSubject subject) = hydrateSubject subject.
Proof.
  unfold hydrateSubject at 2 3. rewrite normalized_trim.
  destruct (refLookup !! normalized (subjectCode subject))
    as [[refKey reference]|] eqn:E.
  - apply refLookup_Some in E as [Hin Hk].
    apply (hydrateSubject_match _ refKey reference); [assumption|reflexivity].
  - unfold hydrateSubject. rewrite normalized_trim, E. reflexivity.
Qed.

(** X3: hydrating twice is hydrating once; and every hydrated subject
    either is an entry of the reference, all its fields being those of the
    entry under its code, or has a code whose normalised key is that of no
    reference key. *)
Theorem hydrateSubjectsFromReference_idempotent subjects :
  hydrateSubjectsFromReference (hydrateSubjectsFromReference subjects)
  = hydrateSubjectsFromReference subjects
  ∧ ∀ s, s ∈ hydrateSubjectsFromReference subjects →
      (∃ reference, (subjectCode s, reference) ∈ CURRICULUM_REFERENCE
                    ∧ s = referenceSubject (subjectCode s, reference))
      ∨ (∀ refKey, refKey ∈ Object_keys CURRICULUM_REFERENCE →
           normalized (subjectCode s) ≠ normalized refKey).
Proof.
  unfold hydrateSubjectsFromReference. split.
  - rewrite <- list_fmap_compose. apply list_fmap_ext.
    intros i s _. apply hydrateSubject_idemp.
  - intros s (raw & -> & _)%list_elem_of_fmap.
    unfold hydrateSubject. rewrite normalized_trim.
    destruct (refLookup !! normalized (subjectCode raw))
      as [[refKey reference]|] eqn:E.
    + left. apply refLookup_Some in E as [Hin _]. exists reference. by split.
    + right. intros refKey Hin Hk.
      apply (proj1 (refLookup_None _)) with (refKey := refKey) in E;
        [|assumption]. apply E. symmetry. exact Hk.
Qed.

Lemma hydrateSubjectsFromReference_idempotent_witness :
  (∃ reference,
     (subjectCode (referenceSubject ("CS 101",
         {| Ref.name := "Introduction to Computing"; Ref.lecUnits := 3;
            Ref.labUnits := 0; Ref.units := 3; Ref.yearLevel := "1st Year";
            Ref.semester := "1st Semester" |})), reference) ∈ CURRICULUM_REFERENCE
     ∧ referenceSubject ("CS 101",
         {| Ref.name := "Introduction to Computing"; Ref.lecUnits := 3;
            Ref.labUnits := 0; Ref.units := 3; Ref.yearLevel := "1st Year";
            Ref.semester := "1st Semester" |})
       = referenceSubject
           (subjectCode (referenceSubject ("CS 101",
              {| Ref.name := "Introduction to Computing"; Ref.lecUnits := 3;
                 Ref.labUnits := 0; Ref.units := 3; Ref.yearLevel := "1st Year";
                 Ref.semester := "1st Semester" |})), reference))
  ∨ (∀ refKey, refKey ∈ Object_keys CURRICULUM_REFERENCE →
       normalized (subjectCode (referenceSubject ("CS 101",
         {| Ref.name := "Introduction to Computing"; Ref.lecUnits := 3;
            Ref.labUnits := 0; Ref.units := 3; Ref.yearLevel := "1st Year";
            Ref.semester := "1st Semester" |}))) ≠ normalized refKey).
Proof.
  apply (proj2 (hydrateSubjectsFromReference_idempotent
                  [{| subjectCode := "cs101"; subjectName := ""; lecUnits := 0;
                      labUnits := 0; units := 0; yearLevel := "Unknown";
                      semester := "Unknown" |}])).
  vm_compute. left.
Defined.


Lemma filterUnseen_fixed xs : ∀ seen,
  NoDup (dedupKey <$> xs) → (∀ s, s ∈ xs → dedupKey s ∉ seen) →
  filterUnseen seen xs = xs.
Proof.
  induction xs as [|x xs IH]; intros seen Hnd Hseen; [done|].
  rewrite fmap_cons in Hnd. apply NoDup_cons in Hnd as [Hx Hnd].
  cbn. rewrite decide_False by (apply Hseen; left). f_equal.
  apply IH; [done|]. intros s Hs.
  rewrite elem_of_union, elem_of_singleton. intros [Heq|Hin].
  - apply Hx. rewrite <- Heq. apply list_elem_of_fmap. by exists s.
  - apply (Hseen s); [by right|done].
Qed.

(** X4: after the deduplication no two subjects have the same code (nor
    the same key); deduplicating again changes nothing; and a list is left
    as it is exactly when no two of its subjects have the same key, the
    code in lower case without white space. *)
Theorem uniqueSubjects_distinct_idempotent allSubjects :
  NoDup (subjectCode <$> uniqueSubjects allSubjects)
  ∧ uniqueSubjects (uniqueSubjects allSubjects) = uniqueSubjects allSubjects
  ∧ (uniqueSubjects allSubjects = allSubjects ↔ NoDup (dedupKey <$> allSubjects)).
Proof.
  assert (Hfix : ∀ xs, NoDup (dedupKey <$> xs) → uniqueSubjects xs = xs).
  { intros xs Hnd. apply filterUnseen_fixed; [done|].
    intros s _. apply not_elem_of_empty. }
  split; [|split].
  - pose proof (filterUnseen_NoDup allSubjects ∅) as Hnd.
    fold (uniqueSubjects allSubjects) in Hnd.
    change (dedupKey <$> uniqueSubjects allSubjects)
      with ((λ s, removeWhiteSpace (toLowerCase (subjectCode s)))
              <$> uniqueSubjects allSubjects) in Hnd.
    rewrite (list_fmap_compose subjectCode (λ c, removeWhiteSpace (toLowerCase c)))
      in Hnd.
    by apply NoDup_fmap_1 in Hnd.
  - apply Hfix, filterUnseen_NoDup.
  - split; [|apply Hfix]. intros <-. apply filterUnseen_NoDup.
Qed.

(** ** When an image is good *)

Lemma yearBelow_count subjects year k :
  0 < k →
  yearBelow (countByYear subjects) year k = (countOfYear year subjects <? k).
Proof.
  intros Hk. unfold yearBelow, countOfYear. rewrite countByYear_lookup. cbn zeta.
  destruct (length (filter (λ s, yearLevel s = year) subjects)) as [|c]; cbn.
  - by destruct k; [lia|].
  - reflexivity.
Qed.

Lemma isGood_final subjects imageNumber :
  ImageValidation.isGood (validateExtractionQuality subjects imageNumber)
  = (length (ImageValidation.issues
               (validateExtractionQuality subjects imageNumber)) =? 0).
Proof. reflexivity. Qed.

(** X5: the validation of image 1.  Its issues are, in this order, the
    issue of the count when there are fewer than 27 subjects, that of the 1st
    year when fewer than 12 subjects are of the 1st year, that of the 2nd
    year when fewer than 13 are of the 2nd year; so the image is good exactly
    when it has at least 27 subjects, 12 of the 1st year and 13 of the 2nd.
    More than 31 subjects give a warning, and nothing else does. *)
Theorem validateExtractionQuality_image1 subjects :
  let v := validateExtractionQuality subjects 1 in
  let n := length subjects in
  ImageValidation.issues v
  = ((if n <? 27
      then ["Only " +:+ pretty n +:+ " subjects found (expected 27-31 for 1st & 2nd Year)"]
      else [])
     ++ (if countOfYear "1st Year" subjects <? 12
         then ["1st Year incomplete or missing"] else [])
     ++ (if countOfYear "2nd Year" subjects <? 13
         then ["2nd Year incomplete or missing"] else []))%list
  ∧ (ImageValidation.isGood v = true
     ↔ 27 ≤ n ∧ 12 ≤ countOfYear "1st Year" subjects
       ∧ 13 ≤ countOfYear "2nd Year" subjects)
  ∧ ImageValidation.warnings v
    = (if 31 <? n
       then ["Found " +:+ pretty n +:+ " subjects (expected 27-31). May have duplicates."]
       else [])
  ∧ ImageValidation.missingCourses v = []
  ∧ ImageValidation.subjectCount v = n.
Proof.
  cbn zeta. unfold validateExtractionQuality, tentativeValidation, checkExpectedCount,
    checkImage1.
  change (expectedCounts 1) with
    (Some {| Expected.min := 27; Expected.max := 31;
             Expected.description := "1st & 2nd Year" |}).
  change (1 =? 1)%Z with true. change (1 =? 2)%Z with false. cbv beta iota.
  rewrite !yearBelow_count by lia.
  cbn [Expected.min Expected.max Expected.description].
  destruct (Nat.ltb_spec (length subjects) 27) as [Hn|Hn];
    destruct (Nat.ltb_spec 31 (length subjects)) as [Hm|Hm]; try lia;
    destruct (Nat.ltb_spec (countOfYear "1st Year" subjects) 12) as [H1|H1];
    destruct (Nat.ltb_spec (countOfYear "2nd Year" subjects) 13) as [H2|H2];
    cbn; (split; [reflexivity|]); (split; [|done]);
    (split; [intros ?; (discriminate || lia) | intros ?; (reflexivity || lia)]).
Qed.

(** A hydrated subject with the code CS 122 is the Practicum of the
    reference, in the Summer semester. *)
Lemma hydrated_CS122_summer raw s :
  s ∈ hydrateSubjectsFromReference raw → subjectCode s = "CS 122" →
  semester s = "Summer".
Proof.
  unfold hydrateSubjectsFromReference.
  intros (r & -> & _)%list_elem_of_fmap. unfold hydrateSubject.
  rewrite normalized_trim.
  assert (Hcs : refLookup !! normalized "CS 122"
                = Some ("CS 122",
                        {| Ref.name := "Practicum (240 hours)"; Ref.lecUnits := 3;
                           Ref.labUnits := 0; Ref.units := 3;
                           Ref.yearLevel := "3rd Year"; Ref.semester := "Summer" |}))
    by (vm_compute; reflexivity).
  destruct (refLookup !! normalized (subjectCode r))
    as [[refKey reference]|] eqn:E; cbn [subjectCode semester]; intros Hcode.
  - subst refKey. apply refLookup_Some in E as [Hin _].
    assert (refLookup !! normalized "CS 122" = Some ("CS 122", reference)) as E'
      by (apply refLookup_Some; split; [assumption|reflexivity]).
    rewrite Hcs in E'. by injection E' as <-.
  - rewrite Hcode, Hcs in E. discriminate E.
Qed.

Lemma findWithCode_Some code subjects s :
  findWithCode code subjects = Some s → s ∈ subjects ∧ subjectCode s = code.
Proof.
  unfold findWithCode. intros [Hin Hs]%find_some.
  split; [by apply list_elem_of_In|by apply bool_decide_eq_true in Hs].
Qed.

Lemma someWithCode_find code subjects :
  someWithCode code subjects = true → is_Some (findWithCode code subjects).
Proof.
  unfold someWithCode, findWithCode.
  induction subjects as [|s l IH]; cbn; [done|].
  destruct (bool_decide (subjectCode s = code)); [by eexists|]. apply IH.
Qed.

(** The validation of image 2, for any subjects: issues, missing courses
    and warnings. *)
Lemma validateExtractionQuality_image2_fields subjects :
  let v := validateExtractionQuality subjects 2 in
  let n := length subjects in
  ImageValidation.issues v
  = ((if n <? 23
      then ["Only " +:+ pretty n
            +:+ " subjects found (expected 23-27 for 3rd Year + Summer + 4th Year)"]
      else [])
     ++ (if countOfYear "3rd Year" subjects <? 11
         then ["3rd Year incomplete or missing"] else [])
     ++ (if countOfYear "4th Year" subjects <? 9
         then ["4th Year incomplete or missing"] else [])
     ++ (if someWithCode "CS 122" subjects then []
         else ["Summer semester missing (CS 122 - Practicum)"]))%list
  ∧ ImageValidation.missingCourses v
    = (if someWithCode "CS 122" subjects then [] else ["CS 122"])
  ∧ ImageValidation.warnings v
    = ((if 27 <? n
        then ["Found " +:+ pretty n
              +:+ " subjects (expected 23-27). May have duplicates."]
        else [])
       ++ match findWithCode "CS 122" subjects with
          | Some cs122 =>
              if bool_decide (semester cs122 ≠ "Summer")
              then ["CS 122 in wrong semester (" +:+ semester cs122
                    +:+ "), should be Summer"]
              else []
          | None => []
          end)%list.
Proof.
  cbn zeta. unfold validateExtractionQuality, tentativeValidation, checkExpectedCount,
    checkImage2.
  change (expectedCounts 2) with
    (Some {| Expected.min := 23; Expected.max := 27;
             Expected.description := "3rd Year + Summer + 4th Year" |}).
  change (2 =? 1)%Z with false. change (2 =? 2)%Z with true. cbv beta iota.
  rewrite !yearBelow_count by lia.
  cbn [Expected.min Expected.max Expected.description].
  destruct (someWithCode "CS 122" subjects) eqn:Hsome.
  - destruct (someWithCode_find _ _ Hsome) as [cs122 ->]. cbn [negb].
    destruct (Nat.ltb_spec (length subjects) 23) as [Hn|Hn];
      destruct (Nat.ltb_spec 27 (length subjects)) as [Hm|Hm]; try lia;
      destruct (countOfYear "3rd Year" subjects <? 11);
      destruct (countOfYear "4th Year" subjects <? 9);
      destruct (bool_decide (semester cs122 ≠ "Summer")); cbn; done.
  - assert (findWithCode "CS 122" subjects = None) as ->.
    { destruct (findWithCode "CS 122" subjects) as [s|] eqn:E; [|done].
      apply findWithCode_Some in E as [Hin Hs].
      assert (someWithCode "CS 122" subjects = true) as Ht
        by (apply someWithCode_true; by exists s).
      congruence. }
    cbn [negb].
    destruct (Nat.ltb_spec (length subjects) 23) as [Hn|Hn];
      destruct (Nat.ltb_spec 27 (length subjects)) as [Hm|Hm]; try lia;
      destruct (countOfYear "3rd Year" subjects <? 11);
      destruct (countOfYear "4th Year" subjects <? 9); cbn; done.
Qed.

(** X6: the validation of image 2 is good exactly when the image has at
    least 23 subjects, 11 of the 3rd year, 9 of the 4th year, and a subject
    with the code CS 122, spelled so; the missing courses of the validation
    are CS 122 when there is no such subject and nothing otherwise. *)
Theorem validateExtractionQuality_image2 subjects :
  let v := validateExtractionQuality subjects 2 in
  (ImageValidation.isGood v = true
   ↔ 23 ≤ length subjects
     ∧ 11 ≤ countOfYear "3rd Year" subjects
     ∧ 9 ≤ countOfYear "4th Year" subjects
     ∧ ∃ s, s ∈ subjects ∧ subjectCode s = "CS 122")
  ∧ ImageValidation.missingCourses v
    = (if someWithCode "CS 122" subjects then [] else ["CS 122"])
  ∧ (someWithCode "CS 122" subjects = false
     ↔ "Summer semester missing (CS 122 - Practicum)" ∈ ImageValidation.issues v).
Proof.
  cbn zeta.
  destruct (validateExtractionQuality_image2_fields subjects) as (Hi & Hm & _).
  cbn zeta in Hi, Hm. split; [|split; [done|]].
  - rewrite isGood_final, Hi, <- someWithCode_true.
    destruct (Nat.ltb_spec (length subjects) 23) as [Hn|Hn];
      destruct (Nat.ltb_spec (countOfYear "3rd Year" subjects) 11) as [H3|H3];
      destruct (Nat.ltb_spec (countOfYear "4th Year" subjects) 9) as [H4|H4];
      destruct (someWithCode "CS 122" subjects); cbn;
      (split; [intros ?; (discriminate || (repeat split; (lia || done)))
              | intros (? & ? & ? & ?); (reflexivity || lia || discriminate)]).
  - rewrite Hi.
    destruct (length subjects <? 23);
      destruct (countOfYear "3rd Year" subjects <? 11);
      destruct (countOfYear "4th Year" subjects <? 9);
      destruct (someWithCode "CS 122" subjects); cbn;
      (split; [intros ?; (discriminate || (repeat (try (by left); right)))
              | intros H; try reflexivity; exfalso;
                repeat (apply elem_of_cons in H as [H|H];
                        [vm_compute in H; discriminate H|]);
                by apply not_elem_of_nil in H]).
Qed.

(** X7: in the handler the subjects are hydrated before they are
    validated, and a hydrated CS 122 is in the Summer semester: the warning
    that CS 122 is in the wrong semester is never given there; the only
    warning of image 2 is that of more than 27 subjects. *)
Theorem validateExtractionQuality_hydrated_no_semester_warning raw :
  let hydrated := hydrateSubjectsFromReference raw in
  ImageValidation.warnings (validateExtractionQuality hydrated 2)
  = (if 27 <? length raw
     then ["Found " +:+ pretty (length raw)
           +:+ " subjects (expected 23-27). May have duplicates."]
     else []).
Proof.
  cbn zeta.
  destruct (validateExtractionQuality_image2_fields
              (hydrateSubjectsFromReference raw)) as (_ & _ & ->).
  assert (length (hydrateSubjectsFromReference raw) = length raw) as ->
    by apply length_fmap.
  destruct (findWithCode "CS 122" (hydrateSubjectsFromReference raw))
    as [cs122|] eqn:E; [|by rewrite app_nil_r].
  apply findWithCode_Some in E as [Hin Hcode].
  rewrite (hydrated_CS122_summer raw cs122 Hin Hcode).
  rewrite bool_decide_false by (intros H; by apply H). by rewrite app_nil_r.
Qed.

(** ** The overall validation, as a report *)

Lemma validateOverallExtraction_totalCount allSubjects imageResults :
  OverallValidation.totalCount (validateOverallExtraction allSubjects imageResults)
  = length allSubjects.
Proof.
  assert (Hfold : ∀ years v,
            OverallValidation.totalCount (foldl yearStep v years)
            = OverallValidation.totalCount v).
  { induction years as [|y years IH]; intros v; [done|]. cbn [foldl].
    rewrite IH. unfold yearStep. by destruct (yearMissing _ _). }
  assert (Hyears : ∀ v, OverallValidation.totalCount (checkYears imageResults v)
                        = OverallValidation.totalCount v).
  { intros v. unfold checkYears. fold yearStep.
    destruct (length imageResults =? 2); [apply Hfold|done]. }
  assert (Hsummer : ∀ v, OverallValidation.totalCount
                           (checkSummer allSubjects imageResults v)
                         = OverallValidation.totalCount v).
  { intros v. unfold checkSummer. by destruct (_ && _). }
  assert (Htotal : ∀ v, OverallValidation.totalCount
                          (checkTotalCount allSubjects imageResults v)
                        = OverallValidation.totalCount v).
  { intros v. unfold checkTotalCount.
    repeat match goal with
           | |- context [if ?b then _ else _] => destruct b
           end; reflexivity. }
  unfold validateOverallExtraction, overallBeforeMissing.
  cbn [OverallValidation.totalCount OverallValidation.setMissingCourses].
  by rewrite Hsummer, Hyears, Htotal.
Qed.

(** X8: the overall validation is a consistent report.  The quality is one
    of the four tiers; excellent and good come with success, poor comes
    without; a validation without success has at least one issue, the first
    of which gives the number of subjects out of 54; there is at most one
    warning; and the total count is the number of subjects. *)
Theorem validateOverallExtraction_report allSubjects imageResults :
  let v := validateOverallExtraction allSubjects imageResults in
  OverallValidation.quality v ∈ ["excellent"; "good"; "moderate"; "poor"]
  ∧ (OverallValidation.quality v = "excellent" ∨ OverallValidation.quality v = "good" →
     OverallValidation.success v = true)
  ∧ (OverallValidation.quality v = "poor" → OverallValidation.success v = false)
  ∧ (OverallValidation.success v = false →
     ∃ rest,
       OverallValidation.issues v
       = (if 45 <=? length allSubjects
          then "Only " +:+ pretty (length allSubjects) +:+ "/54 subjects extracted"
          else "Very poor extraction: only " +:+ pretty (length allSubjects)
               +:+ "/54 subjects") :: rest)
  ∧ length (OverallValidation.warnings v) ≤ 1
  ∧ OverallValidation.totalCount v = length allSubjects.
Proof.
  cbn zeta.
  rewrite validateOverallExtraction_totalCount.
  destruct (validateOverallExtraction_fields allSubjects imageResults)
    as (-> & -> & -> & _ & ->).
  unfold checkTotalCount.
  destruct (54 <=? length allSubjects) eqn:E54;
    [|destruct (50 <=? length allSubjects) eqn:E50;
      [|destruct (45 <=? length allSubjects) eqn:E45]];
    repeat match goal with
           | |- context [if ?b then _ else _] => destruct b
           end;
    cbn; repeat split;
    try (intros [?|?]; discriminate); try (intros ?; discriminate);
    try lia; try (intros _; eexists; reflexivity);
    repeat (try (by left); right).
Qed.

Lemma validateOverallExtraction_report_witness :
  OverallValidation.success
    (validateOverallExtraction (firstSubjects 51) [resultWith 1 true]) = true.
Proof.
  apply (validateOverallExtraction_report (firstSubjects 51) [resultWith 1 true]).
  right. vm_compute. reflexivity.
Defined.


(** X9: success does not mean that there is no issue.  With two images
    and 54 subjects or more, none of which has the code CS 122, the
    validation succeeds with the quality excellent, and yet it has the issue
    that the Summer semester is missing, and CS 122 is among the missing
    courses. *)
Theorem validateOverallExtraction_success_with_issue allSubjects imageResults :
  54 ≤ length allSubjects → length imageResults = 2 →
  (∀ s, s ∈ allSubjects → subjectCode s ≠ "CS 122") →
  let v := validateOverallExtraction allSubjects imageResults in
  OverallValidation.success v = true
  ∧ OverallValidation.quality v = "excellent"
  ∧ "Summer semester missing (CS 122)" ∈ OverallValidation.issues v
  ∧ "CS 122" ∈ OverallValidation.missingCourses v.
Proof.
  intros Hn Hlen Hno. cbn zeta.
  assert (Hsome : someWithCode "CS 122" allSubjects = false).
  { apply not_true_is_false. intros (s & Hin & Hs)%someWithCode_true.
    by apply (Hno s). }
  rewrite missingCourses_exact.
  destruct (validateOverallExtraction_fields allSubjects imageResults)
    as (-> & -> & _ & _ & ->).
  unfold checkTotalCount, lateIssues.
  rewrite (proj2 (Nat.leb_le 54 _)) by lia. rewrite Hlen, Hsome.
  change (2 =? 2) with true. cbn [negb andb].
  split; [reflexivity|]. split; [reflexivity|]. split.
  - rewrite !elem_of_app. right. right. by left.
  - apply list_elem_of_filter. split.
    + intros (s & Hs & Hin)%list_elem_of_fmap. by apply (Hno s).
    + vm_compute. do 42 right. left.
Qed.

Lemma validateOverallExtraction_success_with_issue_witness :
  let v := validateOverallExtraction
             (firstSubjects 42 ++ firstSubjects 12)%list
             [resultWith 1 true; resultWith 2 true] in
  OverallValidation.success v = true
  ∧ OverallValidation.quality v = "excellent"
  ∧ "Summer semester missing (CS 122)" ∈ OverallValidation.issues v
  ∧ "CS 122" ∈ OverallValidation.missingCourses v.
Proof.
  apply (validateOverallExtraction_success_with_issue
           (firstSubjects 42 ++ firstSubjects 12)%list
           [resultWith 1 true; resultWith 2 true]).
  - vm_compute. lia.
  - reflexivity.
  - intros s Hs Hcode.
    assert (someWithCode "CS 122" (firstSubjects 42 ++ firstSubjects 12)%list = true)
      as H by (apply someWithCode_true; by exists s).
    vm_compute in H. discriminate H.
Defined.

(** ** Missing courses and counts *)

Lemma filter_mutual_length {A} `{EqDecision A} (l1 l2 : list A) :
  NoDup l1 → NoDup l2 →
  length (filter (λ x, x ∈ l2) l1) = length (filter (λ x, x ∈ l1) l2).
Proof.
  intros H1 H2. apply Permutation_length, NoDup_Permutation.
  - by apply NoDup_filter.
  - by apply NoDup_filter.
  - intros x. rewrite !list_elem_of_filter. tauto.
Qed.

Lemma reference_keys_NoDup : NoDup (Object_keys CURRICULUM_REFERENCE).
Proof.
  apply (NoDup_fmap_1 normalized). unfold Object_keys.
  rewrite <- list_fmap_compose. apply normalized_keys_NoDup.
Qed.

(** X10: the missing courses and the subjects found add up.  For subjects
    that have no code twice, the number of missing courses plus the number of
    subjects whose code is a key of the reference is 54; so after the
    deduplication the missing courses are at least as many as the subjects
    short of 54, and there are none missing only if there are 54 subjects or
    more. *)
Theorem missingCourses_count :
  (∀ allSubjects imageResults,
     NoDup (subjectCode <$> allSubjects) →
     length (OverallValidation.missingCourses
               (validateOverallExtraction allSubjects imageResults))
     + length (filter inReference allSubjects) = 54)
  ∧ (∀ allSubjects imageResults,
       let unique := uniqueSubjects allSubjects in
       let v := validateOverallExtraction unique imageResults in
       54 - OverallValidation.totalCount v
       ≤ length (OverallValidation.missingCourses v)
       ∧ (OverallValidation.missingCourses v = [] → 54 ≤ length unique)).
Proof.
  assert (Hcount : ∀ allSubjects imageResults,
            NoDup (subjectCode <$> allSubjects) →
            length (OverallValidation.missingCourses
                      (validateOverallExtraction allSubjects imageResults))
            + length (filter inReference allSubjects) = 54).
  { intros allSubjects imageResults Hnd. rewrite missingCourses_exact.
    assert (length (filter inReference allSubjects)
            = length (filter (λ c, c ∈ Object_keys CURRICULUM_REFERENCE)
                        (subjectCode <$> allSubjects))) as ->.
    { clear Hnd. unfold inReference.
      induction allSubjects as [|s l IH]; [done|].
      rewrite fmap_cons, !filter_cons.
      destruct (decide (subjectCode s ∈ Object_keys CURRICULUM_REFERENCE));
        [cbn [length]; f_equal|]; apply IH. }
    rewrite (filter_mutual_length _ _ Hnd reference_keys_NoDup).
    pose proof (Permutation_length
                  (filter_app_complement (λ c, c ∈ subjectCode <$> allSubjects)
                     (Object_keys CURRICULUM_REFERENCE))) as Hsplit.
    rewrite length_app in Hsplit.
    change (length (Object_keys CURRICULUM_REFERENCE)) with 54 in Hsplit.
    lia. }
  split; [exact Hcount|].
  intros allSubjects imageResults unique v.
  assert (Hnd : NoDup (subjectCode <$> unique)).
  { pose proof (filterUnseen_NoDup allSubjects ∅) as Hnd.
    fold (uniqueSubjects allSubjects) in Hnd. fold unique in Hnd.
    change (dedupKey <$> unique)
      with ((λ s, removeWhiteSpace (toLowerCase (subjectCode s))) <$> unique) in Hnd.
    rewrite (list_fmap_compose subjectCode (λ c, removeWhiteSpace (toLowerCase c)))
      in Hnd.
    by apply NoDup_fmap_1 in Hnd. }
  pose proof (Hcount unique imageResults Hnd) as H. fold v in H.
  pose proof (length_filter inReference unique) as Hle.
  subst v. rewrite validateOverallExtraction_totalCount.
  clearbody unique. clear Hcount Hnd.
  set (m := length (OverallValidation.missingCourses _)) in *.
  set (k := length (filter inReference unique)) in *.
  split; [lia|].
  intros Hnil. subst m. rewrite Hnil in H. cbn [length] in H. lia.
Qed.

Lemma missingCourses_count_witness :
  length (OverallValidation.missingCourses
            (validateOverallExtraction (firstSubjects 40) [resultWith 1 true]))
  + length (filter inReference (firstSubjects 40)) = 54.
Proof.
  apply (proj1 missingCourses_count (firstSubjects 40) [resultWith 1 true]).
  apply (bool_decide_unpack (NoDup (subjectCode <$> firstSubjects 40))).
  vm_compute. exact I.
Defined.

(** ** The upload *)

(** What the upload does with the parts, by induction on them. *)
Lemma uploadArray_cases parts maxCount :
  (∀ files,
     uploadArray maxCount parts = inr files
     ↔ files = parts ∧ length parts ≤ maxCount
       ∧ Forall (λ f, mimetype f ∈ ["image/jpeg"; "image/png"; "image/webp"]) parts)
  ∧ (uploadArray maxCount parts = inl UnexpectedFile
     ↔ maxCount < length parts
       ∧ Forall (λ f, mimetype f ∈ ["image/jpeg"; "image/png"; "image/webp"])
           (take maxCount parts)).
Proof.
  revert maxCount. induction parts as [|part parts IH]; intros maxCount.
  - cbn [uploadArray length]. split.
    + intros files. split.
      * intros H. injection H as <-. repeat split; [lia|constructor].
      * intros (-> & _). reflexivity.
    + split; [discriminate|]. intros [H _]. lia.
  - destruct maxCount as [|k]; cbn [uploadArray length take].
    { split.
      - intros files. split; [discriminate|]. intros (_ & H & _). lia.
      - split; [intros _; split; [lia|constructor]|reflexivity]. }
    destruct (IH k) as [IHok IHbad]. unfold fileFilter.
    destruct (bool_decide (mimetype part ∈ ["image/jpeg"; "image/png"; "image/webp"]))
      eqn:Hok; cbv beta iota.
    + apply bool_decide_eq_true in Hok.
      destruct (uploadArray k parts) as [err|files'] eqn:E.
      * split.
        -- intros files. split; [discriminate|].
           intros (-> & Hlen & [_ Hall]%Forall_cons).
           assert (Hlen' : length parts ≤ k) by lia.
           pose proof (proj2 (IHok parts) (conj eq_refl (conj Hlen' Hall))) as H.
           discriminate H.
        -- rewrite Forall_cons. split.
           ++ intros H. injection H as ->.
              destruct (proj1 IHbad eq_refl) as [? ?].
              repeat split; [lia|done..].
           ++ intros (Hlen & _ & Hall). apply IHbad. split; [lia|done].
      * destruct (proj1 (IHok files') eq_refl) as (-> & Hlen & Hall). split.
        -- intros files. split.
           ++ intros H. injection H as <-. repeat split; [lia|by constructor].
           ++ intros (-> & _). reflexivity.
        -- split; [discriminate|]. intros [H _]. lia.
    + apply bool_decide_eq_false in Hok. split.
      * intros files. split; [discriminate|].
        intros (_ & _ & [H _]%Forall_cons). done.
      * split; [discriminate|]. intros (_ & [H _]%Forall_cons). done.
Qed.



(** ** The answer of the handler *)

Lemma validateExtractionQuality_subjectCount subjects imageNumber :
  ImageValidation.subjectCount (validateExtractionQuality subjects imageNumber)
  = length subjects.
Proof.
  assert (Hcount : ∀ v, ImageValidation.subjectCount
                          (checkExpectedCount subjects imageNumber v)
                        = ImageValidation.subjectCount v).
  { intros v. unfold checkExpectedCount.
    destruct (expectedCounts imageNumber) as [expected|]; [|done].
    destruct (_ <? _); [done|]. by destruct (_ <? _). }
  assert (H1 : ∀ byYear v, ImageValidation.subjectCount (checkImage1 byYear v)
                           = ImageValidation.subjectCount v).
  { intros byYear v. unfold checkImage1.
    by destruct (yearBelow byYear "1st Year" 12),
      (yearBelow byYear "2nd Year" 13). }
  assert (H2 : ∀ byYear v, ImageValidation.subjectCount
                             (checkImage2 subjects byYear v)
                           = ImageValidation.subjectCount v).
  { intros byYear v. unfold checkImage2.
    destruct (yearBelow byYear "3rd Year" 11), (yearBelow byYear "4th Year" 9),
      (negb (someWithCode "CS 122" subjects)); try done;
      destruct (findWithCode "CS 122" subjects) as [cs122|]; try done;
      by destruct (bool_decide (semester cs122 ≠ "Summer")). }
  unfold validateExtractionQuality, tentativeValidation.
  cbn [ImageValidation.subjectCount ImageValidation.setIsGood].
  destruct (imageNumber =? 1)%Z, (imageNumber =? 2)%Z;
    by rewrite ?H2, ?H1, Hcount.
Qed.

Section HandlerAnswers.

Variable preprocessImage : string → string.
Variable sendToGroq : File → GroqResult.

(** X12: what the loop over the files leaves.  There is one result for
    each file, numbered from 1 and named after its file; a validation, when
    there is one, counts the subjects of its result or is the validation of
    a failure, with the message of the failure as its only issue; a result
    without validation has no subject; the merged subjects are as many as
    the subjects of the results together, and the deduplicated subjects are
    not more. *)
Theorem processImages_results_invariant files :
  let st := processImages preprocessImage sendToGroq 0 files initialState in
  length (imageResults st) = length files
  ∧ (∀ i r, imageResults st !! i = Some r →
       imageNumber r = (Z.of_nat i + 1)%Z
       ∧ (∃ file, files !! i = Some file ∧ originalFile r = originalname file)
       ∧ (∀ v, validation r = Some v →
            ImageValidation.subjectCount v = length (subjects r)
            ∨ ∃ message, v = failedValidation message)
       ∧ (validation r = None → subjects r = []))
  ∧ length (allSubjects st) = sum_list ((λ r, length (subjects r)) <$> imageResults st)
  ∧ length (uniqueSubjects (allSubjects st))
    ≤ sum_list ((λ r, length (subjects r)) <$> imageResults st).
Proof.
  cbn zeta.
  assert (Hsum : length (allSubjects
                           (processImages preprocessImage sendToGroq 0 files
                              initialState))
                 = sum_list ((λ r, length (subjects r))
                               <$> imageResults
                                     (processImages preprocessImage sendToGroq 0 files
                                        initialState))).
  { rewrite processImages_allSubjects, length_concat.
    by rewrite <- list_fmap_compose. }
  split; [by rewrite processImages_results, length_imap|].
  split; [|split; [exact Hsum|]].
  - intros i r. rewrite processImages_results, list_lookup_imap.
    destruct (files !! i) as [file|] eqn:Hfile; [|discriminate].
    cbn. intros H. injection H as <-. unfold processImage.
    destruct (sendToGroq (sentFile preprocessImage file)) as [message|[rows|]];
      cbn; repeat split; try (by eexists); try discriminate.
    + intros v H. injection H as <-. right. by exists message.
    + intros v H. injection H as <-. left.
      apply validateExtractionQuality_subjectCount.
  - rewrite <- Hsum. apply sublist_length, filterUnseen_sublist.
Qed.

(** X13: when the recognizer fails on every image, the handler still
    answers with status 200: without success, with the quality poor, no
    subject, the issue of a very poor extraction with 0 subjects out of 54,
    and all the 54 courses of the reference missing. *)
Theorem all_images_failed_answer files apiKey :
  files ≠ [] → apiKey ≠ "" →
  (∀ file, file ∈ files →
     ∃ message, sendToGroq (sentFile preprocessImage file) = Throws message) →
  ∃ overall results g1 g2,
    (scanCurriculumHandler preprocessImage sendToGroq (Some files) (Some apiKey)).1
    = Responded 200
        (ScanBody false "poor" [] 0 (length files) (length files)
                  overall results g1 g2 (length files))
    ∧ length results = length files
    ∧ head (OverallValidation.issues overall)
      = Some "Very poor extraction: only 0/54 subjects"
    ∧ OverallValidation.missingCourses overall
      = Object_keys CURRICULUM_REFERENCE
    ∧ Forall (λ r, subjects r = []
                   ∧ ∃ message, validation r
                                = Some (failedValidation message)) results.
Proof.
  intros Hfiles Hkey Hthrow.
  set (st := processImages preprocessImage sendToGroq 0 files initialState).
  assert (Hres : Forall (λ r, subjects r = []
                              ∧ ∃ message, validation r
                                           = Some (failedValidation message))
                   (imageResults st)).
  { subst st. rewrite processImages_results. apply Forall_forall.
    intros r Hr. apply list_elem_of_lookup in Hr as [i Hr].
    rewrite list_lookup_imap in Hr.
    destruct (files !! i) as [file|] eqn:Hfile; [|discriminate].
    cbn in Hr. injection Hr as <-.
    destruct (Hthrow file) as [message Hm];
      [by apply list_elem_of_lookup; exists i|].
    unfold processImage. rewrite Hm. cbn. split; [done|by exists message]. }
  assert (Hall : allSubjects st = []).
  { transitivity (concat (subjects <$> imageResults st));
      [apply processImages_allSubjects|].
    revert Hres. generalize (imageResults st). intros l Hl.
    induction Hl as [|r l [Hr _] _ IH]; [done|].
    rewrite fmap_cons. cbn [concat]. by rewrite Hr, IH. }
  assert (Hnotgood : ∀ i, imageGood (imageResults st) i = false).
  { intros i. unfold imageGood.
    destruct (imageResults st !! i) as [r|] eqn:Hr; [|done].
    rewrite Forall_forall in Hres.
    destruct (Hres r) as (_ & message & ->);
      [by apply list_elem_of_lookup; exists i|]. done. }
  exists (validateOverallExtraction [] (imageResults st)), (imageResults st),
    false, false.
  split; [|split; [|split; [|split]]].
  - unfold scanCurriculumHandler. destruct files as [|f fs]; [done|].
    rewrite bool_decide_false by (intros [?|?]; congruence).
    fold st. rewrite Hall, !Hnotgood. cbn [fst].
    change (uniqueSubjects []) with (@nil Subject). f_equal.
    destruct (validateOverallExtraction_fields [] (imageResults st))
      as (Hs & Hq & _).
    rewrite Hs, Hq. unfold checkTotalCount. cbn [length Nat.leb].
    rewrite !Hnotgood, andb_false_r. reflexivity.
  - subst st. by rewrite processImages_results, length_imap.
  - destruct (validateOverallExtraction_fields [] (imageResults st))
      as (_ & _ & _ & _ & ->).
    unfold checkTotalCount. cbn [length Nat.leb].
    rewrite !Hnotgood, andb_false_r. reflexivity.
  - rewrite missingCourses_exact. clear.
    induction (Object_keys CURRICULUM_REFERENCE) as [|k l IH]; [done|].
    rewrite filter_cons, decide_True by apply not_elem_of_nil. by rewrite IH.
  - exact Hres.
Qed.

End HandlerAnswers.

Lemma all_images_failed_answer_witness :
  ∃ overall results g1 g2,
    (scanCurriculumHandler samplePreprocess sampleRecognizer
       (Some [pngFile "bad.png"]) (Some "gsk_key")).1
    = Responded 200
        (ScanBody false "poor" [] 0 1 1 overall results g1 g2 1)
    ∧ length results = 1
    ∧ head (OverallValidation.issues overall)
      = Some "Very poor extraction: only 0/54 subjects"
    ∧ OverallValidation.missingCourses overall
      = Object_keys CURRICULUM_REFERENCE
    ∧ Forall (λ r, subjects r = []
                   ∧ ∃ message, validation r
                                = Some (failedValidation message)) results.
Proof.
  apply (all_images_failed_answer samplePreprocess sampleRecognizer
           [pngFile "bad.png"] "gsk_key").
  - discriminate.
  - discriminate.
  - intros file Hfile. apply list_elem_of_singleton in Hfile as ->.
    eexists. reflexivity.
Defined.

(** ** Rows without a code *)

Lemma pretty_N_go_digits x : ∀ s,
  Forall isDigit (codeUnits s) → Forall isDigit (codeUnits (pretty_N_go x s)).
Proof.
  induction (N.lt_wf_0 x) as [x _ IH]; intros s Hs.
  assert (x = 0 ∨ 0 < x)%N as [->|Hx] by lia.
  - by rewrite pretty_N_go_0.
  - rewrite pretty_N_go_step by done. apply IH; [by apply N.div_lt|].
    cbn [codeUnits]. constructor; [|done].
    unfold pretty_N_char, isDigit. repeat case_match; vm_compute; split; lia.
Qed.

Lemma pretty_nat_digits (n : nat) : Forall isDigit (codeUnits (pretty n)).
Proof.
  unfold pretty, pretty_nat, pretty, pretty_N.
  destruct (decide (N.of_nat n = 0%N)).
  - cbn. constructor; [vm_compute; split; lia|constructor].
  - apply pretty_N_go_digits. constructor.
Qed.

Lemma digit_plain c :
  isDigit c → isWhiteSpace c = false ∧ upperChar c = c ∧ lowerChar c = c.
Proof.
  unfold isDigit.
  destruct c as [[] [] [] [] [] [] [] []]; vm_compute; intros [? ?];
    (lia || (repeat split; reflexivity)).
Qed.

Lemma digits_plain d :
  Forall isDigit (codeUnits d) →
  removeWhiteSpace (toUpperCase d) = d ∧ removeWhiteSpace (toLowerCase d) = d.
Proof.
  unfold toUpperCase, toLowerCase.
  induction d as [|c r IH]; [done|]. cbn [codeUnits].
  intros [Hc Hr]%Forall_cons.
  destruct (digit_plain c Hc) as (Hw & Hu & Hl). destruct (IH Hr) as [IHu IHl].
  cbn [mapChars removeWhiteSpace]. by rewrite Hu, Hl, Hw, IHu, IHl.
Qed.

(** No normalised key of the reference begins with the letter U. *)
Lemma normalized_keys_not_U :
  Forall (λ k, ∀ rest, normalized k ≠ String "U" rest)
         (Object_keys CURRICULUM_REFERENCE).
Proof.
  assert (Hb : forallb (λ k, match normalized k with
                             | String c _ => negb (Ascii.eqb c "U")
                             | EmptyString => true
                             end) (Object_keys CURRICULUM_REFERENCE) = true)
    by (vm_compute; reflexivity).
  apply Forall_forall. intros k Hk rest Heq.
  rewrite forallb_forall in Hb. apply list_elem_of_In, Hb in Hk.
  rewrite Heq in Hk. vm_compute in Hk. discriminate Hk.
Qed.

Lemma placeholder_keys (n : nat) :
  normalized ("UNKNOWN_" +:+ pretty n) = "UNKNOWN_" +:+ pretty n
  ∧ removeWhiteSpace (toLowerCase ("UNKNOWN_" +:+ pretty n)) = "unknown_" +:+ pretty n.
Proof.
  destruct (digits_plain (pretty n) (pretty_nat_digits n)) as [Hu Hl].
  unfold normalized, toUpperCase, toLowerCase in *.
  rewrite !mapChars_app, !removeWhiteSpace_app, Hu, Hl. done.
Qed.

(** X14: a row without code gets the placeholder [UNKNOWN_] followed by
    its position in the answer, counted from 1.  The hydration leaves such a
    subject as it is (no key of the reference matches), and two such
    subjects have the same deduplication key exactly when they are at the
    same position.  So the deduplication keeps all the rows of an image in
    which no row has a code; it drops the row without code of a second
    image that is at the position of a row without code of the first,
    whatever it holds; and it drops a row without code that comes after a
    subject whose code has the key of its placeholder. *)
Theorem placeholder_codes (i j : nat) (r1 r2 : Raw.t) :
  Raw.subjectCode r1 = "" → Raw.subjectCode r2 = "" →
  subjectCode (cleanSubject i r1) = "UNKNOWN_" +:+ pretty (i + 1)
  ∧ hydrateSubject (cleanSubject i r1) = cleanSubject i r1
  ∧ (dedupKey (hydrateSubject (cleanSubject i r1))
     = dedupKey (hydrateSubject (cleanSubject j r2)) ↔ i = j)
  ∧ uniqueSubjects (hydrateSubjectsFromReference [cleanSubject i r1]
                    ++ hydrateSubjectsFromReference [cleanSubject i r2])
    = [cleanSubject i r1]
  ∧ (∀ rows, Forall (λ r, Raw.subjectCode r = "") rows →
       uniqueSubjects (hydrateSubjectsFromReference (imap cleanSubject rows))
       = imap cleanSubject rows)
  ∧ (∀ s, dedupKey s = "unknown_" +:+ pretty (i + 1) →
       uniqueSubjects [s; hydrateSubject (cleanSubject i r1)] = [s]).
Proof.
  intros H1 H2.
  assert (Hcode : ∀ k r, Raw.subjectCode r = "" →
                    subjectCode (cleanSubject k r) = "UNKNOWN_" +:+ pretty (k + 1)).
  { intros k r Hr. cbn [cleanSubject subjectCode]. unfold orElse. by rewrite Hr. }
  assert (Hhyd : ∀ k r, Raw.subjectCode r = "" →
                   hydrateSubject (cleanSubject k r) = cleanSubject k r).
  { intros k r Hr. apply hydrateSubject_no_match. intros refKey Hin.
    rewrite (Hcode k r Hr), (proj1 (placeholder_keys (k + 1))).
    pose proof normalized_keys_not_U as HU. rewrite Forall_forall in HU.
    intros Heq. by apply (HU refKey Hin (String "N" ("KNOWN_" +:+ pretty (k + 1)))). }
  assert (Hkey : ∀ k r, Raw.subjectCode r = "" →
                   dedupKey (cleanSubject k r) = "unknown_" +:+ pretty (k + 1)).
  { intros k r Hr. unfold dedupKey. rewrite (Hcode k r Hr).
    apply placeholder_keys. }
  split; [by apply Hcode|]. split; [by apply Hhyd|].
  split; [|split; [|split]].
  - rewrite (Hhyd i r1 H1), (Hhyd j r2 H2), (Hkey i r1 H1), (Hkey j r2 H2).
    split.
    + intros Heq. apply (inj (String.append "unknown_")) in Heq.
      apply (inj pretty) in Heq. lia.
    + by intros ->.
  - unfold hydrateSubjectsFromReference. cbn [fmap list_fmap app].
    rewrite (Hhyd i r1 H1), (Hhyd i r2 H2). unfold uniqueSubjects.
    cbn [filterUnseen]. cbn zeta.
    rewrite decide_False by apply not_elem_of_empty.
    rewrite decide_True; [done|].
    rewrite (Hkey i r1 H1), (Hkey i r2 H2), elem_of_union, elem_of_singleton.
    by left.
  - intros rows Hrows. rewrite Forall_lookup in Hrows.
    unfold hydrateSubjectsFromReference. rewrite fmap_imap.
    rewrite (imap_ext _ cleanSubject rows)
      by (intros k r Hk; cbn; apply Hhyd; by apply (Hrows k)).
    apply filterUnseen_fixed; [|intros s _; apply not_elem_of_empty].
    rewrite fmap_imap. apply NoDup_alt. intros k1 k2 key.
    rewrite !list_lookup_imap.
    destruct (rows !! k1) as [x1|] eqn:E1; [|discriminate].
    destruct (rows !! k2) as [x2|] eqn:E2; [|discriminate].
    change (Some (dedupKey (cleanSubject k1 x1)) = Some key →
            Some (dedupKey (cleanSubject k2 x2)) = Some key → k1 = k2).
    rewrite (Hkey k1 x1 (Hrows k1 x1 E1)), (Hkey k2 x2 (Hrows k2 x2 E2)).
    intros Hk1 Hk2. rewrite <- Hk1 in Hk2. apply (inj Some) in Hk2.
    apply (inj (String.append "unknown_")) in Hk2.
    apply (inj pretty) in Hk2. lia.
  - intros s Hs. rewrite (Hhyd i r1 H1). unfold uniqueSubjects.
    cbn [filterUnseen]. cbn zeta.
    rewrite decide_False by apply not_elem_of_empty.
    rewrite decide_True; [done|].
    rewrite (Hkey i r1 H1), Hs, elem_of_union, elem_of_singleton.
    by left.
Qed.

Lemma placeholder_codes_witness :
  subjectCode
    (cleanSubject 2 {| Raw.subjectCode := ""; Raw.subjectName := "Ethics";
                       Raw.lecUnits := Some 3%Z; Raw.labUnits := None;
                       Raw.units := Some 3%Z; Raw.yearLevel := "";
                       Raw.semester := "" |})
  = "UNKNOWN_" +:+ pretty (2 + 1).
Proof.
  apply (placeholder_codes 2 2
           {| Raw.subjectCode := ""; Raw.subjectName := "Ethics";
              Raw.lecUnits := Some 3%Z; Raw.labUnits := None;
              Raw.units := Some 3%Z; Raw.yearLevel := "";
              Raw.semester := "" |}
           {| Raw.subjectCode := ""; Raw.subjectName := "";
              Raw.lecUnits := None; Raw.labUnits := None;
              Raw.units := None; Raw.yearLevel := "";
              Raw.semester := "" |}); reflexivity.
Defined.

(** ** The parse of the recognizer's answer *)

Lemma codeUnits_app a b : codeUnits (a +:+ b) = (codeUnits a ++ codeUnits b)%list.
Proof.
  induction a as [|c r IH]; [done|].
  rewrite string_app_cons. cbn [codeUnits app]. by rewrite IH.
Qed.

Lemma freeOf_app c a b : freeOf c (a +:+ b) ↔ freeOf c a ∧ freeOf c b.
Proof. unfold freeOf. by rewrite codeUnits_app, Forall_app. Qed.

Lemma freeOf_cons c a r : freeOf c (String a r) ↔ a ≠ c ∧ freeOf c r.
Proof. unfold freeOf. cbn [codeUnits]. by rewrite Forall_cons. Qed.

Lemma startsWith_app pat x : startsWith pat (pat +:+ x) = true.
Proof.
  induction pat as [|c p IH]; [done|].
  rewrite string_app_cons. cbn [startsWith]. by rewrite bool_decide_true, IH.
Qed.

Lemma dropChars_app pat x : dropChars (String.length pat) (pat +:+ x) = x.
Proof. induction pat as [|c p IH]; [done|]. rewrite string_app_cons. apply IH. Qed.

(** The first occurrence of a pattern after a text without the
    pattern's first character. *)
Lemma splitAtFirst_app c pat pre x :
  freeOf c pre →
  splitAtFirst (String c pat) (pre +:+ String c pat +:+ x) = Some (pre, x).
Proof.
  induction pre as [|a r IH].
  - intros _. rewrite string_app_nil.
    destruct (String c pat +:+ x) as [|b y] eqn:E; [discriminate E|].
    cbn [splitAtFirst]. rewrite <- E.
    by rewrite startsWith_app, dropChars_app.
  - intros [Ha Hr]%freeOf_cons. rewrite string_app_cons.
    cbn [splitAtFirst startsWith].
    rewrite bool_decide_false by (intros ->; done).
    cbn [andb]. by rewrite (IH Hr).
Qed.

Lemma splitAtFirst_None c pat s :
  freeOf c s → splitAtFirst (String c pat) s = None.
Proof.
  induction s as [|a r IH]; [done|].
  intros [Ha Hr]%freeOf_cons. cbn [splitAtFirst startsWith].
  rewrite bool_decide_false by (intros ->; done).
  cbn [andb]. by rewrite (IH Hr).
Qed.

Lemma beforeLast_None c s : freeOf c s → beforeLast c s = None.
Proof.
  induction s as [|a r IH]; [done|].
  intros [Ha Hr]%freeOf_cons. cbn [beforeLast].
  by rewrite (IH Hr), bool_decide_false.
Qed.

Lemma beforeLast_app c inner post :
  freeOf c post → beforeLast c (inner +:+ String c post) = Some inner.
Proof.
  intros Hpost. induction inner as [|a r IH].
  - rewrite string_app_nil. cbn [beforeLast].
    by rewrite (beforeLast_None c post Hpost), bool_decide_true.
  - rewrite string_app_cons. cbn [beforeLast]. by rewrite IH.
Qed.

Lemma trimStart_idemp s : trimStart (trimStart s) = trimStart s.
Proof.
  induction s as [|c r IH]; [done|]. cbn [trimStart].
  destruct (isWhiteSpace c) eqn:E; [done|]. cbn [trimStart]. by rewrite E.
Qed.

Lemma trimStart_app s c x :
  isWhiteSpace c = false →
  trimStart (s +:+ String c x) = trimStart s +:+ String c x.
Proof.
  intros Hc. induction s as [|a r IH].
  - rewrite !string_app_nil. cbn [trimStart]. by rewrite Hc.
  - rewrite string_app_cons. cbn [trimStart].
    destruct (isWhiteSpace a); [done|]. by rewrite string_app_cons.
Qed.

Lemma freeOf_trimStart c s : freeOf c s → freeOf c (trimStart s).
Proof.
  induction s as [|a r IH]; [done|]. cbn [trimStart]. intros H.
  destruct (isWhiteSpace a); [|done]. apply IH. by apply freeOf_cons in H as [_ ?].
Qed.

Lemma startsWith_app_false c p mid x :
  freeOf c p → startsWith p mid = false →
  startsWith p (mid +:+ String c x) = false.
Proof.
  revert mid. induction p as [|a p' IH]; intros mid Hp Hno; [discriminate Hno|].
  apply freeOf_cons in Hp as [Ha Hp]. destruct mid as [|b m'].
  - rewrite string_app_nil. cbn [startsWith]. by rewrite bool_decide_false.
  - rewrite string_app_cons. cbn [startsWith] in *.
    destruct (bool_decide (a = b)); [|done]. cbn [andb] in *. by apply IH.
Qed.

(** The group of a fence whose inside has no backtick. *)
Lemma fencedBlock_fence pre tag mid post :
  freeOf "`" pre → freeOf "`" mid →
  (tag = "json" ∨ (tag = "" ∧ startsWith "json" mid = false)) →
  fencedBlock (pre +:+ "```" +:+ tag +:+ mid +:+ "```" +:+ post)
  = Some (trimStart mid).
Proof.
  intros Hpre Hmid Htag. unfold fencedBlock.
  rewrite (splitAtFirst_app "`" "``" pre _ Hpre).
  assert ((if startsWith "json" (tag +:+ mid +:+ "```" +:+ post)
           then dropChars 4 (tag +:+ mid +:+ "```" +:+ post)
           else tag +:+ mid +:+ "```" +:+ post)
          = mid +:+ "```" +:+ post) as ->.
  { destruct Htag as [->|[-> Hno]].
    - by rewrite startsWith_app, (dropChars_app "json").
    - rewrite string_app_nil.
      change ("```" +:+ post) with (String "`" ("``" +:+ post)).
      rewrite (startsWith_app_false "`" "json" mid _); [done| |done].
      unfold freeOf. cbn. repeat constructor; discriminate. }
  change ("```" +:+ post) with (String "`" ("``" +:+ post)).
  rewrite trimStart_app by reflexivity.
  change (String "`" ("``" +:+ post)) with ("```" +:+ post).
  by rewrite (splitAtFirst_app "`" "``" (trimStart mid) post
                (freeOf_trimStart _ _ Hmid)).
Qed.

Lemma fencedBlock_None text : freeOf "`" text → fencedBlock text = None.
Proof. intros H. unfold fencedBlock. by rewrite (splitAtFirst_None "`" "``" text H). Qed.

Lemma braceBlock_braces pre inner post :
  freeOf "{" pre → freeOf "}" post →
  braceBlock (pre +:+ "{" +:+ inner +:+ "}" +:+ post)
  = Some ("{" +:+ inner +:+ "}").
Proof.
  intros Hpre Hpost. unfold braceBlock.
  rewrite (splitAtFirst_app "{" "" pre _ Hpre).
  change ("}" +:+ post) with (String "}" post).
  by rewrite (beforeLast_app "}" inner post Hpost).
Qed.

Lemma braceBlock_None text :
  freeOf "{" text ∨ freeOf "}" text → braceBlock text = None.
Proof.
  unfold braceBlock. intros [H|H].
  - by rewrite (splitAtFirst_None "{" "" text H).
  - destruct (splitAtFirst "{" text) as [[before rest]|] eqn:E; [|done].
    assert (freeOf "}" rest) as Hrest; [|by rewrite (beforeLast_None _ _ Hrest)].
    clear -E H. revert before rest E. induction text as [|a r IH]; intros before rest.
    + cbn. discriminate.
    + cbn [splitAtFirst startsWith String.length dropChars].
      destruct (bool_decide ("{"%char = a)); cbn [andb].
      * intros E. injection E as _ <-. by apply freeOf_cons in H as [_ ?].
      * destruct (splitAtFirst "{" r) as [[b' r']|] eqn:E'; [|discriminate].
        intros E. injection E as _ <-. apply (IH ltac:(by apply freeOf_cons in H as [_ ?]) b' r' eq_refl).
Qed.

Section ParseAnswerProperties.

Variable J : Type.
Variable JSON_parse : string → string + J.

(** X15: an answer that is not JSON as a whole and holds a fence of three
    backticks, with or without the word [json] after the opening, around a
    text without backtick: what is parsed is that text, trimmed, whatever
    comes before the fence (without backtick) and after it.  The outcome of
    that parse is the outcome of the call: when it fails, its error is
    thrown, and the braces of the answer are not tried. *)
Theorem parseAnswer_fenced pre tag mid post :
  let text := pre +:+ "```" +:+ tag +:+ mid +:+ "```" +:+ post in
  freeOf "`" pre → freeOf "`" mid →
  (tag = "json" ∨ (tag = "" ∧ startsWith "json" mid = false)) →
  (∀ value, JSON_parse text ≠ inr value) →
  parseAnswer J JSON_parse (Some text) = JSON_parse (trim mid).
Proof.
  intros text Hpre Hmid Htag Hfail.
  cbv beta iota zeta delta [parseAnswer default from_option id].
  destruct (JSON_parse text) as [e|value] eqn:E; [|by destruct (Hfail value)].
  subst text. rewrite (fencedBlock_fence pre tag mid post Hpre Hmid Htag).
  unfold trim. by rewrite trimStart_idemp.
Qed.

(** X16: an answer that is not JSON as a whole and has no backtick.  When
    it has an opening brace, and after the first one a closing brace, what is
    parsed is the text from the first opening brace to the last closing
    brace; when it has no opening brace or no closing brace (so also when
    there is no content at all), the error [Could not parse AI response as
    JSON] is thrown. *)
Theorem parseAnswer_braces :
  (∀ pre inner post,
     let text := pre +:+ "{" +:+ inner +:+ "}" +:+ post in
     freeOf "`" text → freeOf "{" pre → freeOf "}" post →
     (∀ value, JSON_parse text ≠ inr value) →
     parseAnswer J JSON_parse (Some text) = JSON_parse ("{" +:+ inner +:+ "}"))
  ∧ (∀ content,
       let text := default "" content in
       freeOf "`" text → freeOf "{" text ∨ freeOf "}" text →
       (∀ value, JSON_parse text ≠ inr value) →
       parseAnswer J JSON_parse content
       = inl "Could not parse AI response as JSON").
Proof.
  split.
  - intros pre inner post text Htick Hpre Hpost Hfail.
    cbv beta iota zeta delta [parseAnswer default from_option id]. fold text.
    destruct (JSON_parse text) as [e|value] eqn:E; [|by destruct (Hfail value)].
    rewrite (fencedBlock_None text Htick). subst text.
    by rewrite (braceBlock_braces pre inner post Hpre Hpost).
  - intros content text Htick Hbrace Hfail. unfold parseAnswer. fold text.
    destruct (JSON_parse text) as [e|value] eqn:E; [|by destruct (Hfail value)].
    by rewrite (fencedBlock_None text Htick), (braceBlock_None text Hbrace).
Qed.

End ParseAnswerProperties.

Lemma parseAnswer_fenced_witness :
  parseAnswer unit sampleParse
    (Some ("Here it is: " +:+ "```" +:+ "json" +:+ " {} " +:+ "```" +:+ " Done."))
  = sampleParse (trim " {} ").
Proof.
  apply (parseAnswer_fenced unit sampleParse "Here it is: " "json" " {} " " Done.").
  - unfold freeOf. cbn. repeat constructor; discriminate.
  - unfold freeOf. cbn. repeat constructor; discriminate.
  - by left.
  - intros []. vm_compute. discriminate.
Defined.

Lemma parseAnswer_braces_witness :
  parseAnswer unit sampleParse (Some ("Sure: " +:+ "{" +:+ "" +:+ "}" +:+ " ok"))
  = sampleParse ("{" +:+ "" +:+ "}").
Proof.
  apply (proj1 (parseAnswer_braces unit sampleParse) "Sure: " "" " ok").
  - unfold freeOf. vm_compute. repeat constructor; discriminate.
  - unfold freeOf. cbn. repeat constructor; discriminate.
  - unfold freeOf. cbn. repeat constructor; discriminate.
  - intros []. vm_compute. discriminate.
Defined.

(** ** The upscaling *)

(** X17: an image of a width from 1 to 1199 is upscaled by a whole factor
    of at least 2, the same for the width and the height (the proportions are
    kept), to a width of at least 1200 and less than 1200 more than its own
    (so less than 2400); an image of a width of 1200 or more keeps its
    size. *)
Theorem preprocessedSize_bounds width height :
  0 < width →
  let size := preprocessedSize width height in
  minWidth ≤ size.1
  ∧ size.1 * height = size.2 * width
  ∧ (width < minWidth →
     size = (width * scale width, height * scale width)
     ∧ 2 ≤ scale width
     ∧ size.1 < minWidth + width)
  ∧ (minWidth ≤ width → size = (width, height)).
Proof.
  intros Hw. unfold preprocessedSize, needsUpscale, scale, minWidth. cbn zeta.
  pose proof (Nat.div_mod (1200 + width - 1) width ltac:(lia)) as Hdiv.
  pose proof (Nat.mod_upper_bound (1200 + width - 1) width ltac:(lia)) as Hmod.
  set (q := (1200 + width - 1) / width) in *.
  set (r := (1200 + width - 1) mod width) in *.
  destruct (Nat.ltb_spec width 1200) as [Hlt|Hge]; cbn [fst snd].
  - assert (2 ≤ q) by nia.
    split; [nia|]. split; [nia|]. split; [intros _; repeat split; nia|].
    intros ?. lia.
  - split; [lia|]. split; [lia|]. split; [intros ?; lia|done].
Qed.

Lemma preprocessedSize_bounds_witness :
  minWidth ≤ (preprocessedSize 500 700).1.
Proof. apply (preprocessedSize_bounds 500 700). lia. Defined.

(** ** The grades route *)

Lemma List_filter_sublist {A} (f : A → bool) l : sublist (List.filter f l) l.
Proof.
  induction l as [|x l IH]; cbn; [constructor|].
  destruct (f x); [by apply sublist_skip|by apply sublist_cons].
Qed.

Lemma cleanGrade_code idx g : Grade.subjectCode (cleanGrade idx g) ≠ "".
Proof.
  cbn. unfold orElse.
  destruct (bool_decide (RawGrade.subjectCode g = "")) eqn:E.
  - discriminate.
  - by apply bool_decide_eq_false in E.
Qed.

(** X18: the answers of the grades route.  Without file the status is 400,
    with a file and without key 500.  When the recognizer call throws an
    error whose status, or 500 when it has none or the status 0, is a status
    code (from 100 to 999), the answer has that status, and the message is
    that of [getErrorMessage]: the text on the rate limit for the status
    429, the text on the API key for 401, the message of the error
    otherwise; when that number is not a status code, the handler sends no
    answer.  When the call returns, the status is 200 and the grades are
    rows of the answer in their order, each with a code that is not empty
    and a finite grade above 0 and at most 5; [totalFound] is their number,
    which is at most the number of rows. *)
Theorem scanGrades_answers (sendToGroq : File → GradesResult) :
  (∀ apiKey, scanGrades None apiKey sendToGroq
             = GradesAnswered 400 (GradesError false "No image uploaded"))
  ∧ (∀ file apiKey, apiKey = None ∨ apiKey = Some "" →
       scanGrades (Some file) apiKey sendToGroq
       = GradesAnswered 500
           (GradesError false "GROQ_API_KEY not set. Add it to your .env file."))
  ∧ (∀ file apiKey error,
       apiKey ≠ "" → sendToGroq file = GradesThrows error →
       (100 ≤ errorStatus error ≤ 999 →
        scanGrades (Some file) (Some apiKey) sendToGroq
        = GradesAnswered (errorStatus error)
            (GradesError false (getErrorMessage error)))
       ∧ (¬ 100 ≤ errorStatus error ≤ 999 →
          scanGrades (Some file) (Some apiKey) sendToGroq = GradesHandlerThrows)
       ∧ (∀ n, JsError.status error = Some (S n) → errorStatus error = S n)
       ∧ (JsError.status error = None ∨ JsError.status error = Some 0 →
          errorStatus error = 500)
       ∧ (JsError.status error = Some 429 →
          getErrorMessage error
          = "Rate limited. Wait 1 minute and try again (max 30 req/min).")
       ∧ (JsError.status error = Some 401 →
          getErrorMessage error = "Invalid API key. Check your .env file.")
       ∧ (JsError.status error ≠ Some 429 → JsError.status error ≠ Some 401 →
          getErrorMessage error = JsError.message error))
  ∧ (∀ file apiKey rows confidence,
       apiKey ≠ "" → sendToGroq file = GradesReturns rows confidence →
       ∃ grades,
         scanGrades (Some file) (Some apiKey) sendToGroq
         = GradesAnswered 200
             (GradesData true grades (length grades)
                         (if bool_decide (confidence = "")
                          then "unknown" else confidence))
         ∧ sublist grades (imap cleanGrade (default [] rows))
         ∧ length grades ≤ length (default [] rows)
         ∧ Forall (λ g, Grade.subjectCode g ≠ ""
                        ∧ ∃ q, Grade.grade g = Finite q ∧ (0 < q)%Q ∧ (q <= 5)%Q)
                  grades).
Proof.
  split; [done|]. split; [|split].
  - intros file apiKey Hkey. unfold scanGrades. by rewrite bool_decide_true.
  - intros file apiKey error Hkey Hthrow. unfold scanGrades.
    rewrite bool_decide_false by (intros [?|?]; congruence). rewrite Hthrow.
    cbv zeta. split; [|split].
    + intros [Hlo Hhi].
      by rewrite (proj2 (Nat.leb_le _ _) Hlo), (proj2 (Nat.leb_le _ _) Hhi).
    + intros Hno.
      destruct ((100 <=? errorStatus error) && (errorStatus error <=? 999)) eqn:E;
        [|done].
      apply andb_true_iff in E as [Hlo%Nat.leb_le Hhi%Nat.leb_le].
      by destruct Hno.
    + unfold errorStatus, getErrorMessage.
      split; [by intros n ->|]. split; [by intros [-> | ->]|].
      split; [by intros ->|]. split; [by intros ->|].
      intros H1 H2. by rewrite !bool_decide_false.
  - intros file apiKey rows confidence Hkey Hret. unfold scanGrades.
    rewrite bool_decide_false by (intros [?|?]; congruence). rewrite Hret.
    exists (extractGrades rows). split; [done|]. unfold extractGrades.
    split; [apply List_filter_sublist|]. split.
    + etrans; [apply sublist_length, List_filter_sublist|].
      by rewrite length_imap.
    + apply Forall_forall. intros g Hg.
      apply list_elem_of_In, filter_In in Hg as [Hin Hok].
      apply list_elem_of_In, list_elem_of_lookup in Hin as [i Hi].
      rewrite list_lookup_imap in Hi.
      destruct (default [] rows !! i) as [raw|]; [|discriminate].
      cbn in Hi. injection Hi as <-. split; [apply cleanGrade_code|].
      apply andb_true_iff in Hok as [Hpos Hle].
      destruct (Grade.grade (cleanGrade i raw)) as [|q| |]; try discriminate.
      exists q. split; [done|]. cbn in Hpos, Hle.
      apply Qle_bool_iff in Hle. split; [|done].
      apply Qnot_le_lt. intros H. apply Qle_bool_iff in H.
      by rewrite H in Hpos.
Qed.

Lemma scanGrades_answers_witness :
  scanGrades (Some (pngFile "grades.png")) (Some "gsk_key")
    (λ _, GradesThrows {| JsError.message := "Too many requests";
                          JsError.status := Some 429 |})
  = GradesAnswered 429
      (GradesError false
         "Rate limited. Wait 1 minute and try again (max 30 req/min).").
Proof.
  pose proof (proj1 (proj2 (proj2 (scanGrades_answers
                (λ _, GradesThrows {| JsError.message := "Too many requests";
                                      JsError.status := Some 429 |}))))) as H.
  apply (H (pngFile "grades.png") "gsk_key"
           {| JsError.message := "Too many requests"; JsError.status := Some 429 |}).
  - discriminate.
  - reflexivity.
  - cbn. lia.
Defined.

(** ** The subjects of the answer *)

Section AnswerSubjects.

Variable preprocessImage : string → string.
Variable sendToGroq : File → GroqResult.

(** Every merged subject comes out of the hydration. *)
Lemma allSubjects_hydrated files s :
  s ∈ allSubjects (processImages preprocessImage sendToGroq 0 files initialState) →
  ∃ raw, s = hydrateSubject raw.
Proof.
  rewrite processImages_allSubjects, processImages_results.
  intros Hs. apply list_elem_of_In, in_concat in Hs as (l & Hl & Hs).
  apply list_elem_of_In in Hl, Hs.
  apply list_elem_of_fmap in Hl as (r & -> & Hr).
  apply list_elem_of_lookup in Hr as [i Hi]. rewrite list_lookup_imap in Hi.
  destruct (files !! i) as [file|]; [|discriminate].
  cbn in Hi. injection Hi as <-. unfold processImage in Hs.
  destruct (sendToGroq (sentFile preprocessImage file)) as [message|[rows|]];
    cbn in Hs; try (by apply not_elem_of_nil in Hs).
  unfold hydrateSubjectsFromReference in Hs.
  apply list_elem_of_fmap in Hs as (raw & -> & _). by exists raw.
Qed.

(** What the handler passes to the overall validation, for the files of
    an accepted upload: one or two image results, and deduplicated subjects
    whose codes are as the hydration leaves them. *)
Lemma scanCurriculum_validation_input parts files :
  uploadArray 2 parts = inr files → files ≠ [] →
  let st := processImages preprocessImage sendToGroq 0 files initialState in
  1 ≤ length (imageResults st) ≤ 2
  ∧ Forall canonicalCode (uniqueSubjects (allSubjects st)).
Proof.
  intros Hup Hfiles st. split.
  - subst st. rewrite processImages_results, length_imap.
    apply uploadArray_cases in Hup as (-> & Hlen & _).
    destruct parts; [done|]. cbn in *. lia.
  - apply Forall_forall. intros s Hs.
    apply (λ H, elem_of_sublist _ _ _ H (filterUnseen_sublist _ ∅)) in Hs.
    apply allSubjects_hydrated in Hs as [raw ->].
    apply hydrateSubject_canonical.
Qed.

(** X19: an answer of the handler that has the subjects.  Its status is
    200 and the request had files and a key; [success] and [quality] are
    those of the overall validation, and the numbers of images are the
    number of files.  The subjects are counted by [totalSubjectsFound] and
    by the total count of the validation; no two have the same code; each is
    an entry of the reference under its code, or has a code whose normalised
    key is that of no reference key; and the missing courses are exactly the
    reference codes that no subject of the answer has. *)
Theorem scanCurriculumHandler_answer files apiKey status success quality
    answered totalSubjectsFound imagesProcessed imageCount overall results
    image1Good image2Good totalImages :
  (scanCurriculumHandler preprocessImage sendToGroq files apiKey).1
  = Responded status
      (ScanBody success quality answered totalSubjectsFound imagesProcessed
                imageCount overall results image1Good image2Good totalImages) →
  status = 200
  ∧ (∃ uploaded key, files = Some uploaded ∧ uploaded ≠ [] ∧ apiKey = Some key
                     ∧ key ≠ ""
                     ∧ imagesProcessed = length uploaded
                     ∧ imageCount = length uploaded
                     ∧ totalImages = length uploaded
                     ∧ length results = length uploaded)
  ∧ success = OverallValidation.success overall
  ∧ quality = OverallValidation.quality overall
  ∧ totalSubjectsFound = length answered
  ∧ OverallValidation.totalCount overall = length answered
  ∧ image1Good = imageGood results 0
  ∧ image2Good = imageGood results 1
  ∧ NoDup (subjectCode <$> answered)
  ∧ (∀ s, s ∈ answered →
       (∃ reference, (subjectCode s, reference) ∈ CURRICULUM_REFERENCE
                     ∧ s = referenceSubject (subjectCode s, reference))
       ∨ (∀ refKey, refKey ∈ Object_keys CURRICULUM_REFERENCE →
            normalized (subjectCode s) ≠ normalized refKey))
  ∧ (∀ code, code ∈ OverallValidation.missingCourses overall
             ↔ code ∈ Object_keys CURRICULUM_REFERENCE
               ∧ ∀ s, s ∈ answered → subjectCode s ≠ code).
Proof.
  unfold scanCurriculumHandler.
  destruct files as [[|f fs]|]; [discriminate| |discriminate].
  destruct (bool_decide (apiKey = None ∨ apiKey = Some "")) eqn:Hkey;
    [discriminate|]. apply bool_decide_eq_false in Hkey.
  set (st := processImages preprocessImage sendToGroq 0 (f :: fs) initialState).
  cbn [fst]. intros H.
  injection H as <- <- <- <- <- <- <- <- <- <- <- <-.
  split; [done|]. split.
  { destruct apiKey as [key|]; [|by destruct Hkey; left].
    exists (f :: fs), key. repeat split; try done.
    - intros ->. apply Hkey. by right.
    - subst st. by rewrite processImages_results, length_imap. }
  split; [done|]. split; [done|]. split; [done|].
  split; [apply validateOverallExtraction_totalCount|].
  split; [done|]. split; [done|].
  split; [|split].
  - pose proof (filterUnseen_NoDup (allSubjects st) ∅) as Hnd.
    fold (uniqueSubjects (allSubjects st)) in Hnd.
    change (dedupKey <$> uniqueSubjects (allSubjects st))
      with ((λ s, removeWhiteSpace (toLowerCase (subjectCode s)))
              <$> uniqueSubjects (allSubjects st)) in Hnd.
    rewrite (list_fmap_compose subjectCode (λ c, removeWhiteSpace (toLowerCase c)))
      in Hnd.
    by apply NoDup_fmap_1 in Hnd.
  - intros s Hs.
    apply (λ H, elem_of_sublist _ _ _ H (filterUnseen_sublist _ ∅)) in Hs.
    apply allSubjects_hydrated in Hs as [raw ->].
    unfold hydrateSubject. rewrite normalized_trim.
    destruct (refLookup !! normalized (subjectCode raw))
      as [[refKey reference]|] eqn:E.
    + left. apply refLookup_Some in E as [Hin _]. exists reference. by split.
    + right. intros refKey Hin Hk.
      apply (proj1 (refLookup_None _)) with (refKey := refKey) in E;
        [|assumption]. apply E. symmetry. exact Hk.
  - intros code. rewrite missingCourses_exact, list_elem_of_filter.
    split.
    + intros [Hno Hin]. split; [done|]. intros s Hs Hcode. apply Hno.
      apply list_elem_of_fmap. by exists s.
    + intros [Hin Hno]. split; [|done].
      intros (s & -> & Hs)%list_elem_of_fmap. by apply (Hno s).
Qed.

End AnswerSubjects.

Lemma scanCurriculumHandler_answer_witness :
  let st := processImages samplePreprocess sampleRecognizer 0
              [pngFile "page1.png"; pngFile "bad.png"] initialState in
  NoDup (subjectCode <$> uniqueSubjects (allSubjects st))
  ∧ OverallValidation.totalCount
      (validateOverallExtraction (uniqueSubjects (allSubjects st)) (imageResults st))
    = length (uniqueSubjects (allSubjects st)).
Proof.
  intros st.
  pose proof (scanCurriculumHandler_answer samplePreprocess sampleRecognizer
                (Some [pngFile "page1.png"; pngFile "bad.png"]) (Some "gsk_key")
                200
                (OverallValidation.success
                   (validateOverallExtraction (uniqueSubjects (allSubjects st))
                      (imageResults st)))
                (OverallValidation.quality
                   (validateOverallExtraction (uniqueSubjects (allSubjects st))
                      (imageResults st)))
                (uniqueSubjects (allSubjects st))
                (length (uniqueSubjects (allSubjects st))) 2 2
                (validateOverallExtraction (uniqueSubjects (allSubjects st))
                   (imageResults st))
                (imageResults st)
                (imageGood (imageResults st) 0) (imageGood (imageResults st) 1) 2
                eq_refl) as H.
  split; [apply H|apply H].
Defined.

(** ** More rows never spoil an image *)

Lemma countOfYear_sublist year (xs ys : list Subject) :
  sublist xs ys → countOfYear year xs ≤ countOfYear year ys.
Proof.
  unfold countOfYear. induction 1 as [|x xs ys _ IH|y xs ys _ IH]; [done|..];
    rewrite !filter_cons; destruct (decide (yearLevel _ = year)); cbn [length]; lia.
Qed.

Lemma image1_good_iff subjects :
  ImageValidation.isGood (validateExtractionQuality subjects 1) = true
  ↔ 27 ≤ length subjects ∧ 12 ≤ countOfYear "1st Year" subjects
    ∧ 13 ≤ countOfYear "2nd Year" subjects.
Proof.
  unfold validateExtractionQuality, tentativeValidation, checkExpectedCount,
    checkImage1.
  change (expectedCounts 1) with
    (Some {| Expected.min := 27; Expected.max := 31;
             Expected.description := "1st & 2nd Year" |}).
  change (1 =? 1)%Z with true. change (1 =? 2)%Z with false. cbv beta iota.
  rewrite !yearBelow_count by lia.
  cbn [Expected.min Expected.max Expected.description].
  destruct (Nat.ltb_spec (length subjects) 27) as [Hn|Hn];
    destruct (Nat.ltb_spec 31 (length subjects)) as [Hm|Hm]; try lia;
    destruct (Nat.ltb_spec (countOfYear "1st Year" subjects) 12) as [H1|H1];
    destruct (Nat.ltb_spec (countOfYear "2nd Year" subjects) 13) as [H2|H2];
    cbn; (split; [intros ?; (discriminate || lia) | intros ?; (reflexivity || lia)]).
Qed.

Lemma image2_good_iff subjects :
  ImageValidation.isGood (validateExtractionQuality subjects 2) = true
  ↔ 23 ≤ length subjects ∧ 11 ≤ countOfYear "3rd Year" subjects
    ∧ 9 ≤ countOfYear "4th Year" subjects
    ∧ someWithCode "CS 122" subjects = true.
Proof.
  destruct (validateExtractionQuality_image2_fields subjects) as (Hi & _).
  cbn zeta in Hi. rewrite isGood_final, Hi.
  destruct (Nat.ltb_spec (length subjects) 23) as [Hn|Hn];
    destruct (Nat.ltb_spec (countOfYear "3rd Year" subjects) 11) as [H3|H3];
    destruct (Nat.ltb_spec (countOfYear "4th Year" subjects) 9) as [H4|H4];
    destruct (someWithCode "CS 122" subjects); cbn;
    (split; [intros ?; (discriminate || (repeat split; (lia || done)))
            | intros (? & ? & ? & ?); (reflexivity || lia || discriminate)]).
Qed.

Lemma other_image_good subjects imageNumber :
  imageNumber ≠ 1%Z → imageNumber ≠ 2%Z →
  ImageValidation.isGood (validateExtractionQuality subjects imageNumber) = true.
Proof.
  intros H1 H2.
  unfold validateExtractionQuality, tentativeValidation, checkExpectedCount,
    expectedCounts.
  apply Z.eqb_neq in H1, H2. by rewrite H1, H2.
Qed.

(** X20: more rows never spoil an image.  When the subjects of an image
    pass its validation, so do the subjects of any list that holds them in
    their order among others, for every image number: a count above the
    expected range only gives a warning. *)
Theorem validateExtractionQuality_monotone subjects subjects' imageNumber :
  sublist subjects subjects' →
  ImageValidation.isGood (validateExtractionQuality subjects imageNumber) = true →
  ImageValidation.isGood (validateExtractionQuality subjects' imageNumber) = true.
Proof.
  intros Hsub.
  pose proof (sublist_length _ _ Hsub) as Hlen.
  destruct (decide (imageNumber = 1%Z)) as [->|H1].
  - rewrite !image1_good_iff. intros (Hn & Hy1 & Hy2).
    pose proof (countOfYear_sublist "1st Year" _ _ Hsub).
    pose proof (countOfYear_sublist "2nd Year" _ _ Hsub). lia.
  - destruct (decide (imageNumber = 2%Z)) as [->|H2].
    + rewrite !image2_good_iff. intros (Hn & Hy3 & Hy4 & Hcs).
      pose proof (countOfYear_sublist "3rd Year" _ _ Hsub).
      pose proof (countOfYear_sublist "4th Year" _ _ Hsub).
      repeat split; try lia.
      apply someWithCode_true in Hcs as (s & Hs & Hcode).
      apply someWithCode_true. exists s. split; [|done].
      by apply (elem_of_sublist _ _ _ Hs Hsub).
    + intros _. by apply other_image_good.
Qed.

Lemma validateExtractionQuality_monotone_witness :
  ImageValidation.isGood
    (validateExtractionQuality (firstSubjects 29 ++ firstSubjects 5)%list 1) = true.
Proof.
  apply (validateExtractionQuality_monotone (firstSubjects 29)).
  - apply sublist_inserts_r. reflexivity.
  - vm_compute. reflexivity.
Defined.

Lemma processImages_results_invariant_witness :
  imageNumber
    {| imageNumber := 2; originalFile := "bad.png"; subjects := [];
       validation := Some (failedValidation "Could not parse AI response as JSON") |}
  = (Z.of_nat 1 + 1)%Z.
Proof.
  apply (processImages_results_invariant samplePreprocess sampleRecognizer
           [pngFile "page1.png"; pngFile "bad.png"]).
  reflexivity.
Defined.
